(** * Wire-protocol clients of saba-chan-modules (minecraft module)

    A shallow embedding of the two binary protocol clients of the
    repository and the properties their design document states:

    - [MinecraftPing] (src/minecraft/lifecycle.py): the Server List Ping
      client, its varint codec, its response parser and its accumulation
      loop, together with the [status] lifecycle function built on it;
    - [daemon_rcon] (src/minecraft/daemon_rcon.py): the direct-socket RCON
      fallback of [rcon_command] with its local helpers [_make_packet] and
      [_read_packet], and the daemon-delegating [DaemonRconClient].

    Python integers are unbounded, so they are [Z]; [bytes] objects are
    lists of [Byte.byte]; exceptions are values of [exn] carried by the
    [outcome] monad; sockets are explicit state threaded through the calls. *)

From Stdlib Require Import ZArith String Ascii Bool Lia Arith List.
From Stdlib Require Import Strings.Byte.
From Stdlib Require Import Floats.PrimFloat.
Import ListNotations.

Set Warnings "-register-all".

Local Open Scope Z_scope.

(** ** Python runtime: exceptions and outcomes *)

(** The exception classes the modelled code can meet.  All of them derive
    from Python's [Exception]. *)
Inductive exn : Type :=
| ValueError (msg : string)
| JSONDecodeError            (* json.JSONDecodeError, a ValueError *)
| UnicodeDecodeError         (* a ValueError *)
| StructError                (* struct.error *)
| AttributeError
| TypeError
| RecursionError
| MemoryError
| SocketTimeout              (* socket.timeout, an OSError *)
| OSError                    (* socket.error is an alias of OSError *)
| ConnectionRefusedError     (* a ConnectionError, hence an OSError *)
| ConnectionResetError       (* a ConnectionError, hence an OSError *)
| ConnectionError (msg : string)
| URLError                   (* urllib.error.URLError, an OSError *)
| HTTPError (code : Z)       (* urllib.error.HTTPError, a URLError *)
| OverflowError.

(** [isinstance(e, ValueError)]. *)
Definition is_ValueError (e : exn) : bool :=
  match e with
  | ValueError _ | JSONDecodeError | UnicodeDecodeError => true
  | _ => false
  end.

(** [isinstance(e, ConnectionError)]. *)
Definition is_ConnectionError (e : exn) : bool :=
  match e with
  | ConnectionRefusedError | ConnectionResetError | ConnectionError _ => true
  | _ => false
  end.

(** [isinstance(e, urllib.error.URLError)]. *)
Definition is_URLError (e : exn) : bool :=
  match e with
  | URLError | HTTPError _ => true
  | _ => false
  end.

(** [isinstance(e, OSError)]; [socket.timeout] and [socket.error] are
    subclasses or aliases of it. *)
Definition is_OSError (e : exn) : bool :=
  match e with
  | SocketTimeout | OSError => true
  | _ => is_ConnectionError e || is_URLError e
  end.

(** What running a piece of Python gives: a value, a raised exception, or
    (for the loops that need a step budget in the model) no answer within
    the budget. *)
Inductive outcome (A : Type) : Type :=
| Ok (a : A)
| Raise (e : exn)
| OutOfFuel.

Arguments Ok {A} a.
Arguments Raise {A} e.
Arguments OutOfFuel {A}.

(** What a call into the Python library gives: it returns or it raises. *)
Inductive result (A : Type) : Type :=
| Returns (a : A)
| Raises (e : exn).

Arguments Returns {A} a.
Arguments Raises {A} e.

Definition call {A : Type} (r : result A) : outcome A :=
  match r with
  | Returns a => Ok a
  | Raises e => Raise e
  end.

Definition bind {A B : Type} (m : outcome A) (k : A -> outcome B) : outcome B :=
  match m with
  | Ok a => k a
  | Raise e => Raise e
  | OutOfFuel => OutOfFuel
  end.

Notation "x <- m ;; k" := (bind m (fun x => k))
  (at level 61, m at next level, right associativity).
Notation "' pat <- m ;; k" := (bind m (fun x => match x with pat => k end))
  (at level 61, pat pattern, m at next level, right associativity).

(** ** Bytes *)

Definition bytes := list byte.

(** The integer value of a byte, as [data[i]] gives it. *)
Definition byte_val (b : byte) : Z := Z.of_N (Byte.to_N b).

(** The byte whose value is [z mod 256]. *)
Definition byte_of_Z (z : Z) : byte :=
  match Byte.of_N (Z.to_N (z mod 256)) with
  | Some b => b
  | None => x00
  end.

(** [struct.pack("B", x)]: one unsigned byte; [struct.error] outside 0..255. *)
Definition pack_B (x : Z) : outcome byte :=
  if (x <? 0) || (255 <? x) then Raise StructError
  else Ok (byte_of_Z x).

(** [len(b)] as a Python integer. *)
Definition len {A : Type} (l : list A) : Z := Z.of_nat (length l).

(** ** Python values and the library functions the code calls *)

(** What [json.loads] returns: [JNull] is Python's [None], [JDict] a [dict]
    (keys are unique; [get] takes the first binding), [JList] a [list]. *)
Inductive json : Type :=
| JNull
| JBool (b : bool)
| JInt (n : Z)
| JFloat (f : float)
| JStr (s : string)
| JList (items : list json)
| JDict (entries : list (string * json)).

(** Python truthiness of a value, as [if x:] tests it. *)
Definition truthy (v : json) : bool :=
  match v with
  | JNull => false
  | JBool b => b
  | JInt n => negb (n =? 0)
  | JFloat f => negb (PrimFloat.eqb f PrimFloat.zero)
  | JStr s => negb (String.eqb s EmptyString)
  | JList items => match items with [] => false | _ => true end
  | JDict entries => match entries with [] => false | _ => true end
  end.

Fixpoint lookup (key : string) (entries : list (string * json)) : option json :=
  match entries with
  | [] => None
  | (k, v) :: rest => if String.eqb k key then Some v else lookup key rest
  end.

(** [d.get(key, default)]: only a [dict] has the method, every other value
    raises [AttributeError]. *)
Definition py_get (d : json) (key : string) (default : json) : outcome json :=
  match d with
  | JDict entries =>
      match lookup key entries with
      | Some v => Ok v
      | None => Ok default
      end
  | _ => Raise AttributeError
  end.

(** The functions of the Python standard library and of the module's
    environment that the modelled code calls and that are not part of the
    repository. *)
Class PyRuntime : Type := {
  (* [b.decode("utf-8")]; fails with [UnicodeDecodeError] *)
  utf8_decode : bytes -> result string;
  (* [b.decode("utf-8", errors="replace")]; never fails *)
  utf8_decode_replace : bytes -> string;
  (* [json.loads(text)] *)
  json_loads : string -> result json;
  (* [str(x)] *)
  py_str : json -> string;
  (* [i18n.t(key)] *)
  i18n_t : string -> string;
  (* [os.kill(pid, 0)]: [None] when the call returns, else what it raises *)
  os_kill0 : Z -> option exn;
  (* [os.environ.get("DAEMON_API_URL")] *)
  env_daemon_api_url : option string
}.

(** [s.encode("utf-8")]: a [string] holds the UTF-8 bytes of the text. *)
Definition encode_utf8 (s : string) : bytes := list_byte_of_string s.

(** [data[start:stop]] for [start >= 0]: a negative [stop] counts from the
    end, and both ends are clamped to the length. *)
Definition py_slice (data : bytes) (start : nat) (stop : Z) : bytes :=
  let stop := if stop <? 0 then Z.max 0 (len data + stop) else stop in
  firstn (Z.to_nat stop - start) (skipn start data).

(** ** struct.pack / struct.unpack *)

Definition int32_min : Z := - 2 ^ 31.
Definition int32_max : Z := 2 ^ 31 - 1.

(** The [n] low bytes of [x], least significant first. *)
Fixpoint le_bytes (n : nat) (x : Z) : bytes :=
  match n with
  | O => []
  | S n' => byte_of_Z x :: le_bytes n' (x / 256)
  end.

(** The unsigned value of little-endian bytes. *)
Fixpoint le_value (bs : bytes) : Z :=
  match bs with
  | [] => 0
  | b :: rest => byte_val b + 256 * le_value rest
  end.

(** [struct.pack("<i", x)]: [struct.error] outside the signed 32-bit range. *)
Definition pack_i (x : Z) : outcome bytes :=
  if (x <? int32_min) || (int32_max <? x) then Raise StructError
  else Ok (le_bytes 4 (x mod 2 ^ 32)).

(** [struct.pack("<ii", a, b)]. *)
Definition pack_ii (a b : Z) : outcome bytes :=
  x <- pack_i a ;;
  y <- pack_i b ;;
  Ok (x ++ y).

(** [struct.unpack("<i", bs)[0]]: [struct.error] unless [bs] has 4 bytes. *)
Definition unpack_i (bs : bytes) : outcome Z :=
  if negb (Nat.eqb (length bs) 4) then Raise StructError
  else
    let u := le_value bs in
    Ok (if 2 ^ 31 <=? u then u - 2 ^ 32 else u).

(** [struct.pack(">H", x)]: 16 bits, big-endian, unsigned. *)
Definition pack_H (x : Z) : outcome bytes :=
  if (x <? 0) || (65535 <? x) then Raise StructError
  else Ok [byte_of_Z (x / 256); byte_of_Z x].

(** ** The world: one TCP socket, the daemon's HTTP endpoint, randomness *)

(** The ways a socket call fails; each is an [OSError]. *)
Inductive sock_error : Type :=
| SockTimeout | SockRefused | SockReset | SockOther.

Definition exn_of_sock_error (e : sock_error) : exn :=
  match e with
  | SockTimeout => SocketTimeout
  | SockRefused => ConnectionRefusedError
  | SockReset => ConnectionResetError
  | SockOther => OSError
  end.

(** The ways [sock.connect((host, port))] fails for reasons outside the
    call's arguments.  The socket module encodes the host name first, then
    resolves it, and only then connects. *)
Inductive connect_failure : Type :=
| HostRejected               (* the idna codec refuses the name: TypeError *)
| HostUnresolved             (* getaddrinfo fails: socket.gaierror, an OSError *)
| ConnectFailed (e : sock_error).

(** What the transport does at a [recv]: it has a chunk of bytes ready, or
    the call fails.  When the script is exhausted the peer has closed the
    stream and [recv] returns an empty [bytes].  A peer that never stops
    sending is met through its finite prefixes: on a script longer than
    their budget the loops end in [OutOfFuel]. *)
Inductive recv_event : Type :=
| Deliver (chunk : bytes)
| RecvError (e : sock_error).

(** The socket a call opens: the behaviour of the network it will meet
    ([net_*]) and what the call has done to it so far ([sock_*]). *)
Record socket_state : Type := {
  net_create : option sock_error;        (* socket.socket() *)
  net_connect : option connect_failure;  (* sock.connect() *)
  net_send : list (option sock_error);   (* the successive sock.sendall() *)
  net_recv : list recv_event;            (* the successive sock.recv() *)
  sock_created : bool;
  sock_closed : bool;
  sock_sent : list bytes                 (* arguments of sendall, in order *)
}.

(** A reply of the daemon to [urlopen(req)] followed by [resp.read()]. *)
Inductive http_reply : Type :=
| Reply (body : bytes)
| Failure (e : exn).

Record http_request : Type := {
  req_url : string;
  req_body : json                        (* the payload given to json.dumps *)
}.

Record http_state : Type := {
  http_replies : list http_reply;
  http_requests : list http_request      (* requests made, in order *)
}.

Record world : Type := {
  w_sock : socket_state;
  w_http : http_state;
  w_rand : list Z                        (* entropy behind random.randint *)
}.

Definition with_sock (w : world) (s : socket_state) : world :=
  {| w_sock := s; w_http := w_http w; w_rand := w_rand w |}.

(** Code that runs in the world: it returns an outcome and the world it
    leaves behind (the world at the raise, when it raises). *)
Definition M (A : Type) : Type := world -> outcome A * world.

Definition ret {A : Type} (a : A) : M A := fun w => (Ok a, w).
Definition raise {A : Type} (e : exn) : M A := fun w => (Raise e, w).
Definition lift {A : Type} (m : outcome A) : M A := fun w => (m, w).

Definition bindM {A B : Type} (m : M A) (k : A -> M B) : M B :=
  fun w =>
    match m w with
    | (Ok a, w') => k a w'
    | (Raise e, w') => (Raise e, w')
    | (OutOfFuel, w') => (OutOfFuel, w')
    end.

Notation "x <-- m ;; k" := (bindM m (fun x => k))
  (at level 61, m at next level, right associativity).
Notation "m >> k" := (bindM m (fun _ => k))
  (at level 61, right associativity).

(** [try: m  except ...: handler]; the handler re-raises what its clauses
    do not match. *)
Definition try_except {A : Type} (m : M A) (handler : exn -> M A) : M A :=
  fun w =>
    match m w with
    | (Raise e, w') => handler e w'
    | r => r
    end.

(** [try: m  finally: cleanup]. *)
Definition try_finally {A : Type} (m : M A) (cleanup : M unit) : M A :=
  fun w =>
    match m w with
    | (r, w') =>
        match cleanup w' with
        | (Ok _, w'') => (r, w'')
        | (Raise e, w'') => (Raise e, w'')
        | (OutOfFuel, w'') => (OutOfFuel, w'')
        end
    end.

Module Socket.

Definition set_created (s : socket_state) : socket_state :=
  {| net_create := net_create s; net_connect := net_connect s;
     net_send := net_send s; net_recv := net_recv s;
     sock_created := true; sock_closed := sock_closed s;
     sock_sent := sock_sent s |}.

Definition set_closed (s : socket_state) : socket_state :=
  {| net_create := net_create s; net_connect := net_connect s;
     net_send := net_send s; net_recv := net_recv s;
     sock_created := sock_created s; sock_closed := true;
     sock_sent := sock_sent s |}.

Definition set_recv (s : socket_state) (evs : list recv_event) : socket_state :=
  {| net_create := net_create s; net_connect := net_connect s;
     net_send := net_send s; net_recv := evs;
     sock_created := sock_created s; sock_closed := sock_closed s;
     sock_sent := sock_sent s |}.

Definition log_send (s : socket_state) (data : bytes) : socket_state :=
  {| net_create := net_create s; net_connect := net_connect s;
     net_send := tl (net_send s); net_recv := net_recv s;
     sock_created := sock_created s; sock_closed := sock_closed s;
     sock_sent := sock_sent s ++ [data] |}.

(** [socket.socket(AF_INET, SOCK_STREAM)]. *)
Definition socket_ : M unit := fun w =>
  match net_create (w_sock w) with
  | Some e => (Raise (exn_of_sock_error e), w)
  | None => (Ok tt, with_sock w (set_created (w_sock w)))
  end.

(** [sock.settimeout(timeout)] for a timeout given in whole seconds: a
    negative one is a [ValueError], one that does not fit the 64-bit
    nanosecond clock an [OverflowError]. *)
Definition timeout_max : Z := 9223372036.

Definition settimeout (timeout : Z) : M unit := fun w =>
  if (timeout <? - timeout_max) || (timeout_max <? timeout)
  then (Raise OverflowError, w)
  else if timeout <? 0 then (Raise (ValueError "Timeout value out of range"), w)
  else (Ok tt, w).

(** Whether a host name holds a NUL character. *)
Fixpoint has_nul (host : string) : bool :=
  match host with
  | EmptyString => false
  | String c rest => Ascii.eqb c Ascii.zero || has_nul rest
  end.

(** [sock.connect((host, port))].  The address is converted in this order:
    the host name is encoded ([TypeError] for a NUL character or a name the
    idna codec refuses), the port must fit a C int ([OverflowError]), the
    name is resolved ([socket.gaierror]), the port must lie in 0..65535
    ([OverflowError]); then the connection is attempted. *)
Definition connect (host : string) (port : Z) : M unit := fun w =>
  if has_nul host then (Raise TypeError, w)
  else
    match net_connect (w_sock w) with
    | Some HostRejected => (Raise TypeError, w)
    | answer =>
        if (port <? int32_min) || (int32_max <? port) then (Raise OverflowError, w)
        else
          match answer with
          | Some HostUnresolved => (Raise OSError, w)
          | answer =>
              if (port <? 0) || (65535 <? port) then (Raise OverflowError, w)
              else
                match answer with
                | Some (ConnectFailed e) => (Raise (exn_of_sock_error e), w)
                | _ => (Ok tt, w)
                end
          end
    end.

(** [sock.sendall(data)]: the call is recorded, then succeeds or fails as
    the network decides. *)
Definition sendall (data : bytes) : M unit := fun w =>
  let s := w_sock w in
  if sock_closed s then (Raise OSError, w)
  else
    let w' := with_sock w (log_send s data) in
    match net_send s with
    | Some e :: _ => (Raise (exn_of_sock_error e), w')
    | _ => (Ok tt, w')
    end.

(** [sock.recv(n)]: at most [n] bytes of the chunk the transport has ready;
    what is left of the chunk stays for the next call. *)
Definition recv (n : Z) : M bytes := fun w =>
  let s := w_sock w in
  if sock_closed s then (Raise OSError, w)
  else
    match net_recv s with
    | [] => (Ok [], w)
    | RecvError e :: evs =>
        (Raise (exn_of_sock_error e), with_sock w (set_recv s evs))
    | Deliver chunk :: evs =>
        let k := Z.to_nat n in
        if Nat.leb (length chunk) k
        then (Ok chunk, with_sock w (set_recv s evs))
        else (Ok (firstn k chunk),
              with_sock w (set_recv s (Deliver (skipn k chunk) :: evs)))
    end.

(** [sock.close()]. *)
Definition close : M unit := fun w =>
  (Ok tt, with_sock w (set_closed (w_sock w))).

End Socket.

(** [random.randint(lo, hi)]: some integer of [lo..hi], drawn from the
    world's entropy. *)
Definition randint (lo hi : Z) : M Z := fun w =>
  let x := hd 0 (w_rand w) in
  (Ok (lo + x mod (hi - lo + 1)),
   {| w_sock := w_sock w; w_http := w_http w; w_rand := tl (w_rand w) |}).

(** ** Server List Ping (class [MinecraftPing] of lifecycle.py) *)

Module MinecraftPing.

(** The [while True] loop of [_encode_varint].  [fuel] bounds the number of
    iterations: the source loop does not terminate on a negative [value]
    (an arithmetic right shift of a negative number never reaches 0). *)
Fixpoint encode_loop (fuel : nat) (value : Z) (result : bytes) : outcome bytes :=
  match fuel with
  | O => OutOfFuel
  | S fuel' =>
      let byte := Z.land value 0x7F in
      let value := Z.shiftr value 7 in
      let byte := if negb (value =? 0) then Z.lor byte 0x80 else byte in
      b <- pack_B byte ;;
      let result := result ++ [b] in
      if value =? 0 then Ok result
      else encode_loop fuel' value result
  end.

Definition _encode_varint (fuel : nat) (value : Z) : outcome bytes :=
  let value := if value <? 0 then value + Z.shiftl 1 32 else value in
  encode_loop fuel value [].

(** The [while True] loop of [_read_varint].  [rest] is [data[offset:]], so
    that [offset >= len(data)] holds exactly when [rest] is empty and
    [data[offset]] is its head; the loop stops at the first byte whose high
    bit is clear, whatever the number of bytes read so far. *)
Fixpoint read_loop (rest : bytes) (offset : nat) (result shift : Z)
  : outcome (Z * nat) :=
  match rest with
  | [] => Raise (ValueError "VarInt too short")
  | b :: rest' =>
      let byte := byte_val b in
      let offset := S offset in
      let result := Z.lor result (Z.shiftl (Z.land byte 0x7F) shift) in
      if Z.land byte 0x80 =? 0 then Ok (result, offset)
      else read_loop rest' offset result (shift + 7)
  end.

(** Offsets are natural numbers: every call site passes 0 or an offset a
    previous call returned. *)
Definition _read_varint (data : bytes) (offset : nat) : outcome (Z * nat) :=
  '(result, offset) <- read_loop (skipn offset data) offset 0 0 ;;
  let result :=
    if negb (Z.land result (Z.shiftl 1 31) =? 0)
    then result - Z.shiftl 1 32 else result in
  Ok (result, offset).

(** [_parse_response(data)]: the status document, or [JNull] (Python's
    [None]) when the buffer does not hold one.  The [except] clause catches
    [ValueError] and its subclasses; anything else propagates. *)
Definition _parse_response `{PyRuntime} (data : bytes) : outcome json :=
  match
    '(pkt_len, offset) <- _read_varint data 0 ;;
    if len data <? Z.of_nat offset + pkt_len then Ok JNull
    else
      '(pkt_id, offset) <- _read_varint data offset ;;
      if negb (pkt_id =? 0) then Ok JNull
      else
        '(json_len, offset) <- _read_varint data offset ;;
        text <- call (utf8_decode (py_slice data offset (Z.of_nat offset + json_len))) ;;
        call (json_loads text)
  with
  | Raise e => if is_ValueError e then Ok JNull else Raise e
  | r => r
  end.

Definition is_None (v : json) : bool :=
  match v with JNull => true | _ => false end.

(** The [while True] loop of [ping] that accumulates the response.  The
    result is what [ping] returns from inside or after the loop. *)
Fixpoint recv_loop `{PyRuntime} (fuel : nat) (data : bytes) : M json :=
  match fuel with
  | O => fun w => (OutOfFuel, w)
  | S fuel' =>
      chunk <-- Socket.recv 4096 ;;
      match chunk with
      | [] =>                                   (* break *)
          Socket.close >> ret JNull
      | _ =>
          let data := data ++ chunk in
          returned <--
            try_except
              (parsed <-- lift (_parse_response data) ;;
               if negb (is_None parsed)
               then Socket.close >> ret (Some parsed)
               else ret None)
              (fun _ => ret None) ;;              (* except Exception: continue *)
          match returned with
          | Some parsed => ret parsed
          | None => recv_loop fuel' data
          end
      end
  end.

(** [ping(host, port, timeout)]; [fuel] is the step budget of its loops.
    How long the network waits before a [SockTimeout] is the world's
    affair; the timeout itself matters to [settimeout] only. *)
Definition ping `{PyRuntime} (fuel : nat) (host : string) (port : Z) (timeout : Z)
  : M json :=
  try_except
    (Socket.socket_ >>
     Socket.settimeout timeout >>
     Socket.connect host port >>
     (* Handshake *)
     protocol_version <-- lift (_encode_varint fuel (-1)) ;;
     let host_bytes := encode_utf8 host in
     host_len <-- lift (_encode_varint fuel (len host_bytes)) ;;
     port_bytes <-- lift (pack_H port) ;;
     next_state <-- lift (_encode_varint fuel 1) ;;
     packet_id <-- lift (_encode_varint fuel 0) ;;
     let handshake_data :=
       packet_id ++ protocol_version ++ host_len ++ host_bytes
                 ++ port_bytes ++ next_state in
     handshake_len <-- lift (_encode_varint fuel (len handshake_data)) ;;
     Socket.sendall (handshake_len ++ handshake_data) >>
     (* Status request *)
     one <-- lift (_encode_varint fuel 1) ;;
     zero <-- lift (_encode_varint fuel 0) ;;
     Socket.sendall (one ++ zero) >>
     (* Read response *)
     recv_loop fuel [])
    (fun e => if is_OSError e then ret JNull else raise e).

End MinecraftPing.

(** ** lifecycle.py: [status] *)

(** The entries of the [config] dict that [status] reads, already typed
    (so that [int(port)] is the identity); an absent key is [None]. *)
Record config : Type := {
  cfg_pid : option Z;
  cfg_port : option Z;
  cfg_host : option string
}.

(** The dict [status] returns when the ping answered. *)
Record running_status : Type := {
  pid : option Z;
  players_online : json;
  players_max : json;
  player_list : list json;
  version : json;
  protocol : json;
  motd : json;
  message : string
}.

(** The four dicts [status] can return. *)
Inductive status_result : Type :=
| Running (r : running_status)            (* success, status "running", online *)
| Starting (pid : Z) (message : string)   (* success, status "starting" *)
| Stopped (message : string)              (* success, status "stopped" *)
| Failed (e : exn).                       (* success False, "Status check failed" *)

Fixpoint chars (s : string) : list string :=
  match s with
  | EmptyString => []
  | String c rest => String c EmptyString :: chars rest
  end.

(** The items a [for] loop draws from a value: the elements of a list, the
    keys of a dict, the characters of a string; [TypeError] otherwise. *)
Definition iter_items (v : json) : outcome (list json) :=
  match v with
  | JList items => Ok items
  | JDict entries => Ok (List.map (fun kv => JStr (fst kv)) entries)
  | JStr s => Ok (List.map JStr (chars s))
  | _ => Raise TypeError
  end.

(** A list comprehension [[f(p) for p in items]]. *)
Fixpoint comprehension {A B : Type} (f : A -> outcome B) (items : list A)
  : outcome (list B) :=
  match items with
  | [] => Ok []
  | p :: rest =>
      y <- f p ;;
      ys <- comprehension f rest ;;
      Ok (y :: ys)
  end.

Definition status `{PyRuntime} (fuel : nat) (cfg : config) : M status_result :=
  try_except
    (let pid := cfg_pid cfg in
     let port := match cfg_port cfg with Some p => p | None => 25565 end in
     let host := match cfg_host cfg with Some h => h | None => "127.0.0.1"%string end in
     ping_result <-- MinecraftPing.ping fuel host port 3 ;;
     if truthy ping_result then
       lift (players <- py_get ping_result "players" (JDict []) ;;
             version <- py_get ping_result "version" (JDict []) ;;
             desc <- py_get ping_result "description" (JStr "") ;;
             desc <- match desc with
                     | JDict _ => py_get desc "text" (JStr "")
                     | _ => Ok desc
                     end ;;
             online <- py_get players "online" (JInt 0) ;;
             max <- py_get players "max" (JInt 0) ;;
             sample <- py_get players "sample" (JList []) ;;
             items <- iter_items sample ;;
             names <- comprehension (fun p => py_get p "name" (JStr "")) items ;;
             version_name <- py_get version "name" (JStr "unknown") ;;
             version_protocol <- py_get version "protocol" (JInt (-1)) ;;
             Ok (Running {| pid := pid;
                            players_online := online;
                            players_max := max;
                            player_list := names;
                            version := version_name;
                            protocol := version_protocol;
                            motd := desc;
                            message := i18n_t "messages.server_online" |}))
     else
       let stopped := Stopped (i18n_t "messages.no_process_running") in
       match pid with
       | Some p =>
           if negb (p =? 0) then
             match os_kill0 p with
             | None => ret (Starting p (i18n_t "messages.server_starting_no_response"))
             | Some e => if is_OSError e then ret stopped else raise e
             end
           else ret stopped
       | None => ret stopped
       end)
    (fun e => ret (Failed e)).                  (* except Exception as e *)

(** ** daemon_rcon.py *)

Module daemon_rcon.

Definition _DEFAULT_DAEMON_URL : string := "http://127.0.0.1:57474".

Definition _daemon_url `{PyRuntime} : string :=
  match env_daemon_api_url with
  | Some url => url
  | None => _DEFAULT_DAEMON_URL
  end.

(** [urllib.request.urlopen(req, timeout)] followed by [resp.read()], for
    a URL that urllib accepts: the request is recorded and the daemon's
    next reply decides the result; an unreachable daemon (no reply left)
    is a [URLError]. *)
Definition urlopen (req : http_request) : M bytes := fun w =>
  let h := w_http w in
  let w' := {| w_sock := w_sock w;
               w_http := {| http_replies := tl (http_replies h);
                            http_requests := http_requests h ++ [req] |};
               w_rand := w_rand w |} in
  match http_replies h with
  | [] => (Raise URLError, w')
  | Reply body :: _ => (Ok body, w')
  | Failure e :: _ => (Raise e, w')
  end.

(** [daemon_rcon_command(instance_id, command, rcon_port=, rcon_password=)].
    The first [except] clause, for [URLError], also matches [HTTPError],
    its subclass, so the second clause never runs.  The messages of the
    [ConnectionError]s keep their constant prefix. *)
Definition daemon_rcon_command `{PyRuntime} (instance_id command : string)
    (rcon_port : option Z) (rcon_password : option string) : M json :=
  let url := (_daemon_url ++ "/api/instance/" ++ instance_id ++ "/rcon")%string in
  let payload :=
    [("command"%string, JStr command)]
    ++ match rcon_port with Some p => [("rcon_port"%string, JInt p)] | None => [] end
    ++ match rcon_password with
       | Some pw => [("rcon_password"%string, JStr pw)]
       | None => []
       end in
  let req := {| req_url := url; req_body := JDict payload |} in
  try_except
    (body <-- urlopen req ;;
     lift (text <- call (utf8_decode body) ;;
           result <- call (json_loads text) ;;
           error <- py_get result "error" JNull ;;
           if truthy error then Raise (ConnectionError "RCON failed")
           else
             response_data <- py_get result "data" JNull ;;
             match response_data with
             | JDict _ => py_get response_data "data" (JStr (py_str response_data))
             | JNull => py_get result "message" (JStr "")
             | _ => Ok (JStr (py_str response_data))
             end))
    (fun e => if is_URLError e
              then raise (ConnectionError "Daemon unreachable")
              else raise e).

Module DaemonRconClient.

(** The attributes of an instance. *)
Record t : Type := {
  instance_id : string;
  host : string;
  port : Z;
  password : string;
  _connected : bool
}.

Definition set_connected (self : t) (b : bool) : t :=
  {| instance_id := instance_id self; host := host self; port := port self;
     password := password self; _connected := b |}.

(** [__init__], with [port] already an integer. *)
Definition init (instance_id host : string) (port : Z) (password : string) : t :=
  {| instance_id := instance_id; host := host; port := port;
     password := password; _connected := false |}.

(** A method returns its value and the instance after the call. *)
Definition connect (self : t) : M (bool * t) :=
  ret (true, set_connected self true).

Definition disconnect (self : t) : M (unit * t) :=
  ret (tt, set_connected self false).

(** [command(cmd)]: [JNull] is the [None] of the failure branch (the line
    printed to stderr is not modelled). *)
Definition command `{PyRuntime} (self : t) (cmd : string) : M (json * t) :=
  try_except
    (r <-- daemon_rcon_command (instance_id self) cmd
                               (Some (port self)) (Some (password self)) ;;
     ret (r, self))
    (fun e => if is_ConnectionError e then ret (JNull, self) else raise e).

End DaemonRconClient.

Definition SERVERDATA_AUTH : Z := 3.
Definition SERVERDATA_EXECCOMMAND : Z := 2.

(** The local helper [_make_packet] of [rcon_command]. *)
Definition _make_packet (req_id pkt_type : Z) (payload : bytes) : outcome bytes :=
  header <- pack_ii req_id pkt_type ;;
  let body := header ++ payload ++ [x00; x00] in
  size <- pack_i (len body) ;;
  Ok (size ++ body).

(** The two [while len(buf) < want] loops of [_read_packet]: [None] when a
    [recv] returns no bytes, else the accumulated buffer. *)
Fixpoint recv_until (fuel : nat) (want : Z) (buf : bytes) : M (option bytes) :=
  if len buf <? want then
    match fuel with
    | O => fun w => (OutOfFuel, w)
    | S fuel' =>
        chunk <-- Socket.recv (want - len buf) ;;
        match chunk with
        | [] => ret None
        | _ => recv_until fuel' want (buf ++ chunk)
        end
    end
  else ret (Some buf).

(** The local helper [_read_packet] of [rcon_command].  Every iteration of
    a loop adds at least one byte, so [want] iterations are enough. *)
Definition _read_packet : M (option (Z * Z * bytes)) :=
  raw_size <-- recv_until 4 4 [] ;;
  match raw_size with
  | None => ret None
  | Some raw_size =>
      size <-- lift (unpack_i raw_size) ;;
      data <-- recv_until (Z.to_nat size) size [] ;;
      match data with
      | None => ret None
      | Some data =>
          req_id <-- lift (unpack_i (py_slice data 0 4)) ;;
          pkt_type <-- lift (unpack_i (py_slice data 4 8)) ;;
          let payload := if 10 <? len data then py_slice data 8 (-2) else [] in
          ret (Some (req_id, pkt_type, payload))
      end
  end.

(** [rcon_command(host, port, password, command, timeout, instance_id=)]:
    with a (non-empty) instance id it delegates to the daemon, without one
    it talks RCON over a socket of its own.  The socket is created and its
    timeout set before the [try]; the [finally] clause closes it.
    [int(port)] is the identity on an integer port.  In the daemon branch
    the timeout goes to the HTTP layer, whose answer is the world's. *)
Definition rcon_command `{PyRuntime} (host : string) (port : Z)
    (password command : string) (timeout : Z) (instance_id : option string)
  : M json :=
  let direct : M json :=
    Socket.socket_ >>
    Socket.settimeout timeout >>
    try_finally
      (Socket.connect host port >>
       (* Auth *)
       req_id <-- randint 1 2147483647 ;;
       pkt <-- lift (_make_packet req_id SERVERDATA_AUTH (encode_utf8 password)) ;;
       Socket.sendall pkt >>
       pkt <-- _read_packet ;;
       match pkt with
       | None => raise (ConnectionError "RCON authentication failed")
       | Some (rid, _, _) =>
           if rid =? -1 then raise (ConnectionError "RCON authentication failed")
           else
             (* Command *)
             req_id <-- randint 1 2147483647 ;;
             pkt <-- lift (_make_packet req_id SERVERDATA_EXECCOMMAND
                                        (encode_utf8 command)) ;;
             Socket.sendall pkt >>
             pkt <-- _read_packet ;;
             match pkt with
             | None => raise (ConnectionError "RCON command returned no response")
             | Some (_, _, payload) => ret (JStr (utf8_decode_replace payload))
             end
       end)
      Socket.close in
  match instance_id with
  | Some id =>
      if negb (String.eqb id EmptyString)
      then daemon_rcon_command id command (Some port) (Some password)
      else direct
  | None => direct
  end.

End daemon_rcon.

(** ** Vocabulary of the statements *)

(** [continues b]: the high bit of [b] is set, another group follows. *)
Definition continues (b : byte) : bool :=
  negb (Z.land (byte_val b) 0x80 =? 0).

(** The bytes a socket has ready: the chunks at the head of its script, up
    to the first failure or end of stream. *)
Fixpoint available (evs : list recv_event) : bytes :=
  match evs with
  | Deliver (b :: chunk) :: rest => (b :: chunk) ++ available rest
  | _ => []
  end.

(** After the bytes it has ready, the script ends with the peer closing
    the stream (and not with a failure). *)
Fixpoint eof_after (evs : list recv_event) : bool :=
  match evs with
  | [] => true
  | Deliver [] :: _ => true
  | Deliver _ :: rest => eof_after rest
  | RecvError _ :: _ => false
  end.

(** The world after some [recv] calls: only the script has moved on. *)
Definition left_with (w : world) (evs : list recv_event) : world :=
  with_sock w (Socket.set_recv (w_sock w) evs).

(** A socket not yet created, on a network that accepts the connection and
    every send and then behaves as [recvs] says. *)
Definition fresh_socket (recvs : list recv_event) : socket_state :=
  {| net_create := None; net_connect := None; net_send := []; net_recv := recvs;
     sock_created := false; sock_closed := false; sock_sent := [] |}.

(** A world with such a socket, the given daemon replies and entropy. *)
Definition fresh_world (recvs : list recv_event) (replies : list http_reply)
    (rand : list Z) : world :=
  {| w_sock := fresh_socket recvs;
     w_http := {| http_replies := replies; http_requests := [] |};
     w_rand := rand |}.

(** [is_frame req_id frame]: [frame] is a console frame whose request id
    field is [req_id]: a little-endian size counting what follows it, the
    request id, four bytes of packet type, and the rest (payload and
    terminator), whatever they hold. *)
Definition is_frame (req_id : Z) (frame : bytes) : Prop :=
  exists type_bytes rest,
    length type_bytes = 4%nat /\
    4 + 4 + len rest <= int32_max /\
    frame = le_bytes 4 ((4 + 4 + len rest) mod 2 ^ 32)
            ++ le_bytes 4 (req_id mod 2 ^ 32) ++ type_bytes ++ rest.

Definition is_ascii (b : byte) : bool := byte_val b <? 128.

(** A runtime for the examples.  It decodes ASCII text, knows the JSON
    documents listed in [documents] (every other text is malformed JSON,
    a [JSONDecodeError]), translates a message key to itself, and reports
    every process as gone. *)
Definition example_runtime (documents : list (string * json)) : PyRuntime :=
  {| utf8_decode := fun bs =>
       if forallb is_ascii bs then Returns (string_of_list_byte bs)
       else Raises UnicodeDecodeError;
     utf8_decode_replace := string_of_list_byte;
     json_loads := fun text =>
       match lookup text documents with
       | Some doc => Returns doc
       | None => Raises JSONDecodeError
       end;
     py_str := fun _ => EmptyString;
     i18n_t := fun key => key;
     os_kill0 := fun _ => Some OSError;
     env_daemon_api_url := None |}.

(** A measure of a script that every [recv] of a non-empty chunk
    decreases. *)
Fixpoint script_size (evs : list recv_event) : nat :=
  match evs with
  | [] => 0
  | Deliver chunk :: rest => S (length chunk + script_size rest)
  | RecvError _ :: rest => S (script_size rest)
  end.

(** A step budget that lets [ping] run to its end in the world [w]. *)
Definition ping_budget (host : string) (w : world) : nat :=
  2 * length (encode_utf8 host) + 11 + script_size (net_recv (w_sock w)).

(** What the accumulation loop can end with: [None], or a document that
    the parser found in the buffer completed with some of the bytes the
    socket had ready, or a socket error raised by [recv]. *)
Definition loop_result `{PyRuntime} (data : bytes) (w : world)
    (res : outcome json * world) : Prop :=
  match fst res with
  | Ok r =>
      r = JNull \/
      exists n, MinecraftPing._parse_response
                  (data ++ firstn n (available (net_recv (w_sock w)))) = Ok r
  | Raise e => is_OSError e = true
  | OutOfFuel => False
  end.

(** The name a sample entry carries, when it is an object with a name. *)
Definition name_of (p : json) : option json :=
  match p with
  | JDict entries => lookup "name" entries
  | _ => None
  end.

(** [s] between double quotes. *)
Definition quoted (s : string) : string :=
  (String "034"%char s ++ String "034"%char EmptyString)%string.

(** The status document of the end-to-end scenario, as text and as the
    value [json.loads] makes of it. *)
Definition example_status_text : string :=
  ("{" ++ quoted "players" ++ ":{" ++ quoted "online" ++ ":3,"
       ++ quoted "max" ++ ":20," ++ quoted "sample" ++ ":[{"
       ++ quoted "name" ++ ":" ++ quoted "Steve" ++ "}]},"
       ++ quoted "version" ++ ":{" ++ quoted "name" ++ ":" ++ quoted "1.21" ++ ","
       ++ quoted "protocol" ++ ":767},"
       ++ quoted "description" ++ ":" ++ quoted "A Server" ++ "}")%string.

Definition example_status_entries : list (string * json) :=
  [("players"%string,
    JDict [("online"%string, JInt 3); ("max"%string, JInt 20);
           ("sample"%string, JList [JDict [("name"%string, JStr "Steve")]])]);
   ("version"%string,
    JDict [("name"%string, JStr "1.21"); ("protocol"%string, JInt 767)]);
   ("description"%string, JStr "A Server")].

Definition example_status_doc : json := JDict example_status_entries.

(** The varint of a small number, as the server writes it. *)
Definition varint_bytes (n : Z) : bytes :=
  match MinecraftPing._encode_varint 5 n with
  | Ok bs => bs
  | _ => []
  end.

(** The status response packet a server sends for a document: the packet
    length, the packet id 0, the length of the text, the text. *)
Definition status_response (text : string) : bytes :=
  let payload := encode_utf8 text in
  let body := varint_bytes 0 ++ varint_bytes (len payload) ++ payload in
  varint_bytes (len body) ++ body.

(** What [_read_packet] does with the body of a frame once it has read
    it: it splits it into the request id, the packet type and the
    payload. *)
Definition frame_fields (data : bytes) : M (option (Z * Z * bytes)) :=
  req_id <-- lift (unpack_i (py_slice data 0 4)) ;;
  pkt_type <-- lift (unpack_i (py_slice data 4 8)) ;;
  let payload := if 10 <? len data then py_slice data 8 (-2) else [] in
  ret (Some (req_id, pkt_type, payload)).

(** [returns m]: the code [m] comes to an end in every world, by
    returning or by raising. *)
Definition returns {A : Type} (m : M A) : Prop :=
  forall w, fst (m w) <> OutOfFuel.

(** ** lifecycle.py: the RCON wrappers *)

(** [_rcon_command(host, port, password, command, timeout=5)]: it calls
    the bridge's [rcon_command] without an instance id. *)
Definition _rcon_command `{PyRuntime} (host : string) (port : Z)
    (password command : string) (timeout : Z) : M json :=
  daemon_rcon.rcon_command host port password command timeout None.

(** [_send_rcon_command(host, port, password, command)]. *)
Definition _send_rcon_command `{PyRuntime} (host : string) (port : Z)
    (password command : string) : M json :=
  _rcon_command host port password command 5.

(** [keeps_http m]: the code [m] leaves the daemon's HTTP endpoint alone:
    no request is made and no reply consumed. *)
Definition keeps_http {A : Type} (m : M A) : Prop :=
  forall w, w_http (snd (m w)) = w_http w.

(** Two replies of the daemon, as text and as values: an error report and
    a command result. *)
Definition example_error_text : string :=
  ("{" ++ quoted "error" ++ ":" ++ quoted "auth failed" ++ "}")%string.

Definition example_error_doc : json :=
  JDict [("error"%string, JStr "auth failed")].

Definition example_result_text : string :=
  ("{" ++ quoted "success" ++ ":true," ++ quoted "data" ++ ":{"
       ++ quoted "data" ++ ":" ++ quoted "There are 0 players" ++ "}}")%string.

Definition example_result_doc : json :=
  JDict [("success"%string, JBool true);
         ("data"%string, JDict [("data"%string, JStr "There are 0 players")])].

Definition example_daemon : PyRuntime :=
  example_runtime [(example_error_text, example_error_doc);
                   (example_result_text, example_result_doc)].

(** ** lifecycle.py: [_format_command] and [command] *)

(** Two more functions of the Python library that the formatters call. *)
Class PyText : Type := {
  (* [int(x)] *)
  py_int : json -> result Z;
  (* [s.strip()] *)
  str_strip : string -> string
}.

(** An entry of a dict with string keys. *)
Fixpoint assoc {A : Type} (key : string) (entries : list (string * A)) : option A :=
  match entries with
  | [] => None
  | (k, v) :: rest => if String.eqb k key then Some v else assoc key rest
  end.

Module Lifecycle.

(** The [formatters] dict of [_format_command]: each lambda builds its
    f-string from the entries of its argument; [{x}] in an f-string is
    [str(x)]. *)
Definition formatters `{PyRuntime} `{PyText}
  : list (string * (json -> outcome string)) :=
  [ ("say", fun a =>
       message <- py_get a "message" (JStr "") ;;
       Ok ("say " ++ py_str message));
    ("give", fun a =>
       player <- py_get a "player" (JStr "") ;;
       item <- py_get a "item" (JStr "") ;;
       amount <- py_get a "amount" (JInt 1) ;;
       amount <- call (py_int amount) ;;
       Ok ("give " ++ py_str player ++ " " ++ py_str item ++ " " ++ py_str (JInt amount)));
    ("save-all", fun _ => Ok "save-all");
    ("list", fun _ => Ok "list");
    ("weather", fun a =>
       type <- py_get a "type" (JStr "clear") ;;
       duration <- py_get a "duration" (JInt 1000) ;;
       duration <- call (py_int duration) ;;
       Ok ("weather " ++ py_str type ++ " " ++ py_str (JInt duration)));
    ("difficulty", fun a =>
       level <- py_get a "level" (JStr "normal") ;;
       Ok ("difficulty " ++ py_str level));
    ("whitelist", fun a =>
       action <- py_get a "action" (JStr "list") ;;
       player <- py_get a "player" (JStr "") ;;
       Ok (str_strip ("whitelist " ++ py_str action ++ " " ++ py_str player)));
    ("op", fun a =>
       player <- py_get a "player" (JStr "") ;;
       Ok ("op " ++ py_str player));
    ("deop", fun a =>
       player <- py_get a "player" (JStr "") ;;
       Ok ("deop " ++ py_str player));
    ("ban", fun a =>
       player <- py_get a "player" (JStr "") ;;
       reason <- py_get a "reason" (JStr "") ;;
       Ok (str_strip ("ban " ++ py_str player ++ " " ++ py_str reason)));
    ("pardon", fun a =>
       player <- py_get a "player" (JStr "") ;;
       Ok ("pardon " ++ py_str player));
    ("kick", fun a =>
       player <- py_get a "player" (JStr "") ;;
       reason <- py_get a "reason" (JStr "") ;;
       Ok (str_strip ("kick " ++ py_str player ++ " " ++ py_str reason)));
    ("tp", fun a =>
       player <- py_get a "player" (JStr "") ;;
       target <- py_get a "target" (JStr "") ;;
       Ok (str_strip ("tp " ++ py_str player ++ " " ++ py_str target)));
    ("time", fun a =>
       value <- py_get a "value" (JStr "day") ;;
       Ok ("time set " ++ py_str value));
    ("gamemode", fun a =>
       mode <- py_get a "mode" (JStr "survival") ;;
       player <- py_get a "player" (JStr "") ;;
       Ok (str_strip ("gamemode " ++ py_str mode ++ " " ++ py_str player)));
    ("seed", fun _ => Ok "seed");
    ("stop", fun _ => Ok "stop") ]%string.

(** [_format_command(cmd, args)].  [formatters.get(cmd)] finds an entry
    only for a string key; a list or a dict is not hashable, a
    [TypeError]; any other value is no key of the dict. *)
Definition _format_command `{PyRuntime} `{PyText} (cmd args : json) : outcome json :=
  match cmd with
  | JList _ | JDict _ => Raise TypeError
  | JStr name =>
      match assoc name formatters with
      | Some formatter => s <- formatter args ;; Ok (JStr s)
      | None => Ok cmd
      end
  | _ => Ok cmd
  end.

(** The three dicts [command] can return. *)
Inductive command_result : Type :=
| CommandSent (success : json) (formatted : json)  (* message "RCON: <formatted>" *)
| CommandRejected (message : string)               (* success False *)
| CommandFailed (e : exn).                         (* success False, message str(e) *)

(** [command(config)]: the command is formatted and posted to the
    daemon's RCON endpoint of the instance.  [DAEMON_API_URL] is read
    from the environment like the bridge's URL. *)
Definition command `{PyRuntime} `{PyText} (config : json) : M command_result :=
  try_except
    (command_text <-- lift (py_get config "command" JNull) ;;
     args <-- lift (py_get config "args" (JDict [])) ;;
     instance_id <-- lift (py_get config "instance_id" JNull) ;;
     if negb (truthy command_text) then ret (CommandRejected "No command specified")
     else if negb (truthy instance_id) then ret (CommandRejected "No instance_id specified")
     else
       formatted <-- lift (_format_command command_text args) ;;
       let api_url :=
         (daemon_rcon._daemon_url ++ "/api/instance/" ++ py_str instance_id ++ "/rcon")%string in
       let req := {| req_url := api_url;
                     req_body := JDict [("command"%string, formatted)] |} in
       body <-- daemon_rcon.urlopen req ;;
       lift (text <- call (utf8_decode body) ;;
             result <- call (json_loads text) ;;
             success <- py_get result "success" (JBool true) ;;
             Ok (CommandSent success formatted)))
    (fun e => ret (CommandFailed e)).

End Lifecycle.

(** The ASCII characters that [str.strip()] removes. *)
Definition is_space (c : ascii) : bool :=
  let n := nat_of_ascii c in
  (Nat.leb 9 n && Nat.leb n 13) || (Nat.leb 28 n && Nat.leb n 32).

Fixpoint lstrip (s : string) : string :=
  match s with
  | String c rest => if is_space c then lstrip rest else s
  | EmptyString => EmptyString
  end.

Fixpoint rstrip (s : string) : string :=
  match s with
  | String c rest =>
      match rstrip rest with
      | EmptyString => if is_space c then EmptyString else String c EmptyString
      | rest' => String c rest'
      end
  | EmptyString => EmptyString
  end.

(** A text runtime for the examples: [strip] on ASCII text, and [int] on
    the integers and booleans, the only values the examples give it
    (every other value is refused). *)
Definition example_text : PyText :=
  {| py_int := fun v =>
       match v with
       | JInt n => Returns n
       | JBool b => Returns (if b then 1 else 0)
       | _ => Raises TypeError
       end;
     str_strip := fun s => rstrip (lstrip s) |}.

(** * Properties *)

(** ** Bytes and bit arithmetic *)

Lemma byte_val_range (b : byte) : 0 <= byte_val b < 256.
Proof.
  unfold byte_val. pose proof (Byte.to_N_bounded b). lia.
Qed.

Lemma byte_val_of_Z (z : Z) : byte_val (byte_of_Z z) = z mod 256.
Proof.
  unfold byte_val, byte_of_Z.
  pose proof (Z.mod_pos_bound z 256 ltac:(lia)) as Hm.
  destruct (Byte.of_N (Z.to_N (z mod 256))) as [b|] eqn:E.
  - apply Byte.to_of_N in E. rewrite E. lia.
  - apply Byte.of_N_None_iff in E. lia.
Qed.

Lemma byte_of_Z_val (b : byte) : byte_of_Z (byte_val b) = b.
Proof.
  unfold byte_of_Z, byte_val.
  pose proof (Byte.to_N_bounded b).
  rewrite Z.mod_small by lia.
  rewrite N2Z.id, Byte.of_to_N. reflexivity.
Qed.

Lemma pack_B_ok (x : Z) : 0 <= x <= 255 -> pack_B x = Ok (byte_of_Z x).
Proof.
  intros Hx. unfold pack_B.
  destruct (x <? 0) eqn:E1; [apply Z.ltb_lt in E1; lia|].
  destruct (255 <? x) eqn:E2; [apply Z.ltb_lt in E2; lia|].
  reflexivity.
Qed.

Lemma land_127 (v : Z) : Z.land v 0x7F = v mod 128.
Proof. change 0x7F with (Z.ones 7). rewrite Z.land_ones by lia. reflexivity. Qed.

Lemma testbit_small (b n : Z) : 0 <= b < 128 -> 7 <= n -> Z.testbit b n = false.
Proof.
  intros Hb Hn.
  destruct (Z.eq_dec b 0) as [->|Hnz]; [apply Z.bits_0|].
  apply Z.bits_above_log2; [lia|].
  assert (Z.log2 b < 7); [|lia].
  apply Z.log2_lt_pow2; lia.
Qed.

Lemma land_128_small (b : Z) : 0 <= b < 128 -> Z.land b 0x80 = 0.
Proof.
  intros Hb. apply Z.bits_inj'. intros n Hn.
  rewrite Z.land_spec, Z.bits_0.
  change 0x80 with (2 ^ 7). rewrite Z.pow2_bits_eqb by lia.
  destruct (Z.eqb_spec 7 n) as [<-|Hne].
  - rewrite testbit_small by lia. reflexivity.
  - apply andb_false_r.
Qed.

(** The byte the encoder emits when more groups follow. *)
Lemma continuation_byte (b : Z) :
  0 <= b < 128 ->
  0 <= Z.lor b 0x80 <= 255 /\
  Z.land (Z.lor b 0x80) 0x7F = b /\
  Z.land (Z.lor b 0x80) 0x80 = 0x80.
Proof.
  intros Hb.
  pose proof (land_128_small b Hb) as Hdisj.
  assert (Hsum : Z.lor b 0x80 = b + 128).
  { rewrite <- Z.lxor_lor by exact Hdisj.
    symmetry. apply Z.add_nocarry_lxor. exact Hdisj. }
  repeat split.
  - lia.
  - lia.
  - rewrite land_127, Hsum.
    replace (b + 128) with (b + 1 * 128) by lia.
    rewrite Z.mod_add by lia. apply Z.mod_small. lia.
  - rewrite Z.land_lor_distr_l, Hdisj. reflexivity.
Qed.

(** Splitting off the low group of 7 bits loses nothing. *)
Lemma split_group (v shift : Z) :
  0 <= shift ->
  Z.lor (Z.shiftl (Z.land v 0x7F) shift) (Z.shiftl (Z.shiftr v 7) (shift + 7))
  = Z.shiftl v shift.
Proof.
  intros Hs.
  replace (shift + 7) with (7 + shift) by lia.
  rewrite <- Z.shiftl_shiftl by lia.
  rewrite <- Z.shiftl_lor. f_equal.
  change 0x7F with (Z.ones 7).
  rewrite <- Z.ldiff_ones_r by lia.
  rewrite Z.lor_comm. apply Z.lor_ldiff_and.
Qed.

(** Bit 31 of an unsigned 32-bit number is its sign bit. *)
Lemma sign_bit (u : Z) :
  0 <= u < 2 ^ 32 ->
  Z.land u (Z.shiftl 1 31) = if u <? 2 ^ 31 then 0 else 2 ^ 31.
Proof.
  intros Hu. change (Z.shiftl 1 31) with (2 ^ 31).
  destruct (Z.ltb_spec u (2 ^ 31)) as [Hlt|Hge].
  - apply Z.bits_inj'. intros n Hn.
    rewrite Z.land_spec, Z.bits_0, Z.pow2_bits_eqb by lia.
    destruct (Z.eqb_spec 31 n) as [<-|Hne]; [|apply andb_false_r].
    destruct (Z.eq_dec u 0) as [->|Hnz]; [reflexivity|].
    rewrite Z.bits_above_log2; [reflexivity|lia|].
    apply Z.log2_lt_pow2; lia.
  - replace u with ((u - 2 ^ 31) + 2 ^ 31) at 1 by lia.
    assert (Hd : Z.land (u - 2 ^ 31) (2 ^ 31) = 0).
    { apply Z.bits_inj'. intros n Hn.
      rewrite Z.land_spec, Z.bits_0, Z.pow2_bits_eqb by lia.
      destruct (Z.eqb_spec 31 n) as [<-|Hne]; [|apply andb_false_r].
      destruct (Z.eq_dec (u - 2 ^ 31) 0) as [->|Hnz]; [reflexivity|].
      rewrite Z.bits_above_log2; [reflexivity|lia|].
      apply Z.log2_lt_pow2; lia. }
    rewrite (Z.add_nocarry_lxor _ _ Hd), (Z.lxor_lor _ _ Hd).
    rewrite Z.land_lor_distr_l, Hd. reflexivity.
Qed.

(** ** The varint codec *)

Import MinecraftPing.

(** The heart of the round trip: on a non-negative value that fits the
    budget, the encoder succeeds, and the decoder, started anywhere on the
    bytes it produced, puts the value back at the current shift and stops
    right after them. *)
Lemma encode_loop_read_loop (fuel : nat) :
  forall (value : Z) (acc : bytes),
    0 <= value < 2 ^ (7 * Z.of_nat (S fuel)) ->
    exists bs,
      encode_loop (S fuel) value acc = Ok (acc ++ bs) /\
      (length bs <= S fuel)%nat /\
      forall rest offset result shift,
        0 <= shift ->
        read_loop (bs ++ rest) offset result shift
        = Ok (Z.lor result (Z.shiftl value shift), (offset + length bs)%nat).
Proof.
  induction fuel as [|fuel IH]; intros value acc Hv.
  - (* one byte left in the budget: the value is below 128 *)
    change (2 ^ (7 * Z.of_nat 1)) with 128 in Hv.
    assert (Hhi : Z.shiftr value 7 = 0).
    { rewrite Z.shiftr_div_pow2 by lia. apply Z.div_small. lia. }
    exists [byte_of_Z value]. cbn [encode_loop]. rewrite Hhi. cbn [Z.eqb negb].
    rewrite land_127, (Z.mod_small value 128) by lia.
    rewrite pack_B_ok by lia. cbn [bind].
    split; [reflexivity|]. split; [simpl; lia|].
    intros rest offset result shift Hs. cbn [app read_loop length].
    rewrite byte_val_of_Z, (Z.mod_small value 256) by lia.
    rewrite (land_128_small value) by lia. cbn [Z.eqb].
    rewrite land_127, (Z.mod_small value 128) by lia.
    f_equal. f_equal. lia.
  - set (hi := Z.shiftr value 7).
    assert (Hhi : hi = value / 128).
    { unfold hi. rewrite Z.shiftr_div_pow2 by lia. reflexivity. }
    assert (Hlow : 0 <= Z.land value 0x7F < 128).
    { rewrite land_127. apply Z.mod_pos_bound. lia. }
    assert (Hhi_range : 0 <= hi < 2 ^ (7 * Z.of_nat (S fuel))).
    { rewrite Hhi. split; [apply Z.div_pos; lia|].
      apply Z.div_lt_upper_bound; [lia|].
      replace (7 * Z.of_nat (S (S fuel))) with (7 + 7 * Z.of_nat (S fuel)) in Hv by lia.
      rewrite Z.pow_add_r in Hv by lia. exact (proj2 Hv). }
    destruct (Z.eqb_spec hi 0) as [Hz|Hnz].
    + (* last group *)
      exists [byte_of_Z value].
      assert (Hsmall : 0 <= value < 128).
      { rewrite Hhi in Hz. split; [lia|].
        destruct (Z.lt_ge_cases value 128) as [|Hge]; [assumption|].
        assert (1 <= value / 128) by (apply Z.div_le_lower_bound; lia). lia. }
      cbn [encode_loop]. fold hi. rewrite Hz. cbn [Z.eqb negb].
      rewrite land_127, (Z.mod_small value 128) by lia.
      rewrite pack_B_ok by lia. cbn [bind].
      split; [reflexivity|]. split; [simpl; lia|].
      intros rest offset result shift Hs. cbn [app read_loop length].
      rewrite byte_val_of_Z, (Z.mod_small value 256) by lia.
      rewrite (land_128_small value) by lia. cbn [Z.eqb].
      rewrite land_127, (Z.mod_small value 128) by lia.
      f_equal. f_equal. lia.
    + (* a group followed by others *)
      destruct (continuation_byte _ Hlow) as (Hrange & Hdata & Hflag).
      set (b := byte_of_Z (Z.lor (Z.land value 0x7F) 0x80)).
      destruct (IH hi (acc ++ [b]) Hhi_range) as (bs & Henc & Hlen & Hdec).
      exists (b :: bs).
      split; [|split].
      * change (encode_loop (S (S fuel)) value acc) with
          (let byte := Z.land value 0x7F in
           let value' := Z.shiftr value 7 in
           let byte := if negb (value' =? 0) then Z.lor byte 0x80 else byte in
           b0 <- pack_B byte ;;
           let result := acc ++ [b0] in
           if value' =? 0 then Ok result
           else encode_loop (S fuel) value' result).
        cbv zeta. fold hi.
        destruct (Z.eqb_spec hi 0) as [|_]; [contradiction|]. cbn [negb].
        rewrite pack_B_ok by lia. cbn [bind]. fold b.
        rewrite Henc, <- app_assoc. reflexivity.
      * simpl. lia.
      * intros rest offset result shift Hs. cbn [app read_loop length].
        unfold b. rewrite byte_val_of_Z, (Z.mod_small _ 256) by lia.
        rewrite Hflag, Hdata. cbn [Z.eqb].
        rewrite Hdec by lia. fold hi.
        rewrite <- Z.lor_assoc.
        unfold hi. rewrite split_group by lia.
        f_equal. f_equal. lia.
Qed.

(** A result reached within a budget is reached within any larger one. *)
Lemma encode_loop_more_fuel (fuel : nat) :
  forall (fuel' : nat) (value : Z) (acc r : bytes),
    encode_loop fuel value acc = Ok r ->
    (fuel <= fuel')%nat ->
    encode_loop fuel' value acc = Ok r.
Proof.
  induction fuel as [|fuel IH]; intros fuel' value acc r Henc Hle.
  - discriminate.
  - destruct fuel' as [|fuel']; [lia|].
    cbn [encode_loop] in *.
    destruct (pack_B _) as [b| |]; cbn [bind] in *; try discriminate.
    destruct (Z.shiftr value 7 =? 0); [assumption|].
    apply IH; [assumption|lia].
Qed.

(** The encoder's first step: a signed 32-bit value becomes unsigned. *)
Lemma to_unsigned_range (v : Z) :
  int32_min <= v <= int32_max ->
  0 <= (if v <? 0 then v + Z.shiftl 1 32 else v) < 2 ^ 32.
Proof.
  unfold int32_min, int32_max. change (Z.shiftl 1 32) with (2 ^ 32).
  intros Hv. destruct (Z.ltb_spec v 0); lia.
Qed.

(** C1. For every signed 32-bit integer [v], [_encode_varint(v)] returns
    (five loop iterations always suffice) and [_read_varint] applied to
    the bytes it produced, from offset 0, returns exactly [v] together
    with the offset just past those bytes. *)
Theorem C1_varint_round_trip (v : Z) (fuel : nat) :
  int32_min <= v <= int32_max ->
  (5 <= fuel)%nat ->
  exists bs,
    _encode_varint fuel v = Ok bs /\
    (length bs <= 5)%nat /\
    _read_varint bs 0 = Ok (v, length bs).
Proof.
  intros Hv Hfuel.
  pose proof (to_unsigned_range v Hv) as Hu.
  unfold _encode_varint.
  set (u := if v <? 0 then v + Z.shiftl 1 32 else v) in *.
  destruct (encode_loop_read_loop 4 u []) as (bs & Henc & Hlen & Hdec).
  { change (2 ^ (7 * Z.of_nat 5)) with (2 ^ 32 * 8). lia. }
  exists bs. split; [|split].
  - apply encode_loop_more_fuel with (fuel := 5%nat); assumption.
  - exact Hlen.
  - unfold _read_varint. cbn [skipn].
    specialize (Hdec [] 0%nat 0 0 ltac:(lia)).
    rewrite app_nil_r in Hdec. rewrite Hdec. cbn [bind].
    rewrite Z.lor_0_l, Z.shiftl_0_r, sign_bit by exact Hu.
    cbn [Nat.add]. f_equal. f_equal.
    change (Z.shiftl 1 32) with (2 ^ 32) in *.
    unfold int32_min, int32_max in Hv.
    destruct (Z.ltb_spec u (2 ^ 31)) as [Hpos|Hneg]; cbn [Z.eqb Z.pow Z.pow_pos Pos.iter Z.mul Pos.mul negb];
      subst u; destruct (Z.ltb_spec v 0); lia.
Qed.

(** The round trip at the lower boundary of the range. *)
Lemma C1_varint_round_trip_witness :
  exists bs,
    _encode_varint 5 (-2147483648) = Ok bs /\
    (length bs <= 5)%nat /\
    _read_varint bs 0 = Ok (-2147483648, length bs).
Proof.
  apply (C1_varint_round_trip (-2147483648) 5).
  - unfold int32_min, int32_max. lia.
  - lia.
Defined.

(** C2 (as the code has it). [_encode_varint(-1)] produces exactly 5
    bytes, each equal to 0xFF except the last, which equals 0x0F: the
    fifth group holds the four remaining bits of 0xFFFFFFFF. *)
Theorem C2_encode_minus_one (fuel : nat) :
  _encode_varint (5 + fuel) (-1) = Ok [xff; xff; xff; xff; x0f].
Proof. reflexivity. Qed.

(** C2, the claim as stated fails: the last byte is 0x0F, not 0x07. *)
Lemma C2_encode_minus_one_counterexample :
  _encode_varint 5 (-1) = Ok [xff; xff; xff; xff; x0f] /\
  _encode_varint 5 (-1) <> Ok [xff; xff; xff; xff; x07].
Proof. split; [reflexivity|discriminate]. Qed.

(** The decoding loop fails exactly on input that ends before a byte with
    a clear high bit. *)
Lemma read_loop_raises_iff (rest : bytes) :
  forall offset result shift,
    (exists e, read_loop rest offset result shift = Raise e) <->
    forallb continues rest = true.
Proof.
  induction rest as [|b rest IH]; intros offset result shift; cbn [read_loop forallb].
  - split; [reflexivity|]. intros _. eexists. reflexivity.
  - unfold continues at 1.
    destruct (Z.land (byte_val b) 0x80 =? 0); cbn [negb andb].
    + split; [intros [e He]; discriminate|discriminate].
    + apply IH.
Qed.

Lemma read_loop_raises_too_short (rest : bytes) :
  forall offset result shift e,
    read_loop rest offset result shift = Raise e ->
    e = ValueError "VarInt too short".
Proof.
  induction rest as [|b rest IH]; intros offset result shift e; cbn [read_loop].
  - intros [= <-]. reflexivity.
  - destruct (Z.land (byte_val b) 0x80 =? 0); [discriminate|]. apply IH.
Qed.

Lemma read_loop_total (rest : bytes) :
  forall offset result shift,
    read_loop rest offset result shift <> OutOfFuel.
Proof.
  induction rest as [|b rest IH]; intros offset result shift; cbn [read_loop].
  - discriminate.
  - destruct (Z.land (byte_val b) 0x80 =? 0); [discriminate|]. apply IH.
Qed.

(** [_read_varint] always returns or raises [ValueError]. *)
Lemma read_varint_cases (data : bytes) (offset : nat) :
  (exists v offset', _read_varint data offset = Ok (v, offset')) \/
  _read_varint data offset = Raise (ValueError "VarInt too short").
Proof.
  unfold _read_varint.
  destruct (read_loop (skipn offset data) offset 0 0) as [[r o]|e|] eqn:E; cbn [bind].
  - left. eauto.
  - right. apply read_loop_raises_too_short in E. subst e. reflexivity.
  - exfalso. exact (read_loop_total _ _ _ _ E).
Qed.

(** Bytes with the continuation bit set are skipped over. *)
Lemma read_loop_skip_continuing (pre : bytes) :
  forall rest offset result shift,
    forallb continues pre = true ->
    exists result',
      read_loop (pre ++ rest) offset result shift
      = read_loop rest (offset + length pre) result' (shift + 7 * len pre).
Proof.
  unfold len.
  induction pre as [|b pre IH]; intros rest offset result shift Hpre.
  - exists result. cbn [app length]. f_equal; [lia|cbn; lia].
  - cbn [forallb] in Hpre. apply andb_prop in Hpre as [Hb Hpre].
    cbn [app read_loop]. unfold continues in Hb.
    destruct (Z.land (byte_val b) 0x80 =? 0); [discriminate|].
    destruct (IH rest (S offset) (Z.lor result (Z.shiftl (Z.land (byte_val b) 0x7F) shift))
                 (shift + 7) Hpre) as [r' ->].
    exists r'. f_equal; [cbn [length]; lia|cbn [length]; lia].
Qed.

Lemma read_loop_advances (rest : bytes) :
  forall offset result shift v offset',
    read_loop rest offset result shift = Ok (v, offset') ->
    (offset < offset')%nat.
Proof.
  induction rest as [|b rest IH]; intros offset result shift v offset'; cbn [read_loop].
  - discriminate.
  - destruct (Z.land (byte_val b) 0x80 =? 0).
    + intros [= _ <-]. lia.
    + intros Hrec. apply IH in Hrec. lia.
Qed.

(** C3 (as the code has it). On a byte sequence whose first 5 bytes all
    have the continuation bit set, [_read_varint] does not stop at the
    fifth byte: it rejects the sequence, with [ValueError], exactly when
    every later byte has the continuation bit set too (the data ends
    inside the varint), and returns a decoded value otherwise. *)
Theorem C3_read_varint_rejects_only_unterminated (data : bytes) :
  (5 <= length data)%nat ->
  forallb continues (firstn 5 data) = true ->
  (_read_varint data 0 = Raise (ValueError "VarInt too short") <->
   forallb continues (skipn 5 data) = true) /\
  (forallb continues (skipn 5 data) = false ->
   exists v offset, _read_varint data 0 = Ok (v, offset) /\ (5 < offset)%nat).
Proof.
  intros Hlen Hfirst.
  assert (Hpre : length (firstn 5 data) = 5%nat) by (rewrite length_firstn; lia).
  destruct (read_loop_skip_continuing (firstn 5 data) (skipn 5 data) 0 0 0 Hfirst)
    as [r' Hskip].
  rewrite firstn_skipn, Hpre in Hskip.
  unfold _read_varint. change (skipn 0 data) with data. rewrite Hskip.
  split.
  - rewrite <- (read_loop_raises_iff (skipn 5 data) (0 + 5) r' (0 + 7 * len (firstn 5 data))).
    destruct (read_loop (skipn 5 data) _ _ _) as [[r o]|e|] eqn:E; cbn [bind].
    + split; [discriminate|]. intros [e He]. discriminate.
    + apply read_loop_raises_too_short in E as E'. subst e.
      split; [eauto|reflexivity].
    + exfalso. exact (read_loop_total _ _ _ _ E).
  - intros Hlater.
    destruct (read_loop (skipn 5 data) _ _ _) as [[r o]|e|] eqn:E; cbn [bind].
    + apply read_loop_advances in E. eexists _, _. split; [reflexivity|lia].
    + assert (Hall : forallb continues (skipn 5 data) = true)
        by (eapply read_loop_raises_iff; eauto).
      congruence.
    + exfalso. exact (read_loop_total _ _ _ _ E).
Qed.

(** Six bytes: five with the continuation bit set, then a final one. *)
Lemma C3_read_varint_rejects_only_unterminated_witness :
  (_read_varint [x80; x80; x80; x80; x80; x00] 0
     = Raise (ValueError "VarInt too short") <->
   forallb continues (skipn 5 [x80; x80; x80; x80; x80; x00]) = true) /\
  (forallb continues (skipn 5 [x80; x80; x80; x80; x80; x00]) = false ->
   exists v offset,
     _read_varint [x80; x80; x80; x80; x80; x00] 0 = Ok (v, offset) /\
     (5 < offset)%nat).
Proof.
  apply (C3_read_varint_rejects_only_unterminated [x80; x80; x80; x80; x80; x00]).
  - simpl. lia.
  - reflexivity.
Defined.

(** C3, the claim as stated fails: these six bytes, the first five with
    the continuation bit set, are not rejected but decoded (to 0, with the
    offset after the sixth byte). *)
Lemma C3_read_varint_six_bytes_counterexample :
  forallb continues (firstn 5 [x80; x80; x80; x80; x80; x00]) = true /\
  _read_varint [x80; x80; x80; x80; x80; x00] 0 = Ok (0, 6%nat).
Proof. split; reflexivity. Qed.

(** ** struct.pack and struct.unpack *)

Lemma le_bytes_length (n : nat) : forall x, length (le_bytes n x) = n.
Proof. induction n as [|n IH]; intros x; simpl; [reflexivity|rewrite IH; reflexivity]. Qed.

Lemma le_value_le_bytes (n : nat) :
  forall x, le_value (le_bytes n x) = x mod 256 ^ Z.of_nat n.
Proof.
  induction n as [|n IH]; intros x.
  - simpl. rewrite Z.mod_1_r. reflexivity.
  - cbn [le_bytes le_value]. rewrite byte_val_of_Z, IH.
    replace (256 ^ Z.of_nat (S n)) with (256 * 256 ^ Z.of_nat n)
      by (rewrite Nat2Z.inj_succ, Z.pow_succ_r by lia; reflexivity).
    rewrite Z.rem_mul_r by (try apply Z.pow_nonzero; lia). reflexivity.
Qed.

(** What [pack_i] writes, [unpack_i] reads back. *)
Lemma unpack_i_le_bytes (x : Z) :
  int32_min <= x <= int32_max ->
  unpack_i (le_bytes 4 (x mod 2 ^ 32)) = Ok x.
Proof.
  unfold int32_min, int32_max. intros Hx.
  unfold unpack_i. rewrite le_bytes_length. cbn [Nat.eqb negb].
  rewrite le_value_le_bytes. change (256 ^ Z.of_nat 4) with (2 ^ 32).
  rewrite Z.mod_mod by lia.
  destruct (Z.lt_ge_cases x 0) as [Hneg|Hpos].
  - replace (x mod 2 ^ 32) with (x + 2 ^ 32).
    + destruct (Z.leb_spec (2 ^ 31) (x + 2 ^ 32)); [f_equal; lia|lia].
    + rewrite <- (Z.mod_add x 1 (2 ^ 32)) by lia.
      rewrite Z.mod_small by lia. lia.
  - rewrite Z.mod_small by lia.
    destruct (Z.leb_spec (2 ^ 31) x); [lia|reflexivity].
Qed.

Lemma pack_i_ok (x : Z) :
  int32_min <= x <= int32_max -> pack_i x = Ok (le_bytes 4 (x mod 2 ^ 32)).
Proof.
  intros Hx. unfold pack_i.
  destruct (Z.ltb_spec x int32_min); [lia|].
  destruct (Z.ltb_spec int32_max x); [lia|]. reflexivity.
Qed.

Lemma pack_i_inv (x : Z) (bs : bytes) :
  pack_i x = Ok bs -> int32_min <= x <= int32_max /\ bs = le_bytes 4 (x mod 2 ^ 32).
Proof.
  unfold pack_i.
  destruct (Z.ltb_spec x int32_min); [discriminate|].
  destruct (Z.ltb_spec int32_max x); [discriminate|].
  cbn [orb]. intros [= <-]. split; [lia|reflexivity].
Qed.

(** ** The console frame *)

Import daemon_rcon.

(** C4. For every request id and packet type in the signed 32-bit range
    and every payload whose frame size fits that range, [_make_packet]
    builds the frame: the 4-byte little-endian size, equal to
    4 + 4 + len(payload) + 2, then the 4-byte little-endian request id,
    the 4-byte little-endian packet type, the payload and two null bytes
    (and it builds a frame in no other case).  In particular the
    authenticate frame (type 3) for the password "secret" is the size 16,
    the request id, the value 3, the 6 ASCII bytes of "secret" and two
    null bytes. *)
Theorem C4_make_packet_layout (req_id pkt_type : Z) (payload : bytes) :
  let size := 4 + 4 + len payload + 2 in
  let frame := le_bytes 4 (size mod 2 ^ 32) ++ le_bytes 4 (req_id mod 2 ^ 32)
               ++ le_bytes 4 (pkt_type mod 2 ^ 32) ++ payload ++ [x00; x00] in
  (int32_min <= req_id <= int32_max ->
   int32_min <= pkt_type <= int32_max ->
   size <= int32_max ->
   _make_packet req_id pkt_type payload = Ok frame /\
   unpack_i (py_slice frame 0 4) = Ok size /\
   unpack_i (py_slice frame 4 8) = Ok req_id /\
   unpack_i (py_slice frame 8 12) = Ok pkt_type /\
   len frame = 4 + size /\
   (pkt_type = SERVERDATA_AUTH -> payload = encode_utf8 "secret" ->
    frame = [x10; x00; x00; x00] ++ le_bytes 4 (req_id mod 2 ^ 32)
            ++ [x03; x00; x00; x00]
            ++ ["s"; "e"; "c"; "r"; "e"; "t"]%byte ++ [x00; x00])) /\
  (forall built, _make_packet req_id pkt_type payload = Ok built -> built = frame).
Proof.
  intros size frame.
  assert (Hforward :
    int32_min <= req_id <= int32_max ->
    int32_min <= pkt_type <= int32_max ->
    size <= int32_max ->
    _make_packet req_id pkt_type payload = Ok frame /\
    unpack_i (py_slice frame 0 4) = Ok size /\
    unpack_i (py_slice frame 4 8) = Ok req_id /\
    unpack_i (py_slice frame 8 12) = Ok pkt_type /\
    len frame = 4 + size /\
    (pkt_type = SERVERDATA_AUTH -> payload = encode_utf8 "secret" ->
     frame = [x10; x00; x00; x00] ++ le_bytes 4 (req_id mod 2 ^ 32)
             ++ [x03; x00; x00; x00]
             ++ ["s"; "e"; "c"; "r"; "e"; "t"]%byte ++ [x00; x00])); [|split; [exact Hforward|]].
  - intros Hid Htype Hsize.
    assert (Hlen : 0 <= len payload) by (unfold len; lia).
    assert (Hsz : int32_min <= size <= int32_max) by (unfold int32_min, size in *; lia).
    split; [|split; [|split; [|split; [|split]]]].
    + unfold _make_packet, pack_ii.
      rewrite (pack_i_ok req_id Hid), (pack_i_ok pkt_type Htype). cbn [bind].
      replace (len ((le_bytes 4 (req_id mod 2 ^ 32) ++ le_bytes 4 (pkt_type mod 2 ^ 32))
                    ++ payload ++ [x00; x00])) with size.
      * rewrite (pack_i_ok size Hsz). cbn [bind]. unfold frame.
        apply f_equal. apply f_equal. symmetry. apply app_assoc.
      * unfold len, size. rewrite !length_app, !le_bytes_length. unfold len. simpl length. lia.
    + unfold frame. apply unpack_i_le_bytes. exact Hsz.
    + unfold frame. apply unpack_i_le_bytes. exact Hid.
    + unfold frame. apply unpack_i_le_bytes. exact Htype.
    + unfold frame, len. rewrite !length_app, !le_bytes_length.
      unfold size, len. simpl length. lia.
    + intros -> ->. reflexivity.
  - intros built Hbuilt.
    assert (Hranges : (int32_min <= req_id <= int32_max) /\
                      (int32_min <= pkt_type <= int32_max) /\ size <= int32_max).
    { revert Hbuilt. unfold _make_packet, pack_ii.
      destruct (pack_i req_id) as [id_b| |] eqn:Eid; cbn [bind]; try discriminate.
      destruct (pack_i pkt_type) as [type_b| |] eqn:Etype; cbn [bind]; try discriminate.
      apply pack_i_inv in Eid as [Hid ->]. apply pack_i_inv in Etype as [Htype ->].
      destruct (pack_i _) as [size_b| |] eqn:Esize; cbn [bind]; try discriminate.
      apply pack_i_inv in Esize as [Hsize _]. intros _.
      repeat split; try apply Hid; try apply Htype.
      destruct Hsize as [_ Hsize]. revert Hsize.
      unfold len, size. rewrite !length_app, !le_bytes_length. unfold len.
      simpl length. lia. }
    destruct Hranges as (Hid & Htype & Hsize).
    destruct (Hforward Hid Htype Hsize) as [Hmake _].
    rewrite Hmake in Hbuilt. injection Hbuilt as <-. reflexivity.
Qed.

(** The authenticate frame for "secret" with request id 1234. *)
Lemma C4_make_packet_layout_witness :
  _make_packet 1234 SERVERDATA_AUTH (encode_utf8 "secret")
  = Ok ([x10; x00; x00; x00] ++ [xd2; x04; x00; x00] ++ [x03; x00; x00; x00]
        ++ ["s"; "e"; "c"; "r"; "e"; "t"]%byte ++ [x00; x00]).
Proof.
  destruct (C4_make_packet_layout 1234 SERVERDATA_AUTH (encode_utf8 "secret"))
    as [Hforward _].
  destruct Hforward as (Hmake & _ & _ & _ & _ & Hsecret).
  - unfold int32_min, int32_max. lia.
  - unfold int32_min, int32_max, SERVERDATA_AUTH. lia.
  - vm_compute. discriminate.
  - rewrite Hmake, Hsecret by reflexivity. reflexivity.
Defined.

(** ** Reading an exact number of bytes *)

Lemma recv_until_eq (fuel : nat) (want : Z) (buf : bytes) :
  recv_until fuel want buf =
  if len buf <? want then
    match fuel with
    | O => fun w => (OutOfFuel, w)
    | S fuel' =>
        chunk <-- Socket.recv (want - len buf) ;;
        match chunk with
        | [] => ret None
        | _ => recv_until fuel' want (buf ++ chunk)
        end
    end
  else ret (Some buf).
Proof. destruct fuel; reflexivity. Qed.

Lemma left_with_same (w : world) : left_with w (net_recv (w_sock w)) = w.
Proof. destruct w as [[] ? ?]. reflexivity. Qed.

Lemma left_with_twice (w : world) (evs evs' : list recv_event) :
  left_with (left_with w evs) evs' = left_with w evs'.
Proof. reflexivity. Qed.

Lemma len_app {A : Type} (l l' : list A) : len (l ++ l') = len l + len l'.
Proof. unfold len. rewrite length_app. lia. Qed.

(** When the socket has the missing bytes ready, in whatever chunks, the
    loop returns the buffer completed with exactly those bytes. *)
Lemma recv_until_delivers (fuel : nat) :
  forall (want : Z) (buf : bytes) (w : world),
    sock_closed (w_sock w) = false ->
    let k := Z.to_nat (want - len buf) in
    let ready := available (net_recv (w_sock w)) in
    (k <= fuel)%nat ->
    (k <= length ready)%nat ->
    exists evs',
      recv_until fuel want buf w
      = (Ok (Some (buf ++ firstn k ready)), left_with w evs') /\
      available evs' = skipn k ready.
Proof.
  induction fuel as [|fuel IH]; intros want buf w Hopen k ready Hfuel Hready;
    rewrite recv_until_eq;
    assert (Hkdef : k = Z.to_nat (want - Z.of_nat (length buf))) by reflexivity;
    change (Z.to_nat (want - len buf)) with k; clearbody k.
  - destruct (Z.ltb_spec (len buf) want) as [Hlt|Hge]; [unfold len in Hlt; lia|].
    unfold len in Hge.
    exists (net_recv (w_sock w)). replace k with 0%nat by lia.
    cbn [firstn skipn]. rewrite app_nil_r, left_with_same. split; reflexivity.
  - destruct (Z.ltb_spec (len buf) want) as [Hlt|Hge]; [unfold len in Hlt|unfold len in Hge].
    2:{ exists (net_recv (w_sock w)). replace k with 0%nat by lia.
        cbn [firstn skipn]. rewrite app_nil_r, left_with_same. split; reflexivity. }
    assert (Hk : (1 <= k)%nat) by lia.
    unfold bindM, Socket.recv. rewrite Hopen.
    change (Z.to_nat (want - len buf)) with (Z.to_nat (want - Z.of_nat (length buf))).
    rewrite <- Hkdef.
    subst ready.
    destruct (net_recv (w_sock w)) as [|[[|b chunk]|e] evs] eqn:Escript;
      cbn [available] in *; try (simpl in Hready; lia).
    destruct (Nat.leb_spec (length (b :: chunk)) k) as [Hwhole|Hpart].
    + (* the chunk is taken whole *)
      set (w1 := with_sock w (Socket.set_recv (w_sock w) evs)).
      destruct (IH want (buf ++ b :: chunk) w1) as (evs' & Hrun & Hleft).
      * exact Hopen.
      * rewrite len_app. unfold len. simpl length in *. lia.
      * rewrite len_app. unfold len. cbn [w1 with_sock w_sock Socket.set_recv net_recv].
        rewrite length_app in Hready. simpl length in *. lia.
      * exists evs'. rewrite Hrun. split.
        -- f_equal. f_equal.
           ++ f_equal. rewrite <- app_assoc. f_equal.
              cbn [w1 with_sock w_sock Socket.set_recv net_recv].
              rewrite firstn_app, (firstn_all2 (n := k)) by exact Hwhole.
              f_equal. f_equal. rewrite len_app. unfold len. lia.
        -- rewrite Hleft. cbn [w1 with_sock w_sock Socket.set_recv net_recv].
           rewrite skipn_app, (skipn_all2 (n := k)) by exact Hwhole.
           cbn [app]. f_equal. rewrite len_app. unfold len. lia.
    + (* only the head of the chunk is taken *)
      set (w1 := with_sock w (Socket.set_recv (w_sock w)
                                (Deliver (skipn k (b :: chunk)) :: evs))).
      assert (Hhead : exists b' taken, firstn k (b :: chunk) = b' :: taken).
      { destruct k as [|k']; [lia|]. cbn [firstn]. eauto. }
      destruct Hhead as (b' & taken & Hhead).
      assert (Htail : exists b'' left, skipn k (b :: chunk) = b'' :: left).
      { destruct (skipn k (b :: chunk)) as [|b'' left] eqn:E; [|eauto].
        apply (f_equal (@length byte)) in E. rewrite length_skipn in E.
        simpl length in *. lia. }
      destruct Htail as (b'' & left & Htail).
      assert (Htaken : length (firstn k (b :: chunk)) = k)
        by (rewrite length_firstn; lia).
      destruct (IH want (buf ++ firstn k (b :: chunk)) w1) as (evs' & Hrun & Hleft).
      * exact Hopen.
      * rewrite len_app. unfold len. rewrite Htaken. lia.
      * rewrite len_app. unfold len. rewrite Htaken. lia.
      * exists evs'. rewrite Hhead. rewrite <- Hhead, Hrun.
        replace (Z.to_nat (want - len (buf ++ firstn k (b :: chunk)))) with 0%nat in *
          by (rewrite len_app; unfold len; rewrite Htaken; lia).
        cbn [firstn skipn] in *. rewrite app_nil_r. split.
        -- f_equal. f_equal. f_equal. f_equal.
           rewrite firstn_app.
           replace (k - length (b :: chunk))%nat with 0%nat by lia.
           cbn [firstn]. rewrite app_nil_r. reflexivity.
        -- rewrite Hleft. cbn [w1 with_sock w_sock Socket.set_recv net_recv].
           rewrite Htail. cbn [available]. rewrite <- Htail.
           rewrite skipn_app.
           replace (k - length (b :: chunk))%nat with 0%nat by lia.
           reflexivity.
Qed.

(** A [recv] never returns more than it was asked for, and leaves the
    socket open and what was sent untouched. *)
Lemma recv_inv (n : Z) (w w' : world) (chunk : bytes) :
  Socket.recv n w = (Ok chunk, w') ->
  (length chunk <= Z.to_nat n)%nat /\
  sock_closed (w_sock w) = false /\
  exists evs, w' = left_with w evs.
Proof.
  unfold Socket.recv.
  destruct (sock_closed (w_sock w)) eqn:Hopen; [discriminate|].
  destruct (net_recv (w_sock w)) as [|[c|e] evs] eqn:Escript.
  - intros [= <- <-]. repeat split; [simpl; lia|].
    exists (net_recv (w_sock w)). symmetry. apply left_with_same.
  - destruct (Nat.leb_spec (length c) (Z.to_nat n)).
    + intros [= <- <-]. repeat split; [assumption|]. eexists. reflexivity.
    + intros [= <- <-]. repeat split; [rewrite length_firstn; lia|].
      eexists. reflexivity.
  - discriminate.
Qed.

(** The loop never hands back a short buffer: what it returns holds the
    bytes it started with and has exactly the wanted length (or is the
    initial buffer, when that one was long enough). *)
Lemma recv_until_complete (fuel : nat) :
  forall (want : Z) (buf r : bytes) (w w' : world),
    recv_until fuel want buf w = (Ok (Some r), w') ->
    want <= len r /\ len r <= Z.max want (len buf) /\
    exists more, r = buf ++ more.
Proof.
  induction fuel as [|fuel IH]; intros want buf r w w'; rewrite recv_until_eq.
  - destruct (Z.ltb_spec (len buf) want) as [Hlt|Hge]; [discriminate|].
    intros [= <- <-]. repeat split; [lia|lia|].
    exists []. symmetry. apply app_nil_r.
  - destruct (Z.ltb_spec (len buf) want) as [Hlt|Hge].
    2:{ intros [= <- <-]. repeat split; [lia|lia|].
        exists []. symmetry. apply app_nil_r. }
    unfold bindM.
    destruct (Socket.recv (want - len buf) w) as [[chunk| |] w1] eqn:Hrecv;
      try discriminate.
    apply recv_inv in Hrecv as (Hchunk & _ & _).
    destruct chunk as [|b chunk]; [discriminate|].
    intros Hrun. apply IH in Hrun as (Hfull & Hexact & more & ->).
    rewrite ?len_app in *. unfold len in *. rewrite ?length_app in *.
    simpl length in *.
    repeat split; [lia|lia|].
    exists ((b :: chunk) ++ more). rewrite app_assoc. reflexivity.
Qed.

(** [want - len(buf)] iterations are always enough. *)
Lemma recv_until_total (fuel : nat) :
  forall (want : Z) (buf : bytes) (w : world),
    (Z.to_nat (want - len buf) <= fuel)%nat ->
    fst (recv_until fuel want buf w) <> OutOfFuel.
Proof.
  induction fuel as [|fuel IH]; intros want buf w Hfuel; rewrite recv_until_eq.
  - destruct (Z.ltb_spec (len buf) want) as [Hlt|Hge]; [lia|]. discriminate.
  - destruct (Z.ltb_spec (len buf) want) as [Hlt|Hge]; [|discriminate].
    unfold bindM.
    destruct (Socket.recv (want - len buf) w) as [[chunk| |] w1] eqn:Hrecv.
    + destruct chunk as [|b chunk]; [discriminate|].
      apply IH. rewrite len_app. unfold len in *. simpl length. lia.
    + discriminate.
    + unfold Socket.recv in Hrecv.
      destruct (sock_closed (w_sock w)); [discriminate|].
      destruct (net_recv (w_sock w)) as [|[c|e] evs]; try discriminate.
      destruct (Nat.leb (length c) _); discriminate.
Qed.

(** When the peer closes the stream before the wanted count is reached,
    the loop reports the end of the stream. *)
Lemma recv_until_eof (fuel : nat) :
  forall (want : Z) (buf : bytes) (w : world),
    sock_closed (w_sock w) = false ->
    (Z.to_nat (want - len buf) <= fuel)%nat ->
    len buf + len (available (net_recv (w_sock w))) < want ->
    eof_after (net_recv (w_sock w)) = true ->
    exists w', recv_until fuel want buf w = (Ok None, w').
Proof.
  induction fuel as [|fuel IH]; intros want buf w Hopen Hfuel Hshort Heof;
    rewrite recv_until_eq.
  - unfold len in *. lia.
  - destruct (Z.ltb_spec (len buf) want) as [Hlt|Hge]; [|unfold len in *; lia].
    unfold bindM, Socket.recv. rewrite Hopen.
    destruct (net_recv (w_sock w)) as [|[[|b chunk]|e] evs] eqn:Escript;
      cbn [available eof_after] in *; try discriminate.
    + eexists. reflexivity.
    + cbn [length Nat.leb]. eexists. reflexivity.
    + rewrite len_app in Hshort.
      destruct (Nat.leb_spec (length (b :: chunk)) (Z.to_nat (want - len buf)))
        as [Hwhole|Hpart]; [|unfold len in *; simpl length in *; lia].
      apply IH.
      * exact Hopen.
      * rewrite len_app. unfold len in *. simpl length in *. lia.
      * cbn [with_sock w_sock Socket.set_recv net_recv].
        rewrite len_app. lia.
      * exact Heof.
Qed.

(** C6. Whatever the chunks in which the socket delivers them, the read
    loop of [_read_packet], asked for [want] bytes, accumulates until it
    has them and returns them as one buffer; whatever the socket does, a
    buffer it returns has exactly [want] bytes, never fewer; and when the
    peer closes the stream before the count is reached it returns [None].
    In both cases [want] iterations suffice. *)
Theorem C6_read_loop_exact (want : Z) (w : world) :
  let ready := available (net_recv (w_sock w)) in
  0 <= want ->
  sock_closed (w_sock w) = false ->
  (want <= len ready ->
   exists w', recv_until (Z.to_nat want) want [] w
              = (Ok (Some (firstn (Z.to_nat want) ready)), w') /\
              len (firstn (Z.to_nat want) ready) = want) /\
  (forall fuel r w', recv_until fuel want [] w = (Ok (Some r), w') -> len r = want) /\
  (len ready < want -> eof_after (net_recv (w_sock w)) = true ->
   exists w', recv_until (Z.to_nat want) want [] w = (Ok None, w')).
Proof.
  intros ready Hwant Hopen. split; [|split].
  - intros Hready.
    destruct (recv_until_delivers (Z.to_nat want) want [] w Hopen) as (evs' & Hrun & _).
    + unfold len. simpl length. lia.
    + fold ready. unfold len in *. simpl length. lia.
    + exists (left_with w evs'). split.
      * rewrite Hrun. change (len (@nil byte)) with 0. rewrite Z.sub_0_r.
        reflexivity.
      * unfold len in *. rewrite length_firstn. lia.
  - intros fuel r w' Hrun.
    apply recv_until_complete in Hrun as (Hfull & Hexact & _).
    change (len (@nil byte)) with 0 in Hexact. lia.
  - intros Hshort Heof. apply recv_until_eof.
    + exact Hopen.
    + unfold len. simpl length. lia.
    + change (len (@nil byte)) with 0. fold ready. lia.
    + exact Heof.
Qed.

(** A 6-byte request served in chunks of 2, 1 and 3 bytes. *)
Lemma C6_read_loop_exact_witness :
  exists w',
    recv_until 6 6 []
      (fresh_world [Deliver ["a"; "b"]; Deliver ["c"]; Deliver ["d"; "e"; "f"]]%byte
                   [] [])
    = (Ok (Some ["a"; "b"; "c"; "d"; "e"; "f"]%byte), w').
Proof.
  destruct (C6_read_loop_exact 6
              (fresh_world [Deliver ["a"; "b"]; Deliver ["c"]; Deliver ["d"; "e"; "f"]]%byte
                           [] []))
    as [Hdelivers _].
  - lia.
  - reflexivity.
  - destruct Hdelivers as (w' & Hrun & _).
    + unfold len. simpl. lia.
    + exists w'. exact Hrun.
Defined.

(** ** The console client *)

Lemma unpack_i_total (bs : bytes) :
  length bs = 4%nat -> exists x, unpack_i bs = Ok x.
Proof.
  intros Hlen. unfold unpack_i. rewrite Hlen. cbn [Nat.eqb negb]. eauto.
Qed.

Lemma firstn_app_exact {A : Type} (n : nat) (l l' : list A) :
  length l = n -> firstn n (l ++ l') = l.
Proof.
  intros <-. rewrite firstn_app, firstn_all, Nat.sub_diag. cbn [firstn].
  apply app_nil_r.
Qed.

Lemma skipn_app_exact {A : Type} (n : nat) (l l' : list A) :
  length l = n -> skipn n (l ++ l') = l'.
Proof.
  intros <-. rewrite skipn_app, skipn_all, Nat.sub_diag. reflexivity.
Qed.

(** A frame that the socket has ready, in whatever chunks, is read whole
    and split into its fields. *)
Lemma read_packet_frame (w : world) (req_id : Z) (frame tail : bytes) :
  sock_closed (w_sock w) = false ->
  int32_min <= req_id <= int32_max ->
  is_frame req_id frame ->
  available (net_recv (w_sock w)) = frame ++ tail ->
  exists pkt_type payload evs',
    _read_packet w = (Ok (Some (req_id, pkt_type, payload)), left_with w evs') /\
    available evs' = tail.
Proof.
  intros Hopen Hid (type_bytes & rest & Htype & Hsize & ->) Hready.
  set (size := 4 + 4 + len rest) in *.
  set (body := le_bytes 4 (req_id mod 2 ^ 32) ++ type_bytes ++ rest) in *.
  assert (Hrest : 0 <= len rest) by (unfold len; lia).
  assert (Hsz : int32_min <= size <= int32_max) by (unfold int32_min, size in *; lia).
  assert (Hbody : length body = Z.to_nat size).
  { unfold body, size, len. rewrite !length_app, le_bytes_length, Htype. lia. }
  rewrite <- app_assoc in Hready.
  unfold _read_packet, bindM.
  (* the size field *)
  destruct (recv_until_delivers 4 4 [] w Hopen) as (evs1 & Hrun1 & Hleft1).
  { simpl. lia. }
  { rewrite Hready, !length_app, le_bytes_length. simpl. lia. }
  rewrite Hrun1. rewrite Hready in Hleft1 |- *.
  change (Z.to_nat (4 - len (@nil byte))) with 4%nat in *.
  rewrite firstn_app_exact in * by apply le_bytes_length.
  rewrite skipn_app_exact in Hleft1 by apply le_bytes_length.
  cbn [app]. unfold lift.
  rewrite (unpack_i_le_bytes size Hsz).
  (* the body *)
  destruct (recv_until_delivers (Z.to_nat size) size [] (left_with w evs1) Hopen)
    as (evs2 & Hrun2 & Hleft2).
  { unfold len. simpl. lia. }
  { cbn [left_with with_sock w_sock Socket.set_recv net_recv]. rewrite Hleft1.
    change (len (@nil byte)) with 0. rewrite length_app, Hbody. lia. }
  change (net_recv (w_sock (left_with w evs1))) with evs1 in Hrun2, Hleft2.
  rewrite Hleft1 in Hrun2, Hleft2.
  replace (Z.to_nat (size - len (@nil byte))) with (length body) in Hrun2, Hleft2
    by (change (len (@nil byte)) with 0; rewrite Hbody; lia).
  rewrite firstn_app_exact in Hrun2 by reflexivity.
  rewrite skipn_app_exact in Hleft2 by reflexivity.
  cbn [app] in Hrun2.
  cbv beta iota. rewrite Hrun2. rewrite left_with_twice.
  (* its fields *)
  destruct type_bytes as [|t0 [|t1 [|t2 [|t3 [|]]]]]; try discriminate.
  destruct (unpack_i_total [t0; t1; t2; t3] eq_refl) as [pkt_type Hpkt].
  exists pkt_type, (if 10 <? len body then py_slice body 8 (-2) else []), evs2.
  split; [|exact Hleft2].
  unfold body at 1 2.
  change (py_slice (le_bytes 4 (req_id mod 2 ^ 32) ++ [t0; t1; t2; t3] ++ rest) 0 4)
    with (le_bytes 4 (req_id mod 2 ^ 32)).
  rewrite (unpack_i_le_bytes req_id Hid).
  change (py_slice (le_bytes 4 (req_id mod 2 ^ 32) ++ [t0; t1; t2; t3] ++ rest) 4 8)
    with [t0; t1; t2; t3].
  rewrite Hpkt. reflexivity.
Qed.

Lemma bindM_ok {A B : Type} (m : M A) (k : A -> M B) (w w' : world) (a : A) :
  m w = (Ok a, w') -> bindM m k w = k a w'.
Proof. intros Hm. unfold bindM. rewrite Hm. reflexivity. Qed.

Lemma bindM_raise {A B : Type} (m : M A) (k : A -> M B) (w w' : world) (e : exn) :
  m w = (Raise e, w') -> bindM m k w = (Raise e, w').
Proof. intros Hm. unfold bindM. rewrite Hm. reflexivity. Qed.

(** Frames are built for every request id, packet type and payload in
    range. *)
Lemma make_packet_ok (req_id pkt_type : Z) (payload : bytes) :
  int32_min <= req_id <= int32_max ->
  int32_min <= pkt_type <= int32_max ->
  4 + 4 + len payload + 2 <= int32_max ->
  _make_packet req_id pkt_type payload
  = Ok (le_bytes 4 ((4 + 4 + len payload + 2) mod 2 ^ 32)
        ++ le_bytes 4 (req_id mod 2 ^ 32) ++ le_bytes 4 (pkt_type mod 2 ^ 32)
        ++ payload ++ [x00; x00]).
Proof.
  intros Hid Htype Hsize.
  assert (Hlen : 0 <= len payload) by (unfold len; lia).
  unfold _make_packet, pack_ii.
  rewrite (pack_i_ok req_id Hid), (pack_i_ok pkt_type Htype). cbn [bind].
  replace (len ((le_bytes 4 (req_id mod 2 ^ 32) ++ le_bytes 4 (pkt_type mod 2 ^ 32))
                ++ payload ++ [x00; x00])) with (4 + 4 + len payload + 2).
  - rewrite pack_i_ok by (unfold int32_min in *; lia). cbn [bind].
    apply f_equal. apply f_equal. symmetry. apply app_assoc.
  - unfold len. rewrite !length_app, !le_bytes_length. simpl length. lia.
Qed.

Lemma randint_range (lo hi : Z) (w : world) :
  lo <= hi ->
  exists x w', randint lo hi w = (Ok x, w') /\ lo <= x <= hi /\
               w_sock w' = w_sock w /\ w_http w' = w_http w.
Proof.
  intros Hle. unfold randint. eexists _, _. split; [reflexivity|].
  pose proof (Z.mod_pos_bound (hd 0 (w_rand w)) (hi - lo + 1) ltac:(lia)).
  repeat split; cbn; lia.
Qed.

(** A timeout of [0] seconds or more that fits the clock is accepted. *)
Lemma settimeout_ok (timeout : Z) (w : world) :
  0 <= timeout <= Socket.timeout_max ->
  Socket.settimeout timeout w = (Ok tt, w).
Proof.
  intros Ht. unfold Socket.settimeout.
  destruct (Z.ltb_spec timeout (- Socket.timeout_max));
    [unfold Socket.timeout_max in *; lia|].
  destruct (Z.ltb_spec Socket.timeout_max timeout); [lia|].
  destruct (Z.ltb_spec timeout 0); [lia|]. reflexivity.
Qed.

(** A host name without NUL character, on a port of 0..65535, on a network
    that lets the connection through. *)
Lemma connect_ok (host : string) (port : Z) (w : world) :
  Socket.has_nul host = false ->
  0 <= port <= 65535 ->
  net_connect (w_sock w) = None ->
  Socket.connect host port w = (Ok tt, w).
Proof.
  intros Hhost Hport Hconnect. unfold Socket.connect.
  rewrite Hhost, Hconnect.
  destruct (Z.ltb_spec port int32_min); [unfold int32_min in *; lia|].
  destruct (Z.ltb_spec int32_max port); [unfold int32_max in *; lia|].
  destruct (Z.ltb_spec port 0); [lia|]. destruct (Z.ltb_spec 65535 port); [lia|].
  reflexivity.
Qed.

(** C5. When the server answers the authentication request of the direct
    (socket) path of [rcon_command] with a frame whose request id field
    is -1, whatever its packet type and payload, whatever the chunks in
    which it arrives and whatever request id was sent, the call raises
    [ConnectionError("RCON authentication failed")]; the authenticate
    frame is the only thing it has sent, and the socket is closed when it
    returns, so no execute-command frame follows. *)
Theorem C5_auth_rejected `{PyRuntime} (host : string) (port : Z)
    (password command : string) (timeout : Z) (instance_id : option string)
    (w : world) (frame tail : bytes) :
  instance_id = None \/ instance_id = Some EmptyString ->
  Socket.has_nul host = false ->
  0 <= port <= 65535 ->
  0 <= timeout <= Socket.timeout_max ->
  4 + 4 + len (encode_utf8 password) + 2 <= int32_max ->
  net_create (w_sock w) = None ->
  net_connect (w_sock w) = None ->
  hd None (net_send (w_sock w)) = None ->
  sock_closed (w_sock w) = false ->
  is_frame (-1) frame ->
  available (net_recv (w_sock w)) = frame ++ tail ->
  exists req_id auth w',
    rcon_command host port password command timeout instance_id w
    = (Raise (ConnectionError "RCON authentication failed"), w') /\
    _make_packet req_id SERVERDATA_AUTH (encode_utf8 password) = Ok auth /\
    sock_sent (w_sock w') = sock_sent (w_sock w) ++ [auth] /\
    sock_closed (w_sock w') = true.
Proof.
  intros Hid Hhost Hport Htimeout Hpw Hcreate Hconnect Hsend Hopen Hframe Hready.
  unfold rcon_command. cbv zeta.
  match goal with
  | |- context [bindM Socket.socket_ ?k] => set (direct := bindM Socket.socket_ k)
  end.
  replace (match instance_id with
           | Some id =>
               if negb (String.eqb id EmptyString)
               then daemon_rcon_command id command (Some port) (Some password)
               else direct
           | None => direct
           end) with direct by (destruct Hid as [-> | ->]; reflexivity).
  subst direct.
  destruct (randint_range 1 2147483647 (with_sock w (Socket.set_created (w_sock w))))
    as (req_id & w2 & Hrand & Hrange & Hsock2 & Hhttp2); [lia|].
  pose proof (make_packet_ok req_id SERVERDATA_AUTH (encode_utf8 password)) as Hauth.
  specialize (Hauth ltac:(unfold int32_min, int32_max; lia)
                    ltac:(unfold int32_min, int32_max, SERVERDATA_AUTH; lia) Hpw).
  set (auth := le_bytes 4 _ ++ _) in Hauth.
  exists req_id, auth.
  set (w1 := with_sock w (Socket.set_created (w_sock w))) in *.
  assert (Hstep1 : Socket.socket_ w = (Ok tt, w1)).
  { unfold Socket.socket_. rewrite Hcreate. reflexivity. }
  pose proof (settimeout_ok timeout w1 Htimeout) as Hstep1'.
  pose proof (connect_ok host port w1 Hhost Hport Hconnect) as Hstep2.
  set (w3 := with_sock w2 (Socket.log_send (w_sock w2) auth)).
  assert (Hstep3 : Socket.sendall auth w2 = (Ok tt, w3)).
  { unfold Socket.sendall. rewrite Hsock2.
    change (sock_closed (w_sock w1)) with (sock_closed (w_sock w)).
    change (net_send (w_sock w1)) with (net_send (w_sock w)).
    rewrite Hopen. fold w3. subst w3. rewrite Hsock2.
    destruct (net_send (w_sock w)) as [|[e|] sends]; try reflexivity.
    discriminate. }
  destruct (read_packet_frame w3 (-1) frame tail) as (pkt_type & payload & evs' & Hread & _).
  { subst w3. cbn [with_sock w_sock Socket.log_send sock_closed].
    rewrite Hsock2. exact Hopen. }
  { unfold int32_min, int32_max. lia. }
  { exact Hframe. }
  { subst w3. cbn [with_sock w_sock Socket.log_send net_recv].
    rewrite Hsock2. exact Hready. }
  eexists. split; [|split; [exact Hauth|]].
  - rewrite (bindM_ok _ _ _ _ _ Hstep1).
    rewrite (bindM_ok _ _ _ _ _ Hstep1').
    unfold try_finally.
    rewrite (bindM_ok _ _ _ _ _ Hstep2).
    rewrite (bindM_ok _ _ _ _ _ Hrand).
    unfold lift at 1. rewrite Hauth. unfold bindM at 1.
    rewrite (bindM_ok _ _ _ _ _ Hstep3).
    rewrite (bindM_ok _ _ _ _ _ Hread).
    cbn [Z.eqb Pos.eqb raise Socket.close]. reflexivity.
  - cbn [with_sock w_sock Socket.set_closed sock_sent sock_closed left_with Socket.set_recv].
    subst w3. cbn [with_sock w_sock Socket.log_send sock_sent]. rewrite Hsock2.
    split; reflexivity.
Qed.


(** A server that answers the authentication with request id -1, packet
    type 2 and an empty payload, in three chunks. *)
Lemma C5_auth_rejected_witness :
  exists req_id auth w',
    rcon_command (H := example_runtime []) "127.0.0.1" 25575 "secret" "list" 5 None
      (fresh_world [Deliver [x0a; x00; x00];
                    Deliver [x00; xff; xff; xff; xff; x02];
                    Deliver [x00; x00; x00; x00; x00]] [] [42])
    = (Raise (ConnectionError "RCON authentication failed"), w') /\
    _make_packet req_id SERVERDATA_AUTH (encode_utf8 "secret") = Ok auth /\
    sock_sent (w_sock w') = [] ++ [auth] /\
    sock_closed (w_sock w') = true.
Proof.
  apply (C5_auth_rejected (H := example_runtime []) "127.0.0.1" 25575 "secret" "list" 5 None
           (fresh_world [Deliver [x0a; x00; x00];
                         Deliver [x00; xff; xff; xff; xff; x02];
                         Deliver [x00; x00; x00; x00; x00]] [] [42])
           [x0a; x00; x00; x00; xff; xff; xff; xff; x02; x00; x00; x00; x00; x00] []).
  - left. reflexivity.
  - reflexivity.
  - lia.
  - unfold Socket.timeout_max. lia.
  - vm_compute. discriminate.
  - reflexivity.
  - reflexivity.
  - reflexivity.
  - reflexivity.
  - exists [x02; x00; x00; x00], [x00; x00]. repeat split.
    vm_compute. discriminate.
  - reflexivity.
Defined.

(** ** The status ping *)

(** C7 (the code at a failing input). The server accepts the connection
    and then stays silent until the read times out: [ping] returns [None]
    through its [except] clause, which does not close the socket; the
    socket it opened is still open when the call returns. *)
Theorem C7_ping_timeout_leaves_socket_open `{PyRuntime} :
  exists w',
    ping 5 "127.0.0.1" 25565 3 (fresh_world [RecvError SockTimeout] [] [])
    = (Ok JNull, w') /\
    sock_created (w_sock w') = true /\
    sock_closed (w_sock w') = false.
Proof. eexists. split; [reflexivity|]. split; reflexivity. Qed.

(** On the paths that leave the loop normally the socket is closed: here
    the peer closes the stream without answering. *)
Lemma ping_eof_closes_socket `{PyRuntime} :
  exists w',
    ping 5 "127.0.0.1" 25565 3 (fresh_world [] [] []) = (Ok JNull, w') /\
    sock_closed (w_sock w') = true.
Proof. eexists. split; reflexivity. Qed.

(** The parser answers [None] wherever its own [except] clause applies:
    it never lets a [ValueError] (a bad varint, malformed JSON, invalid
    UTF-8) out. *)
Lemma parse_response_catches `{PyRuntime} (data : bytes) (e : exn) :
  _parse_response data = Raise e -> is_ValueError e = false.
Proof.
  unfold _parse_response.
  match goal with |- context [match ?m with _ => _ end] => destruct m as [v|e'|] end.
  - discriminate.
  - destruct (is_ValueError e') eqn:E; [discriminate|]. intros [= <-]. exact E.
  - discriminate.
Qed.

Lemma call_total {A : Type} (r : result A) : call r <> OutOfFuel.
Proof. destruct r; discriminate. Qed.

Lemma read_varint_total (data : bytes) (offset : nat) :
  _read_varint data offset <> OutOfFuel.
Proof.
  destruct (read_varint_cases data offset) as [(v & o & ->)| ->]; discriminate.
Qed.

Lemma parse_response_total `{PyRuntime} (data : bytes) :
  _parse_response data <> OutOfFuel.
Proof.
  unfold _parse_response.
  destruct (read_varint_cases data 0) as [(pkt_len & o1 & ->)| ->]; cbn [bind];
    [|discriminate].
  destruct (len data <? Z.of_nat o1 + pkt_len); [discriminate|].
  destruct (read_varint_cases data o1) as [(pkt_id & o2 & ->)| ->]; cbn [bind];
    [|discriminate].
  destruct (negb (pkt_id =? 0)); [discriminate|].
  destruct (read_varint_cases data o2) as [(json_len & o3 & ->)| ->]; cbn [bind];
    [|discriminate].
  destruct (utf8_decode _) as [text|e]; cbn [call bind].
  - destruct (json_loads text) as [doc|e]; cbn [call]; [discriminate|].
    destruct (is_ValueError e); discriminate.
  - destruct (is_ValueError e); discriminate.
Qed.

Lemma is_OSError_sock_error (e : sock_error) : is_OSError (exn_of_sock_error e) = true.
Proof. destruct e; reflexivity. Qed.

Lemma recv_loop_result `{PyRuntime} (fuel : nat) :
  forall (data : bytes) (w : world),
    (script_size (net_recv (w_sock w)) < fuel)%nat ->
    loop_result data w (recv_loop fuel data w).
Proof.
  induction fuel as [|fuel IH]; intros data w Hfuel; [lia|].
  unfold loop_result.
  cbn [recv_loop]. unfold bindM at 1, Socket.recv.
  destruct (sock_closed (w_sock w)); [reflexivity|].
  destruct (net_recv (w_sock w)) as [|[chunk|e] evs] eqn:Escript.
  - left. reflexivity.
  - cbn [script_size] in Hfuel.
    (* the chunk this [recv] returns and the script it leaves *)
    assert (Hrecv : exists taken evs1,
               (if Nat.leb (length chunk) (Z.to_nat 4096)
                then (Ok chunk, with_sock w (Socket.set_recv (w_sock w) evs))
                else (Ok (firstn (Z.to_nat 4096) chunk),
                      with_sock w (Socket.set_recv (w_sock w)
                                     (Deliver (skipn (Z.to_nat 4096) chunk) :: evs))))
               = (Ok taken, left_with w evs1) /\
               (script_size evs1 < fuel)%nat /\
               (taken = [] \/
                (taken <> [] /\
                 available (Deliver chunk :: evs) = taken ++ available evs1))).
    { destruct (Nat.leb_spec (length chunk) (Z.to_nat 4096)) as [Hwhole|Hpart].
      - exists chunk, evs. split; [reflexivity|]. split; [lia|].
        destruct chunk as [|b chunk]; [left; reflexivity|right].
        split; [discriminate|reflexivity].
      - exists (firstn (Z.to_nat 4096) chunk), (Deliver (skipn (Z.to_nat 4096) chunk) :: evs).
        split; [reflexivity|]. split.
        + cbn [script_size]. rewrite length_skipn. lia.
        + right. split.
          * intros Hnil. apply (f_equal (@length byte)) in Hnil.
            rewrite length_firstn in Hnil. simpl length in Hnil. lia.
          * destruct (skipn (Z.to_nat 4096) chunk) as [|b' left] eqn:Eleft.
            { apply (f_equal (@length byte)) in Eleft. rewrite length_skipn in Eleft.
              simpl length in Eleft. lia. }
            destruct chunk as [|b chunk]; [simpl in Hpart; lia|].
            cbn [available]. rewrite <- Eleft, app_assoc, firstn_skipn. reflexivity. }
    destruct Hrecv as (taken & evs1 & -> & Hsize & Htaken).
    destruct Htaken as [-> | [Hne Hready]]; [left; reflexivity|].
    destruct taken as [|b taken]; [contradiction|].
    set (data' := data ++ b :: taken).
    assert (Hnext :
      match fst (recv_loop fuel data' (left_with w evs1)) with
      | Ok r =>
          r = JNull \/
          exists n, _parse_response
                      (data ++ firstn n (available (Deliver chunk :: evs))) = Ok r
      | Raise e => is_OSError e = true
      | OutOfFuel => False
      end).
    { specialize (IH data' (left_with w evs1) Hsize). unfold loop_result in IH.
      destruct (fst (recv_loop fuel data' (left_with w evs1))) as [r|e|]; try exact IH.
      destruct IH as [IH|[n IH]]; [left; exact IH|right].
      exists (length (b :: taken) + n)%nat. rewrite Hready.
      change (net_recv (w_sock (left_with w evs1))) with evs1 in IH.
      rewrite firstn_app_2. unfold data' in IH. rewrite <- app_assoc in IH. exact IH. }
    unfold bindM at 1, try_except, bindM at 1, lift.
    destruct (_parse_response data') as [parsed|e|] eqn:Eparse.
    + destruct (is_None parsed) eqn:Enone; cbn [negb].
      * exact Hnext.
      * right. exists (length (b :: taken)). rewrite Hready.
        rewrite firstn_app_exact by reflexivity. exact Eparse.
    + exact Hnext.
    + exfalso. exact (parse_response_total _ Eparse).
  - apply is_OSError_sock_error.
Qed.

(** The encoder returns on every non-negative value, within a budget
    larger than the value. *)
Lemma encode_varint_nonneg (fuel : nat) (value : Z) :
  0 <= value ->
  (Z.to_nat value < fuel)%nat ->
  exists bs, _encode_varint fuel value = Ok bs /\ (length bs <= S (Z.to_nat value))%nat.
Proof.
  intros Hv Hfuel. unfold _encode_varint.
  destruct (Z.ltb_spec value 0) as [|_]; [lia|].
  destruct (encode_loop_read_loop (Z.to_nat value) value []) as (bs & Henc & Hlen & _).
  - split; [exact Hv|].
    pose proof (Z.pow_gt_lin_r 2 (7 * Z.of_nat (S (Z.to_nat value))) ltac:(lia) ltac:(lia)).
    lia.
  - exists bs. split; [|exact Hlen].
    apply encode_loop_more_fuel with (fuel := S (Z.to_nat value)); [exact Henc|lia].
Qed.

Lemma pack_H_ok (x : Z) :
  0 <= x <= 65535 -> pack_H x = Ok [byte_of_Z (x / 256); byte_of_Z x].
Proof.
  intros Hx. unfold pack_H.
  destruct (Z.ltb_spec x 0); [lia|]. destruct (Z.ltb_spec 65535 x); [lia|]. reflexivity.
Qed.

(** A [sendall] succeeds or raises an [OSError]; in both cases it leaves
    alone what the network is going to deliver. *)
Lemma sendall_cases (data : bytes) (w : world) :
  exists w',
    net_recv (w_sock w') = net_recv (w_sock w) /\
    (Socket.sendall data w = (Ok tt, w') \/
     exists e, Socket.sendall data w = (Raise e, w') /\ is_OSError e = true).
Proof.
  unfold Socket.sendall.
  destruct (sock_closed (w_sock w)).
  - exists w. split; [reflexivity|]. right. exists OSError. split; reflexivity.
  - exists (with_sock w (Socket.log_send (w_sock w) data)). split; [reflexivity|].
    destruct (net_send (w_sock w)) as [|[e|] sends].
    + left. reflexivity.
    + right. exists (exn_of_sock_error e).
      split; [reflexivity|apply is_OSError_sock_error].
    + left. reflexivity.
Qed.

(** What the [try] block of [ping] can end with: what it raises is an
    [OSError], unless [settimeout] or the conversion of the address in
    [connect] refuses an argument. *)
Lemma ping_body_result `{PyRuntime} (fuel : nat) (host : string) (port timeout : Z)
    (w : world) :
  (ping_budget host w <= fuel)%nat ->
  forall res,
    res = (Socket.socket_ >>
           Socket.settimeout timeout >>
           Socket.connect host port >>
           protocol_version <-- lift (_encode_varint fuel (-1)) ;;
           let host_bytes := encode_utf8 host in
           host_len <-- lift (_encode_varint fuel (len host_bytes)) ;;
           port_bytes <-- lift (pack_H port) ;;
           next_state <-- lift (_encode_varint fuel 1) ;;
           packet_id <-- lift (_encode_varint fuel 0) ;;
           let handshake_data :=
             packet_id ++ protocol_version ++ host_len ++ host_bytes
                       ++ port_bytes ++ next_state in
           handshake_len <-- lift (_encode_varint fuel (len handshake_data)) ;;
           Socket.sendall (handshake_len ++ handshake_data) >>
           one <-- lift (_encode_varint fuel 1) ;;
           zero <-- lift (_encode_varint fuel 0) ;;
           Socket.sendall (one ++ zero) >>
           recv_loop fuel []) w ->
    match fst res with
    | Ok r =>
        r = JNull \/
        (net_create (w_sock w) = None /\ net_connect (w_sock w) = None /\
         exists n, _parse_response (firstn n (available (net_recv (w_sock w)))) = Ok r)
    | Raise e =>
        is_OSError e = true \/
        ~ 0 <= timeout <= Socket.timeout_max \/
        Socket.has_nul host = true \/
        net_connect (w_sock w) = Some HostRejected \/
        ~ 0 <= port <= 65535
    | OutOfFuel => False
    end.
Proof.
  intros Hfuel res ->. unfold ping_budget in Hfuel.
  set (h := length (encode_utf8 host)) in *.
  unfold bindM at 1, Socket.socket_.
  destruct (net_create (w_sock w)) as [e|] eqn:Hcreate;
    [left; apply is_OSError_sock_error|].
  set (w1 := with_sock w (Socket.set_created (w_sock w))).
  unfold bindM at 1, Socket.settimeout.
  destruct (Z.ltb_spec timeout (- Socket.timeout_max)); [right; left; lia|].
  destruct (Z.ltb_spec Socket.timeout_max timeout); [right; left; lia|].
  destruct (Z.ltb_spec timeout 0); [right; left; lia|].
  cbn [orb].
  unfold bindM at 1, Socket.connect.
  destruct (Socket.has_nul host) eqn:Hhost; [right; right; left; reflexivity|].
  change (net_connect (w_sock w1)) with (net_connect (w_sock w)).
  destruct (net_connect (w_sock w)) as [[| |e]|] eqn:Hconnect;
    [right; right; right; left; reflexivity| | |].
  all: destruct (Z.ltb_spec port int32_min);
    [right; right; right; right; unfold int32_min in *; lia|].
  all: destruct (Z.ltb_spec int32_max port);
    [right; right; right; right; unfold int32_max in *; lia|].
  all: cbn [orb].
  1: left; reflexivity.
  all: destruct (Z.ltb_spec port 0); [right; right; right; right; lia|].
  all: destruct (Z.ltb_spec 65535 port); [right; right; right; right; lia|].
  all: cbn [orb].
  1: left; apply is_OSError_sock_error.
  assert (Hport : 0 <= port <= 65535) by lia.
  (* the handshake is built *)
  destruct fuel as [|[|[|[|[|fuel]]]]]; try lia.
  set (budget := S (S (S (S (S fuel))))) in *.
  change (_encode_varint budget (-1)) with (Ok [xff; xff; xff; xff; x0f]).
  change (_encode_varint budget 1) with (Ok [x01]).
  change (_encode_varint budget 0) with (Ok [x00]).
  destruct (encode_varint_nonneg budget (len (encode_utf8 host)))
    as (host_len & -> & Hhost_len); [unfold len; lia|unfold len; fold h; lia|].
  rewrite (pack_H_ok port Hport).
  unfold lift. cbv zeta. unfold bindM at 1. unfold bindM at 1. unfold bindM at 1.
  unfold bindM at 1. unfold bindM at 1.
  set (handshake_data := [x00] ++ _).
  assert (Hhs : len handshake_data <= 2 * Z.of_nat h + 10).
  { unfold handshake_data, len. rewrite !length_app. fold h. unfold len in Hhost_len.
    simpl length. lia. }
  destruct (encode_varint_nonneg budget (len handshake_data))
    as (handshake_len & -> & _); [unfold len; lia|lia|].
  unfold bindM at 1.
  (* the two packets are sent *)
  unfold bindM at 1.
  destruct (sendall_cases (handshake_len ++ handshake_data) w1) as (w2 & Hrecv2 & [->|(e & -> & He)]);
    [|left; exact He].
  unfold bindM at 1. unfold bindM at 1. unfold bindM at 1.
  destruct (sendall_cases ([x01] ++ [x00]) w2) as (w3 & Hrecv3 & [->|(e & -> & He)]);
    [|left; exact He].
  (* and the answer is awaited *)
  pose proof (recv_loop_result budget [] w3) as Hloop.
  rewrite Hrecv3, Hrecv2 in Hloop.
  change (net_recv (w_sock w1)) with (net_recv (w_sock w)) in Hloop.
  specialize (Hloop ltac:(lia)). unfold loop_result in Hloop.
  rewrite Hrecv3, Hrecv2 in Hloop.
  change (net_recv (w_sock w1)) with (net_recv (w_sock w)) in Hloop.
  destruct (fst (recv_loop budget [] w3)) as [r|e|];
    [|left; exact Hloop|exact Hloop].
  destruct Hloop as [->|Hparsed]; [left; reflexivity|right].
  repeat split. exact Hparsed.
Qed.

(** While the parser finds no document in the buffer, because it answers
    [None] or because it raises, the loop goes on to the next [recv] with
    the bytes accumulated so far. *)
Lemma recv_loop_continues `{PyRuntime} (fuel : nat) (data chunk : bytes) (w w1 : world) :
  Socket.recv 4096 w = (Ok chunk, w1) ->
  chunk <> [] ->
  (forall v, _parse_response (data ++ chunk) = Ok v -> v = JNull) ->
  recv_loop (S fuel) data w = recv_loop fuel (data ++ chunk) w1.
Proof.
  intros Hrecv Hne Hnone. cbn [recv_loop]. unfold bindM at 1. rewrite Hrecv.
  destruct chunk as [|b chunk]; [contradiction|].
  unfold bindM at 1, try_except, bindM at 1, lift.
  destruct (_parse_response (data ++ b :: chunk)) as [v|e|] eqn:Eparse.
  - rewrite (Hnone v eq_refl). reflexivity.
  - reflexivity.
  - exfalso. exact (parse_response_total _ Eparse).
Qed.

(** The encoder never raises: each byte it packs lies in 0..255. *)
Lemma encode_loop_no_raise (fuel : nat) :
  forall (value : Z) (acc : bytes) (e : exn), encode_loop fuel value acc <> Raise e.
Proof.
  induction fuel as [|fuel IH]; intros value acc e; [discriminate|].
  cbn [encode_loop].
  pose proof (Z.mod_pos_bound value 128 ltac:(lia)) as Hlow.
  rewrite land_127.
  destruct (Z.shiftr value 7 =? 0); cbn [negb].
  - rewrite pack_B_ok by lia. cbn [bind]. discriminate.
  - destruct (continuation_byte (value mod 128) Hlow) as (Hrange & _).
    rewrite pack_B_ok by exact Hrange. cbn [bind]. apply IH.
Qed.

Lemma encode_varint_no_raise (fuel : nat) (value : Z) (e : exn) :
  _encode_varint fuel value <> Raise e.
Proof. unfold _encode_varint. apply encode_loop_no_raise. Qed.

(** Whatever the budget, the accumulation loop raises nothing but the
    socket errors of [recv]. *)
Lemma recv_loop_safe `{PyRuntime} (fuel : nat) :
  forall (data : bytes) (w : world),
    match fst (recv_loop fuel data w) with
    | Raise e => is_OSError e = true
    | _ => True
    end.
Proof.
  induction fuel as [|fuel IH]; intros data w; [exact I|].
  cbn [recv_loop]. unfold bindM at 1, Socket.recv.
  destruct (sock_closed (w_sock w)); [reflexivity|].
  destruct (net_recv (w_sock w)) as [|[chunk|e] evs].
  - exact I.
  - match goal with
    | |- context [if ?c then (Ok ?t1, ?w1) else (Ok ?t2, ?w2)] =>
        assert (Hrecv : exists taken w',
                   (if c then (Ok t1, w1) else (Ok t2, w2)) = (Ok taken, w'))
          by (destruct c; eexists _, _; reflexivity)
    end.
    destruct Hrecv as (taken & w' & ->).
    destruct taken as [|b taken]; [exact I|].
    unfold bindM at 1, try_except, bindM at 1, lift.
    destruct (_parse_response (data ++ b :: taken)) as [parsed|e|].
    + destruct (is_None parsed); cbn [negb]; [apply IH|exact I].
    + apply IH.
    + exact I.
  - apply is_OSError_sock_error.
Qed.

(** Whatever the budget, what the [try] block of [ping] raises is an
    [OSError], unless [settimeout] or the conversion of the address in
    [connect] refuses an argument. *)
Lemma ping_body_safe `{PyRuntime} (fuel : nat) (host : string) (port timeout : Z)
    (w : world) :
  forall res,
    res = (Socket.socket_ >>
           Socket.settimeout timeout >>
           Socket.connect host port >>
           protocol_version <-- lift (_encode_varint fuel (-1)) ;;
           let host_bytes := encode_utf8 host in
           host_len <-- lift (_encode_varint fuel (len host_bytes)) ;;
           port_bytes <-- lift (pack_H port) ;;
           next_state <-- lift (_encode_varint fuel 1) ;;
           packet_id <-- lift (_encode_varint fuel 0) ;;
           let handshake_data :=
             packet_id ++ protocol_version ++ host_len ++ host_bytes
                       ++ port_bytes ++ next_state in
           handshake_len <-- lift (_encode_varint fuel (len handshake_data)) ;;
           Socket.sendall (handshake_len ++ handshake_data) >>
           one <-- lift (_encode_varint fuel 1) ;;
           zero <-- lift (_encode_varint fuel 0) ;;
           Socket.sendall (one ++ zero) >>
           recv_loop fuel []) w ->
    match fst res with
    | Raise e =>
        is_OSError e = true \/
        ~ 0 <= timeout <= Socket.timeout_max \/
        Socket.has_nul host = true \/
        net_connect (w_sock w) = Some HostRejected \/
        ~ 0 <= port <= 65535
    | _ => True
    end.
Proof.
  intros res ->.
  unfold bindM at 1, Socket.socket_.
  destruct (net_create (w_sock w)) as [e|] eqn:Hcreate;
    [left; apply is_OSError_sock_error|].
  set (w1 := with_sock w (Socket.set_created (w_sock w))).
  unfold bindM at 1, Socket.settimeout.
  destruct (Z.ltb_spec timeout (- Socket.timeout_max)); [right; left; lia|].
  destruct (Z.ltb_spec Socket.timeout_max timeout); [right; left; lia|].
  destruct (Z.ltb_spec timeout 0); [right; left; lia|].
  cbn [orb].
  unfold bindM at 1, Socket.connect.
  destruct (Socket.has_nul host) eqn:Hhost; [right; right; left; reflexivity|].
  change (net_connect (w_sock w1)) with (net_connect (w_sock w)).
  destruct (net_connect (w_sock w)) as [[| |e]|] eqn:Hconnect;
    [right; right; right; left; reflexivity| | |].
  all: destruct (Z.ltb_spec port int32_min);
    [right; right; right; right; unfold int32_min in *; lia|].
  all: destruct (Z.ltb_spec int32_max port);
    [right; right; right; right; unfold int32_max in *; lia|].
  all: cbn [orb].
  1: left; reflexivity.
  all: destruct (Z.ltb_spec port 0); [right; right; right; right; lia|].
  all: destruct (Z.ltb_spec 65535 port); [right; right; right; right; lia|].
  all: cbn [orb].
  1: left; apply is_OSError_sock_error.
  assert (Hport : 0 <= port <= 65535) by lia.
  rewrite (pack_H_ok port Hport).
  unfold lift. cbv zeta.
  unfold bindM at 1.
  destruct (_encode_varint fuel (-1)) as [protocol_version|e|] eqn:E1;
    [|exfalso; exact (encode_varint_no_raise _ _ _ E1)|exact I].
  unfold bindM at 1.
  destruct (_encode_varint fuel (len (encode_utf8 host))) as [host_len|e|] eqn:E2;
    [|exfalso; exact (encode_varint_no_raise _ _ _ E2)|exact I].
  unfold bindM at 1. unfold bindM at 1.
  destruct (_encode_varint fuel 1) as [next_state|e|] eqn:E3;
    [|exfalso; exact (encode_varint_no_raise _ _ _ E3)|exact I].
  unfold bindM at 1.
  destruct (_encode_varint fuel 0) as [packet_id|e|] eqn:E4;
    [|exfalso; exact (encode_varint_no_raise _ _ _ E4)|exact I].
  set (handshake_data := packet_id ++ _).
  unfold bindM at 1.
  destruct (_encode_varint fuel (len handshake_data)) as [handshake_len|e|] eqn:E5;
    [|exfalso; exact (encode_varint_no_raise _ _ _ E5)|exact I].
  unfold bindM at 1.
  destruct (sendall_cases (handshake_len ++ handshake_data) w1)
    as (w2 & _ & [->|(e & -> & He)]); [|left; exact He].
  unfold bindM at 1. unfold bindM at 1. unfold bindM at 1.
  destruct (sendall_cases (next_state ++ packet_id) w2)
    as (w3 & _ & [->|(e & -> & He)]); [|left; exact He].
  pose proof (recv_loop_safe fuel [] w3) as Hloop.
  destruct (fst (recv_loop fuel [] w3)) as [r|e|]; [exact I|left; exact Hloop|exact I].
Qed.

(** Past the length check the parser goes by the inner length alone: once
    the buffer holds at least as many bytes as the outer length announces,
    be it more, it answers with whatever [json.loads] makes of the text
    the inner length delimits. *)
Lemma parse_response_inner_length `{PyRuntime} (data : bytes) (pkt_len json_len : Z)
    (offset o2 o3 : nat) :
  _read_varint data 0 = Ok (pkt_len, offset) ->
  Z.of_nat offset + pkt_len <= len data ->
  _read_varint data offset = Ok (0, o2) ->
  _read_varint data o2 = Ok (json_len, o3) ->
  _parse_response data
  = match
      text <- call (utf8_decode (py_slice data o3 (Z.of_nat o3 + json_len))) ;;
      call (json_loads text)
    with
    | Raise e => if is_ValueError e then Ok JNull else Raise e
    | r => r
    end.
Proof.
  intros Hlen Hfits Hid Hjson. unfold _parse_response.
  rewrite Hlen. cbn [bind].
  destruct (Z.ltb_spec (len data) (Z.of_nat offset + pkt_len)); [lia|].
  rewrite Hid. cbn [bind]. cbn [Z.eqb negb].
  rewrite Hjson. cbn [bind]. reflexivity.
Qed.

(** C8 (amended). On a host name the socket module accepts, a port of
    0..65535 and a timeout [settimeout] accepts, whatever the network does
    (refused connection, failing send or receive, timeout, early close)
    and whatever bytes the server sends, [ping] never raises, however far
    it is run; once the stream ends it returns, and it returns [None]
    unless the parser found a status document in the bytes received before
    the first failure or the end of the stream.  The parser itself answers
    [None] on a buffer with a bad or unfinished length varint, on one
    shorter than the length it announces, and on a wrong packet id; it
    lets no [ValueError] out (malformed JSON, invalid UTF-8); and while it
    finds nothing the loop keeps accumulating.  An outer length that
    undercounts is not noticed: once the buffer is at least as long as
    announced the parser goes by the inner length, returning the document
    when the decoder and [json.loads] accept the text so delimited and
    [None] when one of them raises a [ValueError]. *)
Theorem C8_ping_never_raises `{PyRuntime} (fuel : nat) (host : string)
    (port timeout : Z) (w : world) :
  Socket.has_nul host = false ->
  net_connect (w_sock w) <> Some HostRejected ->
  0 <= port <= 65535 ->
  0 <= timeout <= Socket.timeout_max ->
  (forall e w', ping fuel host port timeout w <> (Raise e, w')) /\
  ((ping_budget host w <= fuel)%nat ->
   exists r w',
     ping fuel host port timeout w = (Ok r, w') /\
     (r <> JNull ->
      net_create (w_sock w) = None /\ net_connect (w_sock w) = None /\
      exists n, _parse_response (firstn n (available (net_recv (w_sock w)))) = Ok r)) /\
  (forall data e, _read_varint data 0 = Raise e -> _parse_response data = Ok JNull) /\
  (forall data pkt_len offset,
     _read_varint data 0 = Ok (pkt_len, offset) ->
     len data < Z.of_nat offset + pkt_len ->
     _parse_response data = Ok JNull) /\
  (forall data pkt_len offset pkt_id offset',
     _read_varint data 0 = Ok (pkt_len, offset) ->
     _read_varint data offset = Ok (pkt_id, offset') ->
     pkt_id <> 0 ->
     _parse_response data = Ok JNull) /\
  (forall data e, _parse_response data = Raise e -> is_ValueError e = false) /\
  (forall data, _parse_response data <> OutOfFuel) /\
  (forall n data chunk w0 w1,
     Socket.recv 4096 w0 = (Ok chunk, w1) ->
     chunk <> [] ->
     (forall v, _parse_response (data ++ chunk) = Ok v -> v = JNull) ->
     recv_loop (S n) data w0 = recv_loop n (data ++ chunk) w1) /\
  (forall data pkt_len offset o2 json_len o3,
     _read_varint data 0 = Ok (pkt_len, offset) ->
     Z.of_nat offset + pkt_len <= len data ->
     _read_varint data offset = Ok (0, o2) ->
     _read_varint data o2 = Ok (json_len, o3) ->
     let slice := py_slice data o3 (Z.of_nat o3 + json_len) in
     (forall text doc,
        utf8_decode slice = Returns text -> json_loads text = Returns doc ->
        _parse_response data = Ok doc) /\
     (forall e,
        is_ValueError e = true ->
        utf8_decode slice = Raises e \/
        (exists text, utf8_decode slice = Returns text /\ json_loads text = Raises e) ->
        _parse_response data = Ok JNull)).
Proof.
  intros Hhost Hidna Hport Htimeout.
  split; [|split; [|split; [|split; [|split; [|split; [|split; [|split]]]]]]].
  - intros e w' Hraise.
    pose proof (ping_body_safe fuel host port timeout w _ eq_refl) as Hbody.
    unfold ping, try_except in Hraise.
    match type of Hbody with
    | match fst ?res with _ => _ end => destruct res as [[r|e0|] w0]
    end; cbn [fst] in Hbody; try discriminate.
    destruct Hbody as [He|[Hbad|[Hbad|[Hbad|Hbad]]]];
      [|contradiction|congruence|contradiction|contradiction].
    rewrite He in Hraise. discriminate.
  - intros Hfuel.
    pose proof (ping_body_result fuel host port timeout w Hfuel _ eq_refl) as Hbody.
    unfold ping, try_except.
    match type of Hbody with
    | match fst ?res with _ => _ end => destruct res as [[r|e|] w']
    end; cbn [fst] in Hbody.
    + exists r, w'. split; [reflexivity|]. intros Hr.
      destruct Hbody as [->|Hparsed]; [contradiction|exact Hparsed].
    + destruct Hbody as [He|[Hbad|[Hbad|[Hbad|Hbad]]]];
        [|contradiction|congruence|contradiction|contradiction].
      rewrite He. exists JNull, w'. split; [reflexivity|]. intros Hr. contradiction.
    + contradiction.
  - intros data e Hvarint. unfold _parse_response. rewrite Hvarint. cbn [bind].
    destruct (read_varint_cases data 0) as [(v & o & Hok)|Hraise]; [congruence|].
    rewrite Hraise in Hvarint. injection Hvarint as <-. reflexivity.
  - intros data pkt_len offset Hvarint Hshort. unfold _parse_response.
    rewrite Hvarint. cbn [bind].
    destruct (Z.ltb_spec (len data) (Z.of_nat offset + pkt_len)); [reflexivity|lia].
  - intros data pkt_len offset pkt_id offset' Hlen Hid Hwrong. unfold _parse_response.
    rewrite Hlen. cbn [bind].
    destruct (len data <? Z.of_nat offset + pkt_len); [reflexivity|].
    rewrite Hid. cbn [bind].
    destruct (Z.eqb_spec pkt_id 0); [contradiction|reflexivity].
  - intros data e. apply parse_response_catches.
  - intros data. apply parse_response_total.
  - intros n data chunk w0 w1. apply recv_loop_continues.
  - intros data pkt_len offset o2 json_len o3 Hlen Hfits Hid Hjson slice.
    rewrite (parse_response_inner_length data pkt_len json_len offset o2 o3
               Hlen Hfits Hid Hjson).
    fold slice. split.
    + intros text doc -> Hloads. cbn [call bind]. rewrite Hloads. reflexivity.
    + intros e He [->|(text & -> & Hloads)]; cbn [call bind].
      * rewrite He. reflexivity.
      * rewrite Hloads. cbn [call]. rewrite He. reflexivity.
Qed.

(** A server that answers with a packet of the wrong id, then closes. *)
Lemma C8_ping_never_raises_witness :
  exists r w',
    ping (H := example_runtime []) 40 "127.0.0.1" 25565 3
      (fresh_world [Deliver [x02; x01]; Deliver [x00]] [] [])
    = (Ok r, w').
Proof.
  destruct (C8_ping_never_raises (H := example_runtime []) 40 "127.0.0.1" 25565 3
              (fresh_world [Deliver [x02; x01]; Deliver [x00]] [] []))
    as (_ & Hreturns & _).
  - reflexivity.
  - discriminate.
  - lia.
  - unfold Socket.timeout_max. lia.
  - destruct Hreturns as (r & w' & Hrun & _); [vm_compute; lia|].
    exists r, w'. exact Hrun.
Defined.

(** C8, the claim as stated fails on an undercounting outer length.  The
    server sends the five bytes [03 00 02 7b 7d]: the outer length 3
    undercounts the four bytes that follow it (packet id, inner length 2,
    the text of two characters).  The parser does not answer [None]: it
    returns the document, and [ping] returns it without accumulating
    further, the rest of the stream unread. *)
Lemma C8_undercounted_length_counterexample :
  _parse_response (H := example_runtime [("{}"%string, JDict [])])
    [x03; x00; x02; x7b; x7d] = Ok (JDict []) /\
  exists w',
    ping (H := example_runtime [("{}"%string, JDict [])]) 40 "127.0.0.1" 25565 3
      (fresh_world [Deliver [x03; x00; x02; x7b; x7d]; Deliver [x00]] [] [])
    = (Ok (JDict []), w') /\
    net_recv (w_sock w') = [Deliver [x00]].
Proof.
  split; [reflexivity|]. eexists. split; reflexivity.
Qed.

(** The arguments that [settimeout] and [connect] refuse are not
    [OSError]s, and [ping] lets them through: a host name with a NUL
    character, a negative timeout, a port outside 0..65535. *)
Lemma ping_refused_arguments_raise `{PyRuntime} :
  fst (ping 40 (String "a" (String "000" "b")) 25565 3 (fresh_world [] [] []))
  = Raise TypeError /\
  fst (ping 40 "127.0.0.1" 25565 (-1) (fresh_world [] [] []))
  = Raise (ValueError "Timeout value out of range") /\
  fst (ping 40 "127.0.0.1" 70000 3 (fresh_world [] [] []))
  = Raise OverflowError.
Proof. split; [|split]; reflexivity. Qed.

(** ** The status operation *)

Lemma comprehension_names (sample names : list json) :
  List.map name_of sample = List.map Some names ->
  comprehension (fun p => py_get p "name" (JStr "")) sample = Ok names.
Proof.
  revert names. induction sample as [|p sample IH]; intros [|name names] Hnames;
    try discriminate; [reflexivity|].
  cbn [List.map] in Hnames. injection Hnames as Hname Hrest.
  cbn [comprehension]. destruct p as [| | | | | |entries]; try discriminate.
  cbn [name_of] in Hname. cbn [py_get]. rewrite Hname. cbn [bind].
  rewrite (IH names Hrest). reflexivity.
Qed.

(** C9. When the ping returns a status document that has the fields
    [players] (an object with [online], [max] and a [sample] list of
    objects with a [name]), [version] (an object with [name] and
    [protocol]) and [description], [status] reports the server as running
    and carries [players.online], [players.max], the name of each sample
    entry, [version.name] and [version.protocol] into its result; the motd
    is the description itself when that is a bare string and its [text]
    field when it is an object. *)
Theorem C9_status_extracts `{PyRuntime} (fuel : nat) (cfg : config) (w w' : world)
    (doc : list (string * json)) (players version_ : list (string * json))
    (online max vname vproto desc motd_ : json) (sample names : list json) :
  ping fuel
       (match cfg_host cfg with Some h => h | None => "127.0.0.1"%string end)
       (match cfg_port cfg with Some p => p | None => 25565 end) 3 w
  = (Ok (JDict doc), w') ->
  lookup "players" doc = Some (JDict players) ->
  lookup "online" players = Some online ->
  lookup "max" players = Some max ->
  lookup "sample" players = Some (JList sample) ->
  List.map name_of sample = List.map Some names ->
  lookup "version" doc = Some (JDict version_) ->
  lookup "name" version_ = Some vname ->
  lookup "protocol" version_ = Some vproto ->
  lookup "description" doc = Some desc ->
  ((exists s, desc = JStr s) /\ motd_ = desc) \/
  (exists d, desc = JDict d /\ lookup "text" d = Some motd_) ->
  status fuel cfg w
  = (Ok (Running {| pid := cfg_pid cfg;
                    players_online := online;
                    players_max := max;
                    player_list := names;
                    version := vname;
                    protocol := vproto;
                    motd := motd_;
                    message := i18n_t "messages.server_online" |}), w').
Proof.
  intros Hping Hplayers Honline Hmax Hsample Hnames Hversion Hvname Hvproto Hdesc Hmotd.
  unfold status, try_except. unfold bindM at 1. rewrite Hping.
  assert (Htruthy : truthy (JDict doc) = true).
  { destruct doc; [discriminate|reflexivity]. }
  rewrite Htruthy. unfold lift. cbn [py_get].
  rewrite Hplayers, Hversion, Hdesc. cbn [bind].
  assert (Hd : match desc with
               | JDict _ => py_get desc "text" (JStr "")
               | _ => Ok desc
               end = Ok motd_).
  { destruct Hmotd as [[[s ->] ->]|(d & -> & Htext)]; [reflexivity|].
    cbn [py_get]. rewrite Htext. reflexivity. }
  rewrite Hd. cbn [bind py_get].
  rewrite Honline, Hmax, Hsample. cbn [bind iter_items].
  rewrite (comprehension_names sample names Hnames). cbn [bind].
  rewrite Hvname, Hvproto. reflexivity.
Qed.

(** The end-to-end scenario: a server that answers the status request
    with the document of the scenario, in two chunks. *)
Lemma C9_status_extracts_witness :
  exists w',
    status (H := example_runtime [(example_status_text, example_status_doc)]) 200
      {| cfg_pid := Some 4242; cfg_port := None; cfg_host := None |}
      (fresh_world [Deliver (firstn 50 (status_response example_status_text));
                    Deliver (skipn 50 (status_response example_status_text))] [] [])
    = (Ok (Running {| pid := Some 4242;
                      players_online := JInt 3;
                      players_max := JInt 20;
                      player_list := [JStr "Steve"];
                      version := JStr "1.21";
                      protocol := JInt 767;
                      motd := JStr "A Server";
                      message := "messages.server_online" |}), w').
Proof.
  eexists.
  apply (C9_status_extracts (H := example_runtime [(example_status_text, example_status_doc)])
           200 {| cfg_pid := Some 4242; cfg_port := None; cfg_host := None |}
           (fresh_world [Deliver (firstn 50 (status_response example_status_text));
                         Deliver (skipn 50 (status_response example_status_text))] [] [])
           _ example_status_entries
           [("online"%string, JInt 3); ("max"%string, JInt 20);
            ("sample"%string, JList [JDict [("name"%string, JStr "Steve")]])]
           [("name"%string, JStr "1.21"); ("protocol"%string, JInt 767)]
           (JInt 3) (JInt 20) (JStr "1.21") (JInt 767) (JStr "A Server") (JStr "A Server")
           [JDict [("name"%string, JStr "Steve")]] [JStr "Steve"]).
  - vm_compute. reflexivity.
  - reflexivity.
  - reflexivity.
  - reflexivity.
  - reflexivity.
  - reflexivity.
  - reflexivity.
  - reflexivity.
  - reflexivity.
  - reflexivity.
  - left. split; [eexists; reflexivity|reflexivity].
Defined.

(** ** The daemon-delegating client *)

Import DaemonRconClient.

(** What the client's methods do.  [connect()] touches neither the network
    nor anything but the connected flag and returns [True]; [disconnect()]
    only clears the flag; [command()] returns what the daemon bridge
    returns, turns a [ConnectionError] of the bridge (an unreachable
    daemon, an HTTP error status, an error reported in the reply) into
    [None], and lets every exception of another class through. *)
Lemma daemon_client_outcomes `{PyRuntime} (self : t) (cmd : string) (w : world) :
  let bridge := daemon_rcon_command (instance_id self) cmd
                                    (Some (port self)) (Some (password self)) in
  connect self w = (Ok (true, set_connected self true), w) /\
  disconnect self w = (Ok (tt, set_connected self false), w) /\
  (forall r w', bridge w = (Ok r, w') -> command self cmd w = (Ok (r, self), w')) /\
  (forall e w', bridge w = (Raise e, w') -> is_ConnectionError e = true ->
                command self cmd w = (Ok (JNull, self), w')) /\
  (forall e w', bridge w = (Raise e, w') -> is_ConnectionError e = false ->
                command self cmd w = (Raise e, w')) /\
  (forall e, hd (Failure URLError) (http_replies (w_http w)) = Failure e ->
             is_URLError e = true ->
             exists w', command self cmd w = (Ok (JNull, self), w')).
Proof.
  intros bridge. split; [reflexivity|]. split; [reflexivity|].
  assert (Hok : forall r w', bridge w = (Ok r, w') ->
                             command self cmd w = (Ok (r, self), w')).
  { intros r w' Hbridge. unfold command, try_except, bindM. fold bridge.
    rewrite Hbridge. reflexivity. }
  assert (Hcaught : forall e w', bridge w = (Raise e, w') -> is_ConnectionError e = true ->
                                 command self cmd w = (Ok (JNull, self), w')).
  { intros e w' Hbridge He. unfold command, try_except, bindM. fold bridge.
    rewrite Hbridge, He. reflexivity. }
  assert (Hpropagated : forall e w', bridge w = (Raise e, w') ->
                                     is_ConnectionError e = false ->
                                     command self cmd w = (Raise e, w')).
  { intros e w' Hbridge He. unfold command, try_except, bindM. fold bridge.
    rewrite Hbridge, He. reflexivity. }
  repeat split; try assumption.
  intros e Hreply He.
  assert (Hbridge : exists w', bridge w = (Raise (ConnectionError "Daemon unreachable"), w')).
  { unfold bridge, daemon_rcon_command, try_except, bindM, urlopen.
    destruct (http_replies (w_http w)) as [|[body|e'] replies]; cbn [hd] in Hreply.
    - eexists. reflexivity.
    - discriminate.
    - injection Hreply as ->. rewrite He. eexists. reflexivity. }
  destruct Hbridge as [w' Hbridge]. exists w'.
  apply (Hcaught _ _ Hbridge). reflexivity.
Qed.

(** A daemon that is not running: [command()] returns [None]. *)
Lemma daemon_client_unreachable :
  exists w',
    command (H := example_runtime []) (init "srv" "127.0.0.1" 25575 "pw") "list"
            (fresh_world [] [] [])
    = (Ok (JNull, init "srv" "127.0.0.1" 25575 "pw"), w').
Proof. eexists. reflexivity. Qed.

(** C10 (the code at a failing input). The daemon answers the request
    with a body whose text [json.loads] rejects.  The exception of
    [json.loads] (a [JSONDecodeError], which is neither a [URLError] nor a
    [ConnectionError]) is not converted by [daemon_rcon_command], whose
    docstring promises [ConnectionError] only, and it passes the
    [except ConnectionError] clause of [command()], whose docstring
    promises [None] on failure: [command()] raises. *)
Theorem C10_command_raises_on_bad_reply `{PyRuntime} (self : t) (cmd : string)
    (w : world) (body : bytes) (replies : list http_reply) (text : string) (e : exn) :
  http_replies (w_http w) = Reply body :: replies ->
  utf8_decode body = Returns text ->
  json_loads text = Raises e ->
  is_URLError e = false ->
  is_ConnectionError e = false ->
  exists w',
    daemon_rcon_command (instance_id self) cmd (Some (port self)) (Some (password self)) w
    = (Raise e, w') /\
    command self cmd w = (Raise e, w').
Proof.
  intros Hreply Hdecode Hloads Hurl Hconn.
  assert (Hbridge : exists w',
             daemon_rcon_command (instance_id self) cmd
                                 (Some (port self)) (Some (password self)) w
             = (Raise e, w')).
  { unfold daemon_rcon_command, try_except, bindM, urlopen, lift.
    rewrite Hreply, Hdecode. cbn [call bind]. rewrite Hloads. cbn [call bind].
    rewrite Hurl. eexists. reflexivity. }
  destruct Hbridge as [w' Hbridge]. exists w'. split; [exact Hbridge|].
  unfold command, try_except, bindM. rewrite Hbridge, Hconn. reflexivity.
Qed.

(** The daemon answers 200 with the body [oops]. *)
Lemma C10_command_raises_on_bad_reply_witness :
  exists w',
    daemon_rcon_command (H := example_runtime []) "srv" "list" (Some 25575) (Some "pw"%string)
      (fresh_world [] [Reply (encode_utf8 "oops")] [])
    = (Raise JSONDecodeError, w') /\
    command (H := example_runtime []) (init "srv" "127.0.0.1" 25575 "pw") "list"
            (fresh_world [] [Reply (encode_utf8 "oops")] [])
    = (Raise JSONDecodeError, w').
Proof.
  apply (C10_command_raises_on_bad_reply (H := example_runtime [])
           (init "srv" "127.0.0.1" 25575 "pw") "list"
           (fresh_world [] [Reply (encode_utf8 "oops")] [])
           (encode_utf8 "oops") [] "oops" JSONDecodeError).
  - reflexivity.
  - reflexivity.
  - reflexivity.
  - reflexivity.
  - reflexivity.
Defined.

(** * Further properties of the code *)

(** ** More on the varint codec *)

(** The encoder is a function of its input: two budgets that both suffice
    give the same bytes. *)
Lemma encode_varint_budget (fuel fuel' : nat) (v : Z) (bs : bytes) :
  _encode_varint fuel v = Ok bs ->
  (fuel <= fuel')%nat ->
  _encode_varint fuel' v = Ok bs.
Proof.
  unfold _encode_varint. intros Henc Hle.
  exact (encode_loop_more_fuel fuel fuel' _ _ _ Henc Hle).
Qed.

(** Decoding an encoded value where it lies in a larger buffer. *)
Lemma read_varint_encoded (fuel : nat) (v : Z) (bs pre post : bytes) :
  int32_min <= v <= int32_max ->
  _encode_varint fuel v = Ok bs ->
  _read_varint (pre ++ bs ++ post) (length pre)
  = Ok (v, (length pre + length bs)%nat).
Proof.
  intros Hv Henc.
  pose proof (to_unsigned_range v Hv) as Hu.
  apply encode_varint_budget with (fuel' := S (Nat.max fuel 4)) in Henc; [|lia].
  unfold _encode_varint in Henc.
  set (u := if v <? 0 then v + Z.shiftl 1 32 else v) in *.
  destruct (encode_loop_read_loop (Nat.max fuel 4) u []) as (bs' & Henc' & _ & Hdec).
  { split; [lia|]. apply Z.lt_le_trans with (2 ^ (7 * Z.of_nat 5)).
    - change (2 ^ (7 * Z.of_nat 5)) with (2 ^ 32 * 8). lia.
    - apply Z.pow_le_mono_r; lia. }
  rewrite Henc' in Henc. cbn [app] in Henc. injection Henc as ->.
  unfold _read_varint. rewrite skipn_app_exact by reflexivity.
  rewrite (Hdec post (length pre) 0 0 ltac:(lia)). cbn [bind].
  rewrite Z.lor_0_l, Z.shiftl_0_r, sign_bit by exact Hu.
  f_equal. f_equal.
  change (Z.shiftl 1 32) with (2 ^ 32) in *.
  unfold int32_min, int32_max in Hv.
  destruct (Z.ltb_spec u (2 ^ 31)) as [Hpos|Hneg];
    cbn [Z.eqb Z.pow Z.pow_pos Pos.iter Z.mul Pos.mul negb];
    subst u; destruct (Z.ltb_spec v 0); lia.
Qed.

(** X1. A varint that [_encode_varint] wrote for a signed 32-bit value is
    read back by [_read_varint] wherever it lies in a buffer: started at
    the offset of its first byte, whatever precedes and follows it, the
    decoder returns the value and the offset of the byte after it. *)
Theorem X1_read_varint_in_buffer (fuel : nat) (v : Z) (bs pre post : bytes) :
  int32_min <= v <= int32_max ->
  _encode_varint fuel v = Ok bs ->
  _read_varint (pre ++ bs ++ post) (length pre)
  = Ok (v, (length pre + length bs)%nat).
Proof. apply read_varint_encoded. Qed.

(** The value 300 between two other bytes. *)
Lemma X1_read_varint_in_buffer_witness :
  _read_varint ([x07] ++ [xac; x02] ++ [xff]) 1 = Ok (300, 3%nat).
Proof.
  apply (X1_read_varint_in_buffer 5 300 [xac; x02] [x07] [xff]).
  - unfold int32_min, int32_max. lia.
  - reflexivity.
Defined.

(** Below -2^32 the value stays negative after the wrap-around, and the
    right shifts of a negative number never reach 0. *)
Lemma encode_loop_negative (fuel : nat) :
  forall (value : Z) (acc : bytes), value < 0 -> encode_loop fuel value acc = OutOfFuel.
Proof.
  induction fuel as [|fuel IH]; intros value acc Hneg; [reflexivity|].
  cbn [encode_loop].
  assert (Hshift : Z.shiftr value 7 < 0) by (apply Z.shiftr_neg; exact Hneg).
  destruct (Z.eqb_spec (Z.shiftr value 7) 0) as [Hz|_]; [lia|]. cbn [negb].
  assert (Hlow : 0 <= Z.land value 0x7F < 128).
  { rewrite land_127. apply Z.mod_pos_bound. lia. }
  destruct (continuation_byte _ Hlow) as (Hrange & _).
  rewrite pack_B_ok by lia. cbn [bind]. apply IH. exact Hshift.
Qed.

(** X2. [_encode_varint] does not return on a value below -2^32: the
    loop exhausts every budget, that is, the source loop runs forever. *)
Theorem X2_encode_varint_diverges (fuel : nat) (value : Z) :
  value < - 2 ^ 32 ->
  _encode_varint fuel value = OutOfFuel.
Proof.
  intros Hv. unfold _encode_varint.
  destruct (Z.ltb_spec value 0) as [_|]; [|lia].
  apply encode_loop_negative. change (Z.shiftl 1 32) with (2 ^ 32). lia.
Qed.

Lemma X2_encode_varint_diverges_witness :
  _encode_varint 1000 (-4294967297) = OutOfFuel.
Proof. apply (X2_encode_varint_diverges 1000 (-4294967297)). lia. Defined.

(** ** Complete and incomplete status packets *)

Lemma varint_bytes_ok (n : Z) :
  0 <= n <= int32_max ->
  _encode_varint 5 n = Ok (varint_bytes n) /\ (length (varint_bytes n) <= 5)%nat.
Proof.
  unfold int32_max. intros Hn. unfold varint_bytes, _encode_varint.
  destruct (Z.ltb_spec n 0); [lia|].
  destruct (encode_loop_read_loop 4 n []) as (bs & -> & Hlen & _).
  - change (2 ^ (7 * Z.of_nat 5)) with (2 ^ 32 * 8). lia.
  - split; [reflexivity|exact Hlen].
Qed.

(** Once the decoding loop has returned, what follows in the buffer does
    not matter. *)
Lemma read_loop_app (rest : bytes) :
  forall more offset result shift x,
    read_loop rest offset result shift = Ok x ->
    read_loop (rest ++ more) offset result shift = Ok x.
Proof.
  induction rest as [|b rest IH]; intros more offset result shift x; cbn [app read_loop].
  - discriminate.
  - destruct (Z.land (byte_val b) 0x80 =? 0); [trivial|]. apply IH.
Qed.

Lemma read_loop_within (rest : bytes) :
  forall offset result shift v offset',
    read_loop rest offset result shift = Ok (v, offset') ->
    (offset' <= offset + length rest)%nat.
Proof.
  induction rest as [|b rest IH]; intros offset result shift v offset'; cbn [read_loop].
  - discriminate.
  - destruct (Z.land (byte_val b) 0x80 =? 0).
    + intros [= _ <-]. simpl. lia.
    + intros Hrec. apply IH in Hrec. simpl. lia.
Qed.

(** A varint cut short is rejected. *)
Lemma read_varint_cut (n : Z) (k : nat) :
  0 <= n <= int32_max ->
  (k < length (varint_bytes n))%nat ->
  _read_varint (firstn k (varint_bytes n)) 0 = Raise (ValueError "VarInt too short").
Proof.
  intros Hn Hk.
  destruct (varint_bytes_ok n Hn) as [Henc _].
  pose proof (read_varint_encoded 5 n (varint_bytes n) [] []
                ltac:(unfold int32_min, int32_max in *; lia) Henc) as Hwhole.
  cbn [app length Nat.add] in Hwhole. rewrite app_nil_r in Hwhole.
  destruct (read_varint_cases (firstn k (varint_bytes n)) 0) as [(v & o & Hcut)|Hcut];
    [exfalso|exact Hcut].
  unfold _read_varint in Hcut, Hwhole. cbn [skipn] in Hcut, Hwhole.
  destruct (read_loop (firstn k (varint_bytes n)) 0 0 0) as [[r o']| |] eqn:Eloop;
    cbn [bind] in Hcut; try discriminate.
  pose proof (read_loop_within _ _ _ _ _ _ Eloop) as Hwithin.
  apply read_loop_app with (more := skipn k (varint_bytes n)) in Eloop.
  rewrite firstn_skipn in Eloop. rewrite Eloop in Hwhole. cbn [bind] in Hwhole.
  injection Hwhole as _ Ho. rewrite length_firstn in Hwithin. lia.
Qed.

(** What the parser does with a whole status packet, followed or not by
    other bytes: it hands the text to [json.loads]. *)
Lemma parse_status_response `{PyRuntime} (text : string) (extra : bytes) :
  len (encode_utf8 text) + 6 <= int32_max ->
  _parse_response (status_response text ++ extra)
  = match (t <- call (utf8_decode (encode_utf8 text)) ;; call (json_loads t)) with
    | Raise e => if is_ValueError e then Ok JNull else Raise e
    | r => r
    end.
Proof.
  intros Hsize. unfold status_response. cbv zeta.
  set (payload := encode_utf8 text) in *.
  assert (Hpayload : 0 <= len payload) by (unfold len; lia).
  destruct (varint_bytes_ok (len payload)) as [HJ HJlen];
    [unfold int32_max in *; lia|].
  set (J := varint_bytes (len payload)) in *. clearbody J.
  change (varint_bytes 0) with [x00].
  set (body := [x00] ++ J ++ payload).
  assert (Hbody : len body = 1 + len J + len payload).
  { unfold body, len. rewrite !length_app. cbn [length]. lia. }
  destruct (varint_bytes_ok (len body)) as [HL _].
  { unfold len in *. unfold int32_max in *. lia. }
  set (L := varint_bytes (len body)) in *. clearbody L.
  set (data := (L ++ body) ++ extra).
  assert (Hint : forall n, 0 <= n <= int32_max -> int32_min <= n <= int32_max)
    by (unfold int32_min, int32_max; lia).
  (* the three varints *)
  assert (H1 : _read_varint data 0 = Ok (len body, length L)).
  { pose proof (read_varint_encoded 5 (len body) L [] (body ++ extra)) as Hr.
    cbn [app length Nat.add] in Hr. unfold data. rewrite <- app_assoc.
    apply Hr; [apply Hint; unfold len in *; unfold int32_max in *; lia|exact HL]. }
  assert (H2 : _read_varint data (length L) = Ok (0, (length L + 1)%nat)).
  { pose proof (read_varint_encoded 5 0 [x00] L ((J ++ payload) ++ extra)) as Hr.
    unfold data, body. rewrite <- !app_assoc in *.
    apply Hr; [unfold int32_min, int32_max; lia|reflexivity]. }
  assert (H3 : _read_varint data (length L + 1)
               = Ok (len payload, (length L + 1 + length J)%nat)).
  { pose proof (read_varint_encoded 5 (len payload) J (L ++ [x00]) (payload ++ extra)) as Hr.
    rewrite length_app in Hr. cbn [length] in Hr.
    unfold data, body. rewrite <- !app_assoc in *.
    apply Hr; [apply Hint; unfold int32_max in *; lia|exact HJ]. }
  unfold _parse_response. rewrite H1. cbn [bind].
  destruct (Z.ltb_spec (len data) (Z.of_nat (length L) + len body)) as [Hshort|_].
  { unfold data in Hshort. rewrite !len_app in Hshort. unfold len in *. lia. }
  rewrite H2. cbn [bind Z.eqb negb]. rewrite H3. cbn [bind].
  assert (Hslice : py_slice data (length L + 1 + length J)
                     (Z.of_nat (length L + 1 + length J) + len payload) = payload).
  { unfold py_slice.
    destruct (Z.ltb_spec (Z.of_nat (length L + 1 + length J) + len payload) 0);
      [unfold len in *; lia|].
    replace (Z.to_nat (Z.of_nat (length L + 1 + length J) + len payload)
             - (length L + 1 + length J))%nat with (length payload)
      by (unfold len; lia).
    replace data with ((L ++ [x00] ++ J) ++ payload ++ extra)
      by (unfold data, body; rewrite <- !app_assoc; reflexivity).
    rewrite skipn_app_exact by (rewrite !length_app; cbn [length]; lia).
    apply firstn_app_exact. reflexivity. }
  rewrite Hslice. reflexivity.
Qed.

(** X3. A whole status packet (the packet length, the packet id 0, the
    length of the text and the text, with the varints the encoder writes)
    parses to what [json.loads] makes of its text, whatever bytes follow
    the packet in the buffer; when [json.loads] rejects the text the
    parser answers [None]. *)
Theorem X3_parse_complete_packet `{PyRuntime} (text t : string) (extra : bytes) :
  len (encode_utf8 text) + 6 <= int32_max ->
  utf8_decode (encode_utf8 text) = Returns t ->
  (forall doc, json_loads t = Returns doc ->
               _parse_response (status_response text ++ extra) = Ok doc) /\
  (json_loads t = Raises JSONDecodeError ->
   _parse_response (status_response text ++ extra) = Ok JNull).
Proof.
  intros Hsize Hdecode.
  rewrite (parse_status_response text extra Hsize), Hdecode. cbn [call bind].
  split.
  - intros doc ->. reflexivity.
  - intros ->. reflexivity.
Qed.

(** The packet of the scenario, followed by a stray byte. *)
Lemma X3_parse_complete_packet_witness :
  _parse_response (H := example_runtime [(example_status_text, example_status_doc)])
    (status_response example_status_text ++ [xff]) = Ok example_status_doc.
Proof.
  destruct (X3_parse_complete_packet
              (H := example_runtime [(example_status_text, example_status_doc)])
              example_status_text example_status_text [xff]) as [Hdoc _].
  - vm_compute. discriminate.
  - reflexivity.
  - apply Hdoc. reflexivity.
Defined.

(** Every strict prefix of a status packet is an incomplete buffer. *)
Lemma parse_status_prefix `{PyRuntime} (text : string) (k : nat) :
  len (encode_utf8 text) + 6 <= int32_max ->
  (k < length (status_response text))%nat ->
  _parse_response (firstn k (status_response text)) = Ok JNull.
Proof.
  intros Hsize Hk. unfold status_response in *. cbv zeta in *.
  set (payload := encode_utf8 text) in *.
  assert (Hpayload : 0 <= len payload) by (unfold len; lia).
  destruct (varint_bytes_ok (len payload)) as [_ HJlen];
    [unfold int32_max in *; lia|].
  set (body := varint_bytes 0 ++ varint_bytes (len payload) ++ payload) in *.
  assert (Hbody : 0 <= len body <= int32_max).
  { unfold body, len. rewrite !length_app. change (length (varint_bytes 0)) with 1%nat.
    unfold len in *. unfold int32_max in *. lia. }
  destruct (varint_bytes_ok (len body) Hbody) as [HL _].
  set (L := varint_bytes (len body)) in *.
  rewrite length_app in Hk.
  destruct (Nat.lt_ge_cases k (length L)) as [Hin|Hpast].
  - (* cut inside the packet length *)
    rewrite firstn_app. replace (k - length L)%nat with 0%nat by lia.
    cbn [firstn]. rewrite app_nil_r.
    unfold _parse_response. unfold L. rewrite (read_varint_cut _ k Hbody Hin).
    reflexivity.
  - (* cut inside the body *)
    rewrite firstn_app, firstn_all2 by lia.
    pose proof (read_varint_encoded 5 (len body) L [] (firstn (k - length L) body)) as Hr.
    cbn [app length Nat.add] in Hr.
    unfold _parse_response. rewrite Hr; [|unfold int32_min, int32_max in *; lia|exact HL].
    cbn [bind].
    destruct (Z.ltb_spec (len (L ++ firstn (k - length L) body))
                         (Z.of_nat (length L) + len body)) as [_|Hlong]; [reflexivity|].
    rewrite len_app in Hlong. unfold len in Hlong. rewrite length_firstn in Hlong. lia.
Qed.

(** X4. On a buffer that holds only the beginning of a status packet, at
    whatever byte it is cut, the parser answers [None]: it does not hand a
    truncated text to [json.loads]. *)
Theorem X4_parse_incomplete_packet `{PyRuntime} (text : string) (k : nat) :
  len (encode_utf8 text) + 6 <= int32_max ->
  (k < length (status_response text))%nat ->
  _parse_response (firstn k (status_response text)) = Ok JNull.
Proof. apply parse_status_prefix. Qed.

(** Ten bytes of the scenario's packet. *)
Lemma X4_parse_incomplete_packet_witness :
  _parse_response (H := example_runtime [(example_status_text, example_status_doc)])
    (firstn 10 (status_response example_status_text)) = Ok JNull.
Proof.
  apply (X4_parse_incomplete_packet
           (H := example_runtime [(example_status_text, example_status_doc)])
           example_status_text 10).
  - vm_compute. discriminate.
  - vm_compute. lia.
Defined.

(** ** The ping, end to end *)

Lemma sendall_ok (data : bytes) (w : world) :
  sock_closed (w_sock w) = false ->
  hd None (net_send (w_sock w)) = None ->
  Socket.sendall data w = (Ok tt, with_sock w (Socket.log_send (w_sock w) data)).
Proof.
  intros Hopen Hsend. unfold Socket.sendall. rewrite Hopen.
  destruct (net_send (w_sock w)) as [|[e|] sends]; try reflexivity. discriminate.
Qed.

(** What [ping] does before it waits for the answer, on a network that
    lets it connect and send: it opens the socket and sends the handshake
    and the status request. *)
Lemma ping_prelude `{PyRuntime} (fuel : nat) (host : string) (port timeout : Z)
    (w : world) :
  Socket.has_nul host = false ->
  0 <= port <= 65535 ->
  0 <= timeout <= Socket.timeout_max ->
  (ping_budget host w <= fuel)%nat ->
  len (encode_utf8 host) <= int32_max - 20 ->
  net_create (w_sock w) = None ->
  net_connect (w_sock w) = None ->
  hd None (net_send (w_sock w)) = None ->
  hd None (tl (net_send (w_sock w))) = None ->
  sock_closed (w_sock w) = false ->
  exists handshake_len host_len,
    let handshake_data :=
      [x00] ++ [xff; xff; xff; xff; x0f] ++ host_len ++ encode_utf8 host
            ++ [byte_of_Z (port / 256); byte_of_Z port] ++ [x01] in
    _encode_varint fuel (len (encode_utf8 host)) = Ok host_len /\
    _encode_varint fuel (len handshake_data) = Ok handshake_len /\
    0 <= len handshake_data <= int32_max /\
    ping fuel host port timeout w
    = try_except (recv_loop fuel [])
        (fun e => if is_OSError e then ret JNull else raise e)
        (with_sock w
           (Socket.log_send
              (Socket.log_send (Socket.set_created (w_sock w))
                               (handshake_len ++ handshake_data))
              ([x01] ++ [x00]))).
Proof.
  intros Hnul Hport Htimeout Hfuel Hhost Hcreate Hconnect Hsend1 Hsend2 Hopen.
  unfold ping_budget in Hfuel. set (h := length (encode_utf8 host)) in *.
  destruct fuel as [|[|[|[|[|fuel]]]]]; try lia.
  set (budget := S (S (S (S (S fuel))))) in *.
  destruct (varint_bytes_ok (len (encode_utf8 host))) as [Hhost_len Hlen_host_len].
  { unfold len in *. unfold int32_max in *. lia. }
  apply encode_varint_budget with (fuel' := budget) in Hhost_len; [|lia].
  set (host_len := varint_bytes (len (encode_utf8 host))) in *. clearbody host_len.
  set (handshake_data :=
         [x00] ++ [xff; xff; xff; xff; x0f] ++ host_len ++ encode_utf8 host
               ++ [byte_of_Z (port / 256); byte_of_Z port] ++ [x01]).
  assert (Hhs : 0 <= len handshake_data <= Z.of_nat h + 14).
  { unfold handshake_data, len. rewrite !length_app. fold h.
    cbn [length]. lia. }
  destruct (varint_bytes_ok (len handshake_data)) as [Hhandshake_len _].
  { unfold len in Hhost. fold h in Hhost. unfold int32_max in *. lia. }
  apply encode_varint_budget with (fuel' := budget) in Hhandshake_len; [|lia].
  set (handshake_len := varint_bytes (len handshake_data)) in *. clearbody handshake_len.
  exists handshake_len, host_len. fold handshake_data. cbv zeta.
  split; [exact Hhost_len|]. split; [exact Hhandshake_len|].
  split; [unfold len in Hhost; fold h in Hhost; unfold int32_max in *; lia|].
  unfold ping, try_except.
  unfold bindM at 1, Socket.socket_. rewrite Hcreate.
  set (w1 := with_sock w (Socket.set_created (w_sock w))).
  rewrite (bindM_ok _ _ _ _ _ (settimeout_ok timeout w1 Htimeout)).
  rewrite (bindM_ok _ _ _ _ _ (connect_ok host port w1 Hnul Hport Hconnect)).
  change (_encode_varint budget (-1)) with (Ok [xff; xff; xff; xff; x0f]).
  change (_encode_varint budget 1) with (Ok [x01]).
  change (_encode_varint budget 0) with (Ok [x00]).
  rewrite Hhost_len, (pack_H_ok port Hport).
  unfold lift. cbv zeta. do 5 (unfold bindM at 1).
  fold handshake_data. rewrite Hhandshake_len.
  do 2 (unfold bindM at 1).
  rewrite (sendall_ok (handshake_len ++ handshake_data) w1 Hopen Hsend1).
  do 3 (unfold bindM at 1).
  rewrite (sendall_ok ([x01] ++ [x00])
             (with_sock w1 (Socket.log_send (w_sock w1) (handshake_len ++ handshake_data)))
             Hopen Hsend2).
  reflexivity.
Qed.

(** A [recv] on an open socket that has bytes ready returns some of them,
    and the rest stays ready. *)
Lemma recv_ready (w : world) :
  sock_closed (w_sock w) = false ->
  available (net_recv (w_sock w)) <> [] ->
  exists taken evs1,
    Socket.recv 4096 w = (Ok taken, left_with w evs1) /\
    taken <> [] /\
    available (net_recv (w_sock w)) = taken ++ available evs1 /\
    (script_size evs1 < script_size (net_recv (w_sock w)))%nat.
Proof.
  intros Hopen Hready. unfold Socket.recv. rewrite Hopen.
  destruct (net_recv (w_sock w)) as [|[[|b chunk]|e] evs] eqn:Escript;
    cbn [available] in Hready; try contradiction.
  destruct (Nat.leb_spec (length (b :: chunk)) (Z.to_nat 4096)) as [Hwhole|Hpart].
  - exists (b :: chunk), evs. split; [reflexivity|]. split; [discriminate|].
    split; [reflexivity|]. cbn [script_size]. lia.
  - destruct (skipn (Z.to_nat 4096) (b :: chunk)) as [|b' left] eqn:Eleft.
    { apply (f_equal (@length byte)) in Eleft. rewrite length_skipn in Eleft.
      cbn [length] in *. lia. }
    exists (firstn (Z.to_nat 4096) (b :: chunk)), (Deliver (b' :: left) :: evs).
    split; [reflexivity|]. split; [|split].
    + intros Hnil. apply (f_equal (@length byte)) in Hnil.
      rewrite length_firstn in Hnil. cbn [length] in *. lia.
    + cbn [available]. rewrite <- Eleft, app_assoc, firstn_skipn. reflexivity.
    + cbn [script_size]. rewrite <- Eleft, length_skipn. cbn [length] in *. lia.
Qed.

Lemma app_eq_prefix {A : Type} (a b c d : list A) :
  a ++ b = c ++ d ->
  (length a <= length c)%nat ->
  a = firstn (length a) c.
Proof.
  intros Heq Hlen. apply (f_equal (firstn (length a))) in Heq.
  rewrite firstn_app_exact in Heq by reflexivity.
  rewrite firstn_app in Heq. replace (length a - length c)%nat with 0%nat in Heq by lia.
  cbn [firstn] in Heq. rewrite app_nil_r in Heq. exact Heq.
Qed.

Lemma app_eq_extends {A : Type} (a b c d : list A) :
  a ++ b = c ++ d ->
  (length c <= length a)%nat ->
  a = c ++ skipn (length c) a.
Proof.
  intros Heq Hlen.
  assert (Hc : c = firstn (length c) a).
  { symmetry in Heq. exact (app_eq_prefix c d a b Heq Hlen). }
  rewrite Hc at 1. symmetry. apply firstn_skipn.
Qed.

(** The accumulation loop on a socket that has the rest of a status
    packet ready: it returns the document and closes the socket. *)
Lemma recv_loop_packet `{PyRuntime} (text t : string) (doc : json) (tail : bytes)
    (fuel : nat) :
  len (encode_utf8 text) + 6 <= int32_max ->
  utf8_decode (encode_utf8 text) = Returns t ->
  json_loads t = Returns doc ->
  doc <> JNull ->
  forall (data : bytes) (w : world),
    sock_closed (w_sock w) = false ->
    (script_size (net_recv (w_sock w)) < fuel)%nat ->
    data ++ available (net_recv (w_sock w)) = status_response text ++ tail ->
    (length data < length (status_response text))%nat ->
    exists evs',
      recv_loop fuel data w
      = (Ok doc, with_sock w (Socket.set_closed (Socket.set_recv (w_sock w) evs'))).
Proof.
  intros Hsize Hdecode Hloads Hdoc.
  induction fuel as [|fuel IH]; intros data w Hopen Hfuel Hstream Hshort; [lia|].
  assert (Hready : available (net_recv (w_sock w)) <> []).
  { intros Hnil. rewrite Hnil, app_nil_r in Hstream.
    apply (f_equal (@length byte)) in Hstream. rewrite length_app in Hstream. lia. }
  destruct (recv_ready w Hopen Hready) as (taken & evs1 & Hrecv & Htaken & Hsplit & Hless).
  cbn [recv_loop]. unfold bindM at 1. rewrite Hrecv.
  destruct taken as [|b taken]; [contradiction|].
  set (data' := data ++ b :: taken).
  assert (Hstream' : data' ++ available evs1 = status_response text ++ tail).
  { unfold data'. rewrite <- app_assoc, <- Hsplit. exact Hstream. }
  unfold bindM at 1, try_except, bindM at 1, lift.
  destruct (Nat.lt_ge_cases (length data') (length (status_response text)))
    as [Hmore|Hwhole].
  - (* the packet is not complete yet *)
    rewrite (app_eq_prefix _ _ _ _ Hstream' ltac:(lia)).
    rewrite (parse_status_prefix text (length data') Hsize Hmore).
    cbn [is_None negb].
    rewrite <- (app_eq_prefix _ _ _ _ Hstream' ltac:(lia)).
    assert (Hfuel' : (script_size (net_recv (w_sock (left_with w evs1))) < fuel)%nat).
    { change (net_recv (w_sock (left_with w evs1))) with evs1. lia. }
    destruct (IH data' (left_with w evs1) Hopen Hfuel' Hstream' Hmore) as [evs' Hrun].
    exists evs'. exact Hrun.
  - (* the packet is complete *)
    rewrite (app_eq_extends _ _ _ _ Hstream' Hwhole).
    rewrite (parse_status_response text _ Hsize), Hdecode. cbn [call bind].
    rewrite Hloads. cbn [call].
    assert (Hsome : is_None doc = false) by (destruct doc; [contradiction|..]; reflexivity).
    rewrite Hsome. cbn [negb].
    exists evs1. reflexivity.
Qed.

Lemma recv_keeps_sent (n : Z) (w : world) :
  sock_sent (w_sock (snd (Socket.recv n w))) = sock_sent (w_sock w).
Proof.
  unfold Socket.recv.
  destruct (sock_closed (w_sock w)); [reflexivity|].
  destruct (net_recv (w_sock w)) as [|[chunk|e] evs]; try reflexivity.
  destruct (Nat.leb (length chunk) (Z.to_nat n)); reflexivity.
Qed.

(** The accumulation loop sends nothing. *)
Lemma recv_loop_keeps_sent `{PyRuntime} (fuel : nat) :
  forall (data : bytes) (w : world),
    sock_sent (w_sock (snd (recv_loop fuel data w))) = sock_sent (w_sock w).
Proof.
  induction fuel as [|fuel IH]; intros data w; [reflexivity|].
  cbn [recv_loop]. unfold bindM at 1.
  pose proof (recv_keeps_sent 4096 w) as Hrecv.
  destruct (Socket.recv 4096 w) as [[chunk| |] w1]; cbn [snd] in Hrecv;
    [|exact Hrecv|exact Hrecv].
  destruct chunk as [|b chunk]; [exact Hrecv|].
  unfold bindM at 1, try_except, bindM at 1, lift.
  destruct (_parse_response (data ++ b :: chunk)) as [parsed|e|].
  - destruct (is_None parsed); cbn [negb].
    + rewrite <- Hrecv. apply IH.
    + exact Hrecv.
  - rewrite <- Hrecv. apply IH.
  - exact Hrecv.
Qed.

(** X5. When the network lets it connect and send and delivers a whole
    status packet, in whatever chunks and whatever follows it, [ping]
    returns the document that [json.loads] makes of the packet's text;
    it has then sent two packets and closed its socket. *)
Theorem X5_ping_returns_document `{PyRuntime} (fuel : nat) (host : string)
    (port timeout : Z) (w : world) (text t : string) (doc : json) (tail : bytes) :
  Socket.has_nul host = false ->
  0 <= port <= 65535 ->
  0 <= timeout <= Socket.timeout_max ->
  (ping_budget host w <= fuel)%nat ->
  len (encode_utf8 host) <= int32_max - 20 ->
  net_create (w_sock w) = None ->
  net_connect (w_sock w) = None ->
  hd None (net_send (w_sock w)) = None ->
  hd None (tl (net_send (w_sock w))) = None ->
  sock_closed (w_sock w) = false ->
  len (encode_utf8 text) + 6 <= int32_max ->
  utf8_decode (encode_utf8 text) = Returns t ->
  json_loads t = Returns doc ->
  doc <> JNull ->
  available (net_recv (w_sock w)) = status_response text ++ tail ->
  exists handshake w',
    ping fuel host port timeout w = (Ok doc, w') /\
    sock_closed (w_sock w') = true /\
    sock_sent (w_sock w') = sock_sent (w_sock w) ++ [handshake; [x01; x00]].
Proof.
  intros Hnul Hport Htimeout Hfuel Hhost Hcreate Hconnect Hsend1 Hsend2 Hopen
         Hsize Hdecode Hloads Hdoc Hready.
  destruct (ping_prelude fuel host port timeout w Hnul Hport Htimeout Hfuel Hhost
              Hcreate Hconnect Hsend1 Hsend2 Hopen)
    as (handshake_len & host_len & _ & _ & _ & Hping).
  cbv zeta in Hping.
  match type of Hping with
  | _ = try_except _ _ (with_sock w (Socket.log_send (Socket.log_send _ ?hs) _)) =>
      set (handshake := hs) in *
  end.
  set (w3 := with_sock w _) in Hping.
  destruct (recv_loop_packet text t doc tail fuel Hsize Hdecode Hloads Hdoc [] w3)
    as [evs' Hloop].
  - exact Hopen.
  - unfold ping_budget in Hfuel.
    change (net_recv (w_sock w3)) with (net_recv (w_sock w)). lia.
  - change (net_recv (w_sock w3)) with (net_recv (w_sock w)). exact Hready.
  - unfold status_response. cbv zeta. rewrite !length_app.
    change (length (varint_bytes 0)) with 1%nat. cbn [length]. lia.
  - exists handshake. eexists. rewrite Hping. unfold try_except. rewrite Hloop.
    split; [reflexivity|]. split; [reflexivity|].
    cbn [with_sock w_sock Socket.set_closed Socket.set_recv sock_sent w3 Socket.log_send
         Socket.set_created].
    rewrite <- app_assoc. reflexivity.
Qed.

(** The scenario's server, answering in two chunks. *)
Lemma X5_ping_returns_document_witness :
  exists handshake w',
    ping (H := example_runtime [(example_status_text, example_status_doc)]) 200
      "127.0.0.1" 25565 3
      (fresh_world [Deliver (firstn 50 (status_response example_status_text));
                    Deliver (skipn 50 (status_response example_status_text))] [] [])
    = (Ok example_status_doc, w') /\
    sock_closed (w_sock w') = true /\
    sock_sent (w_sock w') = [] ++ [handshake; [x01; x00]].
Proof.
  apply (X5_ping_returns_document
           (H := example_runtime [(example_status_text, example_status_doc)]) 200
           "127.0.0.1" 25565 3
           (fresh_world [Deliver (firstn 50 (status_response example_status_text));
                         Deliver (skipn 50 (status_response example_status_text))] [] [])
           example_status_text example_status_text example_status_doc []).
  - reflexivity.
  - lia.
  - unfold Socket.timeout_max. lia.
  - vm_compute. lia.
  - vm_compute. discriminate.
  - reflexivity.
  - reflexivity.
  - reflexivity.
  - reflexivity.
  - reflexivity.
  - vm_compute. discriminate.
  - reflexivity.
  - reflexivity.
  - discriminate.
  - vm_compute. reflexivity.
Defined.

(** X6. On a network that lets it connect and send, [ping] sends exactly
    two packets, whatever it receives afterwards.  The first is the
    handshake: a varint that counts the bytes after it, then the packet id
    0, the protocol version -1 (FF FF FF FF 0F), the host as a varint
    length and its bytes, the port as two big-endian bytes and the next
    state 1.  The second is the status request 01 00. *)
Theorem X6_ping_handshake `{PyRuntime} (fuel : nat) (host : string)
    (port timeout : Z) (w : world) :
  Socket.has_nul host = false ->
  0 <= port <= 65535 ->
  0 <= timeout <= Socket.timeout_max ->
  (ping_budget host w <= fuel)%nat ->
  len (encode_utf8 host) <= int32_max - 20 ->
  net_create (w_sock w) = None ->
  net_connect (w_sock w) = None ->
  hd None (net_send (w_sock w)) = None ->
  hd None (tl (net_send (w_sock w))) = None ->
  sock_closed (w_sock w) = false ->
  exists handshake_len host_len,
    let handshake_data :=
      [x00] ++ [xff; xff; xff; xff; x0f] ++ host_len ++ encode_utf8 host
            ++ [byte_of_Z (port / 256); byte_of_Z port] ++ [x01] in
    sock_sent (w_sock (snd (ping fuel host port timeout w)))
    = sock_sent (w_sock w) ++ [handshake_len ++ handshake_data; [x01; x00]] /\
    _read_varint (handshake_len ++ handshake_data) 0
    = Ok (len handshake_data, length handshake_len) /\
    _read_varint handshake_data 6
    = Ok (len (encode_utf8 host), (6 + length host_len)%nat) /\
    byte_val (byte_of_Z (port / 256)) * 256 + byte_val (byte_of_Z port) = port.
Proof.
  intros Hnul Hport Htimeout Hfuel Hhost Hcreate Hconnect Hsend1 Hsend2 Hopen.
  destruct (ping_prelude fuel host port timeout w Hnul Hport Htimeout Hfuel Hhost
              Hcreate Hconnect Hsend1 Hsend2 Hopen)
    as (handshake_len & host_len & Hhost_len & Hhandshake_len & Hrange & Hping).
  exists handshake_len, host_len. cbv zeta in *.
  set (handshake_data := [x00] ++ _) in *.
  split; [|split; [|split]].
  - rewrite Hping. unfold try_except.
    set (w3 := with_sock w _).
    pose proof (recv_loop_keeps_sent fuel [] w3) as Hsent.
    destruct (recv_loop fuel [] w3) as [[r|e|] w4]; cbn [snd] in Hsent |- *.
    + rewrite Hsent. unfold w3.
      cbn [with_sock w_sock sock_sent Socket.log_send Socket.set_created].
      rewrite <- app_assoc. reflexivity.
    + destruct (is_OSError e); cbn [ret raise snd]; rewrite Hsent; unfold w3;
        cbn [with_sock w_sock sock_sent Socket.log_send Socket.set_created];
        rewrite <- app_assoc; reflexivity.
    + rewrite Hsent. unfold w3.
      cbn [with_sock w_sock sock_sent Socket.log_send Socket.set_created].
      rewrite <- app_assoc. reflexivity.
  - pose proof (read_varint_encoded fuel (len handshake_data) handshake_len []
                  handshake_data) as Hr.
    cbn [app length Nat.add] in Hr. apply Hr; [|exact Hhandshake_len].
    unfold int32_min. lia.
  - pose proof (read_varint_encoded fuel (len (encode_utf8 host)) host_len
                  ([x00] ++ [xff; xff; xff; xff; x0f])
                  (encode_utf8 host ++ [byte_of_Z (port / 256); byte_of_Z port] ++ [x01]))
      as Hr.
    unfold handshake_data. rewrite <- !app_assoc in *.
    apply Hr; [|exact Hhost_len].
    unfold len, int32_min, int32_max in *. lia.
  - rewrite !byte_val_of_Z.
    rewrite (Z.mod_small (port / 256) 256).
    + pose proof (Z.div_mod port 256 ltac:(lia)). lia.
    + split; [apply Z.div_pos; lia|apply Z.div_lt_upper_bound; lia].
Qed.

(** A server that accepts the connection and never answers. *)
Lemma X6_ping_handshake_witness :
  exists handshake_len host_len,
    let handshake_data :=
      [x00] ++ [xff; xff; xff; xff; x0f] ++ host_len ++ encode_utf8 "127.0.0.1"
            ++ [byte_of_Z (25565 / 256); byte_of_Z 25565] ++ [x01] in
    sock_sent (w_sock (snd (ping (H := example_runtime []) 40 "127.0.0.1" 25565 3
                                 (fresh_world [RecvError SockTimeout] [] []))))
    = [] ++ [handshake_len ++ handshake_data; [x01; x00]] /\
    _read_varint (handshake_len ++ handshake_data) 0
    = Ok (len handshake_data, length handshake_len) /\
    _read_varint handshake_data 6
    = Ok (len (encode_utf8 "127.0.0.1"), (6 + length host_len)%nat) /\
    byte_val (byte_of_Z (25565 / 256)) * 256 + byte_val (byte_of_Z 25565) = 25565.
Proof.
  apply (X6_ping_handshake (H := example_runtime []) 40 "127.0.0.1" 25565 3
           (fresh_world [RecvError SockTimeout] [] [])).
  - reflexivity.
  - lia.
  - unfold Socket.timeout_max. lia.
  - vm_compute. lia.
  - vm_compute. discriminate.
  - reflexivity.
  - reflexivity.
  - reflexivity.
  - reflexivity.
  - reflexivity.
Defined.

(** ** More on the console client *)

(** [_read_packet] on a socket that has a size field and the announced
    number of bytes ready (none, for a size that is not positive). *)
Lemma read_packet_sized (w : world) (size : Z) (body tail : bytes) :
  sock_closed (w_sock w) = false ->
  int32_min <= size <= int32_max ->
  length body = Z.to_nat size ->
  available (net_recv (w_sock w)) = le_bytes 4 (size mod 2 ^ 32) ++ body ++ tail ->
  exists evs',
    available evs' = tail /\
    _read_packet w = frame_fields body (left_with w evs').
Proof.
  intros Hopen Hsz Hbody Hready.
  unfold _read_packet. unfold bindM at 1.
  destruct (recv_until_delivers 4 4 [] w Hopen) as (evs1 & Hrun1 & Hleft1).
  { simpl. lia. }
  { rewrite Hready, !length_app, le_bytes_length. simpl. lia. }
  rewrite Hrun1. rewrite Hready in Hleft1 |- *.
  change (Z.to_nat (4 - len (@nil byte))) with 4%nat in *.
  rewrite firstn_app_exact in * by apply le_bytes_length.
  rewrite skipn_app_exact in Hleft1 by apply le_bytes_length.
  cbn [app]. unfold bindM at 1, lift.
  rewrite (unpack_i_le_bytes size Hsz).
  destruct (recv_until_delivers (Z.to_nat size) size [] (left_with w evs1) Hopen)
    as (evs2 & Hrun2 & Hleft2).
  { unfold len. simpl. lia. }
  { change (net_recv (w_sock (left_with w evs1))) with evs1. rewrite Hleft1.
    change (len (@nil byte)) with 0. rewrite length_app, Hbody. lia. }
  change (net_recv (w_sock (left_with w evs1))) with evs1 in Hrun2, Hleft2.
  rewrite Hleft1 in Hrun2, Hleft2.
  replace (Z.to_nat (size - len (@nil byte))) with (length body) in Hrun2, Hleft2
    by (change (len (@nil byte)) with 0; rewrite Hbody; lia).
  rewrite firstn_app_exact in Hrun2 by reflexivity.
  rewrite skipn_app_exact in Hleft2 by reflexivity.
  cbn [app] in Hrun2.
  unfold bindM at 1. rewrite Hrun2. rewrite left_with_twice.
  exists evs2. split; [exact Hleft2|reflexivity].
Qed.

Lemma make_packet_inv (req_id pkt_type : Z) (payload frame : bytes) :
  _make_packet req_id pkt_type payload = Ok frame ->
  int32_min <= req_id <= int32_max /\
  int32_min <= pkt_type <= int32_max /\
  4 + 4 + len payload + 2 <= int32_max.
Proof.
  unfold _make_packet, pack_ii.
  destruct (pack_i req_id) as [id_b| |] eqn:Eid; cbn [bind]; try discriminate.
  destruct (pack_i pkt_type) as [type_b| |] eqn:Etype; cbn [bind]; try discriminate.
  apply pack_i_inv in Eid as [Hid ->]. apply pack_i_inv in Etype as [Htype ->].
  destruct (pack_i _) as [size_b| |] eqn:Esize; cbn [bind]; try discriminate.
  apply pack_i_inv in Esize as [Hsize _]. intros _.
  repeat split; try apply Hid; try apply Htype.
  destruct Hsize as [_ Hsize]. revert Hsize.
  unfold len. rewrite !length_app, !le_bytes_length. cbn [length]. lia.
Qed.

(** Reading back a frame that [_make_packet] built. *)
Lemma read_packet_made (w : world) (req_id pkt_type : Z)
    (payload frame tail : bytes) :
  sock_closed (w_sock w) = false ->
  _make_packet req_id pkt_type payload = Ok frame ->
  available (net_recv (w_sock w)) = frame ++ tail ->
  exists evs',
    _read_packet w = (Ok (Some (req_id, pkt_type, payload)), left_with w evs') /\
    available evs' = tail.
Proof.
  intros Hopen Hmake Hready.
  destruct (make_packet_inv _ _ _ _ Hmake) as (Hid & Htype & Hsize).
  pose proof (make_packet_ok _ _ _ Hid Htype Hsize) as Hlayout.
  assert (Hframe : frame = le_bytes 4 ((4 + 4 + len payload + 2) mod 2 ^ 32)
                     ++ le_bytes 4 (req_id mod 2 ^ 32) ++ le_bytes 4 (pkt_type mod 2 ^ 32)
                     ++ payload ++ [x00; x00]) by congruence.
  clear Hlayout Hmake. subst frame.
  assert (Hlen : 0 <= len payload) by (unfold len; lia).
  set (body := le_bytes 4 (req_id mod 2 ^ 32) ++ le_bytes 4 (pkt_type mod 2 ^ 32)
               ++ payload ++ [x00; x00]).
  assert (Hbody : length body = Z.to_nat (4 + 4 + len payload + 2)).
  { unfold body, len. rewrite !length_app, !le_bytes_length. cbn [length]. lia. }
  destruct (read_packet_sized w (4 + 4 + len payload + 2) body tail Hopen) as
    (evs' & Hleft & Hread).
  - unfold int32_min in *. lia.
  - exact Hbody.
  - rewrite Hready. unfold body. rewrite <- !app_assoc. reflexivity.
  - exists evs'. split; [|exact Hleft]. rewrite Hread.
    unfold frame_fields, bindM, lift.
    replace (py_slice body 0 4) with (le_bytes 4 (req_id mod 2 ^ 32)) by reflexivity.
    rewrite (unpack_i_le_bytes req_id Hid).
    replace (py_slice body 4 8) with (le_bytes 4 (pkt_type mod 2 ^ 32)) by reflexivity.
    rewrite (unpack_i_le_bytes pkt_type Htype).
    unfold ret. f_equal. f_equal. f_equal. f_equal.
    assert (Hlb : len body = 10 + len payload).
    { unfold len in *. rewrite Hbody. lia. }
    rewrite Hlb.
    destruct (Z.ltb_spec 10 (10 + len payload)) as [Hne|He].
    + unfold py_slice. cbn [Z.ltb Z.compare]. rewrite Hlb.
      replace (Z.to_nat (Z.max 0 (10 + len payload + -2)) - 8)%nat with (length payload)
        by (unfold len; lia).
      replace (skipn 8 body) with (payload ++ [x00; x00]) by reflexivity.
      apply firstn_app_exact. reflexivity.
    + destruct payload; [reflexivity|]. unfold len in He. cbn [length] in He. lia.
Qed.

(** X7. A frame built by [_make_packet] and delivered by the socket, in
    whatever chunks, is read back by [_read_packet] as the request id,
    the packet type and the payload it was built from; the bytes that
    follow the frame stay for the next read. *)
Theorem X7_read_packet_make_packet (w : world) (req_id pkt_type : Z)
    (payload frame tail : bytes) :
  sock_closed (w_sock w) = false ->
  _make_packet req_id pkt_type payload = Ok frame ->
  available (net_recv (w_sock w)) = frame ++ tail ->
  exists evs',
    _read_packet w = (Ok (Some (req_id, pkt_type, payload)), left_with w evs') /\
    available evs' = tail.
Proof. apply read_packet_made. Qed.

(** An execute-command frame, in two chunks. *)
Lemma X7_read_packet_make_packet_witness :
  exists evs',
    _read_packet (fresh_world [Deliver [x0e; x00; x00; x00; x07; x00];
                               Deliver [x00; x00; x02; x00; x00; x00; "l"; "i"; "s"; "t";
                                        x00; x00]%byte] [] [])
    = (Ok (Some (7, 2, ["l"; "i"; "s"; "t"]%byte)),
       left_with (fresh_world [Deliver [x0e; x00; x00; x00; x07; x00];
                               Deliver [x00; x00; x02; x00; x00; x00; "l"; "i"; "s"; "t";
                                        x00; x00]%byte] [] []) evs') /\
    available evs' = [].
Proof.
  apply (X7_read_packet_make_packet _ 7 2 ["l"; "i"; "s"; "t"]%byte
           [x0e; x00; x00; x00; x07; x00; x00; x00; x02; x00; x00; x00;
            "l"; "i"; "s"; "t"; x00; x00]%byte []).
  - reflexivity.
  - reflexivity.
  - reflexivity.
Defined.

(** Without an instance id, [rcon_command] is its direct socket path. *)
Lemma rcon_command_direct `{PyRuntime} (host : string) (port : Z)
    (password command : string) (timeout : Z) (instance_id : option string) :
  instance_id = None \/ instance_id = Some EmptyString ->
  rcon_command host port password command timeout instance_id
  = (Socket.socket_ >>
     Socket.settimeout timeout >>
     try_finally
       (Socket.connect host port >>
        req_id <-- randint 1 2147483647 ;;
        pkt <-- lift (_make_packet req_id SERVERDATA_AUTH (encode_utf8 password)) ;;
        Socket.sendall pkt >>
        pkt <-- _read_packet ;;
        match pkt with
        | None => raise (ConnectionError "RCON authentication failed")
        | Some (rid, _, _) =>
            if rid =? -1 then raise (ConnectionError "RCON authentication failed")
            else
              req_id <-- randint 1 2147483647 ;;
              pkt <-- lift (_make_packet req_id SERVERDATA_EXECCOMMAND
                                         (encode_utf8 command)) ;;
              Socket.sendall pkt >>
              pkt <-- _read_packet ;;
              match pkt with
              | None => raise (ConnectionError "RCON command returned no response")
              | Some (_, _, payload) => ret (JStr (utf8_decode_replace payload))
              end
        end)
       Socket.close).
Proof. intros [-> | ->]; reflexivity. Qed.

(** The first half of the direct path, on a network that lets it connect
    and send: the socket is opened and the authenticate frame sent; what
    remains is to read the reply, under the [finally] clause. *)
Lemma rcon_direct_auth `{PyRuntime} (host : string) (port : Z)
    (password command : string) (timeout : Z) (instance_id : option string)
    (w : world) :
  instance_id = None \/ instance_id = Some EmptyString ->
  Socket.has_nul host = false ->
  0 <= port <= 65535 ->
  0 <= timeout <= Socket.timeout_max ->
  4 + 4 + len (encode_utf8 password) + 2 <= int32_max ->
  net_create (w_sock w) = None ->
  net_connect (w_sock w) = None ->
  hd None (net_send (w_sock w)) = None ->
  sock_closed (w_sock w) = false ->
  exists req_id auth w3,
    _make_packet req_id SERVERDATA_AUTH (encode_utf8 password) = Ok auth /\
    w_sock w3 = Socket.log_send (Socket.set_created (w_sock w)) auth /\
    rcon_command host port password command timeout instance_id w
    = try_finally
        (pkt <-- _read_packet ;;
         match pkt with
         | None => raise (ConnectionError "RCON authentication failed")
         | Some (rid, _, _) =>
             if rid =? -1 then raise (ConnectionError "RCON authentication failed")
             else
               req_id <-- randint 1 2147483647 ;;
               pkt <-- lift (_make_packet req_id SERVERDATA_EXECCOMMAND
                                          (encode_utf8 command)) ;;
               Socket.sendall pkt >>
               pkt <-- _read_packet ;;
               match pkt with
               | None => raise (ConnectionError "RCON command returned no response")
               | Some (_, _, payload) => ret (JStr (utf8_decode_replace payload))
               end
         end)
        Socket.close w3.
Proof.
  intros Hid Hhost Hport Htimeout Hpw Hcreate Hconnect Hsend Hopen.
  rewrite (rcon_command_direct host port password command timeout instance_id Hid).
  set (w1 := with_sock w (Socket.set_created (w_sock w))).
  destruct (randint_range 1 2147483647 w1)
    as (req_id & w2 & Hrand & Hrange & Hsock2 & Hhttp2); [lia|].
  pose proof (make_packet_ok req_id SERVERDATA_AUTH (encode_utf8 password)) as Hauth.
  specialize (Hauth ltac:(unfold int32_min, int32_max; lia)
                    ltac:(unfold int32_min, int32_max, SERVERDATA_AUTH; lia) Hpw).
  set (auth := le_bytes 4 _ ++ _) in Hauth.
  exists req_id, auth, (with_sock w2 (Socket.log_send (w_sock w2) auth)).
  split; [exact Hauth|]. split.
  { cbn [with_sock w_sock]. rewrite Hsock2. reflexivity. }
  assert (Hstep1 : Socket.socket_ w = (Ok tt, w1)).
  { unfold Socket.socket_. rewrite Hcreate. reflexivity. }
  pose proof (settimeout_ok timeout w1 Htimeout) as Hstep1'.
  pose proof (connect_ok host port w1 Hhost Hport Hconnect) as Hstep2.
  assert (Hstep3 : Socket.sendall auth w2
                   = (Ok tt, with_sock w2 (Socket.log_send (w_sock w2) auth))).
  { apply sendall_ok; rewrite Hsock2; assumption. }
  rewrite (bindM_ok _ _ _ _ _ Hstep1).
  rewrite (bindM_ok _ _ _ _ _ Hstep1').
  unfold try_finally.
  rewrite (bindM_ok _ _ _ _ _ Hstep2).
  rewrite (bindM_ok _ _ _ _ _ Hrand).
  unfold lift at 1. rewrite Hauth. unfold bindM at 1.
  rewrite (bindM_ok _ _ _ _ _ Hstep3).
  reflexivity.
Qed.

Lemma py_slice_length (data : bytes) (start : nat) (stop : Z) :
  0 <= stop ->
  length (py_slice data start stop)
  = Nat.min (Z.to_nat stop - start) (length data - start).
Proof.
  intros Hstop. unfold py_slice.
  destruct (Z.ltb_spec stop 0); [lia|].
  rewrite length_firstn, length_skipn. reflexivity.
Qed.

Lemma unpack_i_short (bs : bytes) :
  length bs <> 4%nat -> unpack_i bs = Raise StructError.
Proof.
  intros Hlen. unfold unpack_i.
  destruct (Nat.eqb_spec (length bs) 4); [contradiction|reflexivity].
Qed.

(** A body of fewer than 8 bytes has no request id or no packet type. *)
Lemma frame_fields_short (data : bytes) (w : world) :
  (length data < 8)%nat ->
  frame_fields data w = (Raise StructError, w).
Proof.
  intros Hshort. unfold frame_fields, bindM, lift.
  destruct (Nat.lt_ge_cases (length data) 4) as [Hlt|Hge].
  - rewrite unpack_i_short; [reflexivity|].
    rewrite py_slice_length by lia. lia.
  - destruct (unpack_i_total (py_slice data 0 4)) as [x ->].
    { rewrite py_slice_length by lia. lia. }
    rewrite unpack_i_short; [reflexivity|].
    rewrite py_slice_length by lia. lia.
Qed.

(** X8. When the reply to the authentication carries a size field below
    8 (zero and negative sizes included), the direct path of
    [rcon_command] raises [struct.error], which is no [ConnectionError];
    the socket is closed all the same. *)
Theorem X8_rcon_short_reply `{PyRuntime} (host : string) (port : Z)
    (password command : string) (timeout : Z) (instance_id : option string) (w : world)
    (size : Z) (body tail : bytes) :
  instance_id = None \/ instance_id = Some EmptyString ->
  Socket.has_nul host = false ->
  0 <= port <= 65535 ->
  0 <= timeout <= Socket.timeout_max ->
  4 + 4 + len (encode_utf8 password) + 2 <= int32_max ->
  net_create (w_sock w) = None ->
  net_connect (w_sock w) = None ->
  hd None (net_send (w_sock w)) = None ->
  sock_closed (w_sock w) = false ->
  int32_min <= size < 8 ->
  length body = Z.to_nat size ->
  available (net_recv (w_sock w)) = le_bytes 4 (size mod 2 ^ 32) ++ body ++ tail ->
  exists w',
    rcon_command host port password command timeout instance_id w = (Raise StructError, w') /\
    is_ConnectionError StructError = false /\
    sock_closed (w_sock w') = true.
Proof.
  intros Hid Hhost Hport Htimeout Hpw Hcreate Hconnect Hsend Hopen Hsize Hbody Hready.
  destruct (rcon_direct_auth host port password command timeout instance_id w
              Hid Hhost Hport Htimeout Hpw Hcreate Hconnect Hsend Hopen)
    as (req_id & auth & w3 & _ & Hsock3 & ->).
  destruct (read_packet_sized w3 size body tail) as (evs' & _ & Hread).
  - rewrite Hsock3. exact Hopen.
  - unfold int32_max. lia.
  - exact Hbody.
  - rewrite Hsock3. exact Hready.
  - rewrite frame_fields_short in Hread by lia.
    eexists. unfold try_finally. rewrite (bindM_raise _ _ _ _ _ Hread).
    split; [reflexivity|]. split; reflexivity.
Qed.

(** A reply that announces 4 bytes and holds only a request id. *)
Lemma X8_rcon_short_reply_witness :
  exists w',
    rcon_command (H := example_runtime []) "127.0.0.1" 25575 "secret" "list" 5 None
      (fresh_world [Deliver [x04; x00; x00; x00; x01; x00; x00; x00]] [] [7])
    = (Raise StructError, w') /\
    is_ConnectionError StructError = false /\
    sock_closed (w_sock w') = true.
Proof.
  apply (X8_rcon_short_reply (H := example_runtime []) "127.0.0.1" 25575 "secret" "list"
           5 None (fresh_world [Deliver [x04; x00; x00; x00; x01; x00; x00; x00]] [] [7])
           4 [x01; x00; x00; x00] []).
  - left. reflexivity.
  - reflexivity.
  - lia.
  - unfold Socket.timeout_max. lia.
  - vm_compute. discriminate.
  - reflexivity.
  - reflexivity.
  - reflexivity.
  - reflexivity.
  - unfold int32_min. lia.
  - reflexivity.
  - reflexivity.
Defined.

(** X9. When the server accepts the authentication (a reply whose request
    id is not -1) and answers the command with a frame, the direct path
    of [rcon_command] returns the payload of that frame decoded as text;
    it has sent two frames, the authenticate frame with the password and
    the execute-command frame with the command, and closed the socket. *)
Theorem X9_rcon_command_returns_payload `{PyRuntime} (host : string) (port : Z)
    (password command : string) (timeout : Z) (instance_id : option string) (w : world)
    (id1 id2 type2 : Z) (payload2 reply1 reply2 tail : bytes) :
  instance_id = None \/ instance_id = Some EmptyString ->
  Socket.has_nul host = false ->
  0 <= port <= 65535 ->
  0 <= timeout <= Socket.timeout_max ->
  4 + 4 + len (encode_utf8 password) + 2 <= int32_max ->
  4 + 4 + len (encode_utf8 command) + 2 <= int32_max ->
  net_create (w_sock w) = None ->
  net_connect (w_sock w) = None ->
  hd None (net_send (w_sock w)) = None ->
  hd None (tl (net_send (w_sock w))) = None ->
  sock_closed (w_sock w) = false ->
  int32_min <= id1 <= int32_max ->
  id1 <> -1 ->
  is_frame id1 reply1 ->
  _make_packet id2 type2 payload2 = Ok reply2 ->
  available (net_recv (w_sock w)) = reply1 ++ reply2 ++ tail ->
  exists rid1 rid2 auth exec w',
    rcon_command host port password command timeout instance_id w
    = (Ok (JStr (utf8_decode_replace payload2)), w') /\
    _make_packet rid1 SERVERDATA_AUTH (encode_utf8 password) = Ok auth /\
    _make_packet rid2 SERVERDATA_EXECCOMMAND (encode_utf8 command) = Ok exec /\
    sock_sent (w_sock w') = sock_sent (w_sock w) ++ [auth; exec] /\
    sock_closed (w_sock w') = true.
Proof.
  intros Hid Hhost Hport Htimeout Hpw Hcmd Hcreate Hconnect Hsend1 Hsend2 Hopen
         Hid1 Hnot Hreply1 Hreply2 Hready.
  destruct (rcon_direct_auth host port password command timeout instance_id w
              Hid Hhost Hport Htimeout Hpw Hcreate Hconnect Hsend1 Hopen)
    as (rid1 & auth & w3 & Hauth & Hsock3 & ->).
  (* the reply to the authentication *)
  destruct (read_packet_frame w3 id1 reply1 (reply2 ++ tail))
    as (type1 & payload1 & evs1 & Hread1 & Hleft1).
  { rewrite Hsock3. exact Hopen. }
  { exact Hid1. }
  { exact Hreply1. }
  { rewrite Hsock3. exact Hready. }
  set (w4 := left_with w3 evs1) in *.
  (* the command *)
  destruct (randint_range 1 2147483647 w4)
    as (rid2 & w5 & Hrand & Hrange & Hsock5 & _); [lia|].
  pose proof (make_packet_ok rid2 SERVERDATA_EXECCOMMAND (encode_utf8 command)) as Hexec.
  specialize (Hexec ltac:(unfold int32_min, int32_max; lia)
                    ltac:(unfold int32_min, int32_max, SERVERDATA_EXECCOMMAND; lia) Hcmd).
  set (exec := le_bytes 4 _ ++ _) in Hexec.
  set (w6 := with_sock w5 (Socket.log_send (w_sock w5) exec)).
  assert (Hsock4 : w_sock w4 = Socket.set_recv (w_sock w3) evs1) by reflexivity.
  assert (Hstep : Socket.sendall exec w5 = (Ok tt, w6)).
  { apply sendall_ok; rewrite Hsock5, Hsock4, Hsock3; assumption. }
  (* its reply *)
  assert (Hsock6 : w_sock w6 = Socket.log_send (Socket.set_recv (w_sock w3) evs1) exec).
  { unfold w6. cbn [with_sock w_sock]. rewrite Hsock5, Hsock4. reflexivity. }
  destruct (read_packet_made w6 id2 type2 payload2 reply2 tail)
    as (evs2 & Hread2 & _).
  { rewrite Hsock6, Hsock3. exact Hopen. }
  { exact Hreply2. }
  { rewrite Hsock6. exact Hleft1. }
  exists rid1, rid2, auth, exec. eexists.
  split; [|split; [exact Hauth|split; [exact Hexec|]]].
  - unfold try_finally.
    rewrite (bindM_ok _ _ _ _ _ Hread1).
    destruct (Z.eqb_spec id1 (-1)) as [|_]; [contradiction|].
    rewrite (bindM_ok _ _ _ _ _ Hrand).
    unfold lift at 1. rewrite Hexec. unfold bindM at 1.
    rewrite (bindM_ok _ _ _ _ _ Hstep).
    rewrite (bindM_ok _ _ _ _ _ Hread2).
    reflexivity.
  - cbn [with_sock w_sock Socket.set_closed sock_sent sock_closed left_with Socket.set_recv].
    rewrite Hsock6, Hsock3.
    cbn [Socket.log_send Socket.set_recv Socket.set_created sock_sent].
    rewrite <- app_assoc. split; reflexivity.
Qed.

(** The authentication accepted (reply id 5), then the answer "ok" to the
    command, the two replies arriving in three chunks. *)
Lemma X9_rcon_command_returns_payload_witness :
  exists rid1 rid2 auth exec w',
    rcon_command (H := example_runtime []) "127.0.0.1" 25575 "secret" "list" 5 None
      (fresh_world [Deliver [x0a; x00; x00; x00; x05; x00; x00; x00];
                    Deliver [x02; x00; x00; x00; x00; x00; x0c; x00; x00; x00];
                    Deliver [x06; x00; x00; x00; x00; x00; x00; x00; "o"; "k";
                             x00; x00]%byte] [] [3; 9])
    = (Ok (JStr (utf8_decode_replace (PyRuntime := example_runtime []) ["o"; "k"]%byte)), w') /\
    _make_packet rid1 SERVERDATA_AUTH (encode_utf8 "secret") = Ok auth /\
    _make_packet rid2 SERVERDATA_EXECCOMMAND (encode_utf8 "list") = Ok exec /\
    sock_sent (w_sock w') = [] ++ [auth; exec] /\
    sock_closed (w_sock w') = true.
Proof.
  apply (X9_rcon_command_returns_payload (H := example_runtime [])
           "127.0.0.1" 25575 "secret" "list" 5 None
           (fresh_world [Deliver [x0a; x00; x00; x00; x05; x00; x00; x00];
                         Deliver [x02; x00; x00; x00; x00; x00; x0c; x00; x00; x00];
                         Deliver [x06; x00; x00; x00; x00; x00; x00; x00; "o"; "k";
                                  x00; x00]%byte] [] [3; 9])
           5 6 0 ["o"; "k"]%byte
           [x0a; x00; x00; x00; x05; x00; x00; x00; x02; x00; x00; x00; x00; x00]
           [x0c; x00; x00; x00; x06; x00; x00; x00; x00; x00; x00; x00; "o"; "k";
            x00; x00]%byte []).
  - left. reflexivity.
  - reflexivity.
  - lia.
  - unfold Socket.timeout_max. lia.
  - vm_compute. discriminate.
  - vm_compute. discriminate.
  - reflexivity.
  - reflexivity.
  - reflexivity.
  - reflexivity.
  - reflexivity.
  - unfold int32_min, int32_max. lia.
  - lia.
  - exists [x02; x00; x00; x00], [x00; x00]. repeat split. vm_compute. discriminate.
  - reflexivity.
  - reflexivity.
Defined.

(** Receiving changes nothing in the world but the script of the
    socket. *)
Lemma recv_moves_script (n : Z) (w : world) :
  exists evs, snd (Socket.recv n w) = left_with w evs.
Proof.
  unfold Socket.recv.
  destruct (sock_closed (w_sock w)).
  - exists (net_recv (w_sock w)). symmetry. apply left_with_same.
  - destruct (net_recv (w_sock w)) as [|[chunk|e] evs] eqn:Escript.
    + exists []. cbn [snd]. rewrite <- Escript. symmetry. apply left_with_same.
    + destruct (Nat.leb (length chunk) (Z.to_nat n)); eexists; reflexivity.
    + eexists. reflexivity.
Qed.

Lemma recv_until_moves_script (fuel : nat) :
  forall (want : Z) (buf : bytes) (w : world),
    exists evs, snd (recv_until fuel want buf w) = left_with w evs.
Proof.
  induction fuel as [|fuel IH]; intros want buf w; rewrite recv_until_eq.
  - destruct (len buf <? want);
      exists (net_recv (w_sock w)); symmetry; apply left_with_same.
  - destruct (len buf <? want);
      [|exists (net_recv (w_sock w)); symmetry; apply left_with_same].
    unfold bindM.
    destruct (recv_moves_script (want - len buf) w) as [evs1 Hrecv].
    destruct (Socket.recv (want - len buf) w) as [[chunk|e|] w1]; cbn [snd] in Hrecv;
      subst w1; try (eexists; reflexivity).
    destruct chunk as [|b chunk]; [eexists; reflexivity|].
    destruct (IH want (buf ++ b :: chunk) (left_with w evs1)) as [evs2 Hrun].
    exists evs2. rewrite Hrun. apply left_with_twice.
Qed.

(** X10. When the peer closes the stream before it has sent the four
    bytes of a size field, the direct path of [rcon_command] raises
    [ConnectionError("RCON authentication failed")]; only the
    authenticate frame was sent and the socket is closed. *)
Theorem X10_rcon_peer_closes `{PyRuntime} (host : string) (port : Z)
    (password command : string) (timeout : Z) (instance_id : option string) (w : world) :
  instance_id = None \/ instance_id = Some EmptyString ->
  Socket.has_nul host = false ->
  0 <= port <= 65535 ->
  0 <= timeout <= Socket.timeout_max ->
  4 + 4 + len (encode_utf8 password) + 2 <= int32_max ->
  net_create (w_sock w) = None ->
  net_connect (w_sock w) = None ->
  hd None (net_send (w_sock w)) = None ->
  sock_closed (w_sock w) = false ->
  len (available (net_recv (w_sock w))) < 4 ->
  eof_after (net_recv (w_sock w)) = true ->
  exists rid auth w',
    rcon_command host port password command timeout instance_id w
    = (Raise (ConnectionError "RCON authentication failed"), w') /\
    _make_packet rid SERVERDATA_AUTH (encode_utf8 password) = Ok auth /\
    sock_sent (w_sock w') = sock_sent (w_sock w) ++ [auth] /\
    sock_closed (w_sock w') = true.
Proof.
  intros Hid Hhost Hport Htimeout Hpw Hcreate Hconnect Hsend Hopen Hshort Heof.
  destruct (rcon_direct_auth host port password command timeout instance_id w
              Hid Hhost Hport Htimeout Hpw Hcreate Hconnect Hsend Hopen)
    as (rid & auth & w3 & Hauth & Hsock3 & ->).
  destruct (recv_until_eof 4 4 [] w3) as [w4 Hrun].
  { rewrite Hsock3. exact Hopen. }
  { simpl. lia. }
  { rewrite Hsock3. change (len (@nil byte)) with 0.
    change (net_recv (Socket.log_send (Socket.set_created (w_sock w)) auth))
      with (net_recv (w_sock w)). lia. }
  { rewrite Hsock3. exact Heof. }
  destruct (recv_until_moves_script 4 4 [] w3) as [evs Hmoved].
  rewrite Hrun in Hmoved. cbn [snd] in Hmoved. subst w4.
  exists rid, auth. eexists. split; [|split; [exact Hauth|]].
  - unfold try_finally, _read_packet.
    rewrite (bindM_ok _ _ _ _ _ (bindM_ok _ _ _ _ _ Hrun)).
    reflexivity.
  - cbn [raise ret Socket.close with_sock w_sock Socket.set_closed sock_sent sock_closed
         left_with Socket.set_recv].
    rewrite Hsock3. split; reflexivity.
Qed.

(** A server that closes the connection without a word. *)
Lemma X10_rcon_peer_closes_witness :
  exists rid auth w',
    rcon_command (H := example_runtime []) "127.0.0.1" 25575 "secret" "list" 5 None
      (fresh_world [] [] [3])
    = (Raise (ConnectionError "RCON authentication failed"), w') /\
    _make_packet rid SERVERDATA_AUTH (encode_utf8 "secret") = Ok auth /\
    sock_sent (w_sock w') = [] ++ [auth] /\
    sock_closed (w_sock w') = true.
Proof.
  apply (X10_rcon_peer_closes (H := example_runtime []) "127.0.0.1" 25575 "secret" "list"
           5 None (fresh_world [] [] [3])).
  - left. reflexivity.
  - reflexivity.
  - lia.
  - unfold Socket.timeout_max. lia.
  - vm_compute. discriminate.
  - reflexivity.
  - reflexivity.
  - reflexivity.
  - reflexivity.
  - reflexivity.
  - reflexivity.
Defined.

(** ** The direct path always ends, with the socket closed *)

Lemma returns_ret {A : Type} (a : A) : returns (ret a).
Proof. intros w. discriminate. Qed.

Lemma returns_raise {A : Type} (e : exn) : returns (raise (A := A) e).
Proof. intros w. discriminate. Qed.

Lemma returns_lift {A : Type} (m : outcome A) : m <> OutOfFuel -> returns (lift m).
Proof. intros Hm w. exact Hm. Qed.

Lemma returns_bind {A B : Type} (m : M A) (k : A -> M B) :
  returns m -> (forall a, returns (k a)) -> returns (bindM m k).
Proof.
  intros Hm Hk w. unfold bindM. specialize (Hm w).
  destruct (m w) as [[a|e|] w']; cbn [fst] in *.
  - apply Hk.
  - discriminate.
  - contradiction.
Qed.

Lemma returns_try_finally {A : Type} (m : M A) (cleanup : M unit) :
  returns m -> returns cleanup -> returns (try_finally m cleanup).
Proof.
  intros Hm Hc w. unfold try_finally. specialize (Hm w).
  destruct (m w) as [r w']. specialize (Hc w').
  destruct (cleanup w') as [[[]|e|] w'']; cbn [fst] in *.
  - exact Hm.
  - discriminate.
  - contradiction.
Qed.

Lemma returns_socket : returns Socket.socket_.
Proof. intros w. unfold Socket.socket_. destruct (net_create (w_sock w)); discriminate. Qed.

Lemma returns_settimeout (timeout : Z) : returns (Socket.settimeout timeout).
Proof.
  intros w. unfold Socket.settimeout.
  destruct ((timeout <? - Socket.timeout_max) || (Socket.timeout_max <? timeout));
    [discriminate|].
  destruct (timeout <? 0); discriminate.
Qed.

Lemma returns_connect (host : string) (port : Z) : returns (Socket.connect host port).
Proof.
  intros w. unfold Socket.connect.
  destruct (Socket.has_nul host); [discriminate|].
  destruct (net_connect (w_sock w)) as [[| |e]|]; try discriminate.
  all: destruct ((port <? int32_min) || (int32_max <? port)); try discriminate.
  all: destruct ((port <? 0) || (65535 <? port)); discriminate.
Qed.

Lemma returns_sendall (data : bytes) : returns (Socket.sendall data).
Proof.
  intros w. unfold Socket.sendall.
  destruct (sock_closed (w_sock w)); [discriminate|].
  destruct (net_send (w_sock w)) as [|[e|] sends]; discriminate.
Qed.

Lemma returns_close : returns Socket.close.
Proof. intros w. discriminate. Qed.

Lemma returns_randint (lo hi : Z) : returns (randint lo hi).
Proof. intros w. discriminate. Qed.

Lemma unpack_i_returns (bs : bytes) : unpack_i bs <> OutOfFuel.
Proof. unfold unpack_i. destruct (negb (Nat.eqb (length bs) 4)); discriminate. Qed.

Lemma pack_i_returns (x : Z) : pack_i x <> OutOfFuel.
Proof. unfold pack_i. destruct ((x <? int32_min) || (int32_max <? x)); discriminate. Qed.

Lemma make_packet_returns (req_id pkt_type : Z) (payload : bytes) :
  _make_packet req_id pkt_type payload <> OutOfFuel.
Proof.
  unfold _make_packet, pack_ii.
  pose proof (pack_i_returns req_id). destruct (pack_i req_id); cbn [bind]; try easy.
  pose proof (pack_i_returns pkt_type). destruct (pack_i pkt_type); cbn [bind]; try easy.
  match goal with |- context [pack_i ?x] => pose proof (pack_i_returns x); destruct (pack_i x) end;
    cbn [bind]; easy.
Qed.

(** Both loops of [_read_packet] are given enough iterations. *)
Lemma returns_read_packet : returns _read_packet.
Proof.
  unfold _read_packet.
  apply returns_bind.
  - intros w. apply recv_until_total. simpl. lia.
  - intros [raw_size|]; [|apply returns_ret].
    apply returns_bind; [apply returns_lift, unpack_i_returns|].
    intros size. apply returns_bind.
    + intros w. apply recv_until_total. change (len (@nil byte)) with 0. lia.
    + intros [data|]; [|apply returns_ret].
      apply returns_bind; [apply returns_lift, unpack_i_returns|]. intros req_id.
      apply returns_bind; [apply returns_lift, unpack_i_returns|]. intros pkt_type.
      apply returns_ret.
Qed.

Lemma try_finally_closes {A : Type} (m : M A) (w : world) :
  sock_closed (w_sock (snd (try_finally m Socket.close w))) = true.
Proof. unfold try_finally. destruct (m w) as [r w']. reflexivity. Qed.

(** X11. The direct path of [rcon_command] comes to an end whatever the
    network does.  When the socket cannot be created the error is raised
    as it is.  [settimeout] runs between the creation and the [try]: when
    it refuses the timeout its exception leaves the call with the socket
    created and still open.  Once the timeout is set, every way out,
    return or exception, closes the socket. *)
Theorem X11_rcon_direct_closes `{PyRuntime} (host : string) (port : Z)
    (password command : string) (timeout : Z) (instance_id : option string)
    (w : world) :
  instance_id = None \/ instance_id = Some EmptyString ->
  fst (rcon_command host port password command timeout instance_id w) <> OutOfFuel /\
  (forall e, net_create (w_sock w) = Some e ->
             rcon_command host port password command timeout instance_id w
             = (Raise (exn_of_sock_error e), w)) /\
  (net_create (w_sock w) = None ->
   ~ 0 <= timeout <= Socket.timeout_max ->
   exists e w',
     rcon_command host port password command timeout instance_id w = (Raise e, w') /\
     (e = ValueError "Timeout value out of range" \/ e = OverflowError) /\
     sock_created (w_sock w') = true /\
     sock_closed (w_sock w') = sock_closed (w_sock w)) /\
  (net_create (w_sock w) = None ->
   0 <= timeout <= Socket.timeout_max ->
   sock_closed
     (w_sock (snd (rcon_command host port password command timeout instance_id w)))
   = true).
Proof.
  intros Hid.
  rewrite (rcon_command_direct host port password command timeout instance_id Hid).
  split; [|split; [|split]].
  - revert w. apply returns_bind; [apply returns_socket|]. intros _.
    apply returns_bind; [apply returns_settimeout|]. intros _.
    apply returns_try_finally; [|apply returns_close].
    apply returns_bind; [apply returns_connect|]. intros _.
    apply returns_bind; [apply returns_randint|]. intros req_id.
    apply returns_bind; [apply returns_lift, make_packet_returns|]. intros pkt.
    apply returns_bind; [apply returns_sendall|]. intros _.
    apply returns_bind; [apply returns_read_packet|]. intros [[[rid pkt_type] payload]|];
      [|apply returns_raise].
    destruct (rid =? -1); [apply returns_raise|].
    apply returns_bind; [apply returns_randint|]. intros req_id'.
    apply returns_bind; [apply returns_lift, make_packet_returns|]. intros pkt'.
    apply returns_bind; [apply returns_sendall|]. intros _.
    apply returns_bind; [apply returns_read_packet|]. intros [[[rid' pkt_type'] payload']|];
      [apply returns_ret|apply returns_raise].
  - intros e Hcreate. unfold bindM at 1, Socket.socket_. rewrite Hcreate. reflexivity.
  - intros Hcreate Hbad. unfold bindM at 1, Socket.socket_. rewrite Hcreate.
    unfold bindM at 1, Socket.settimeout.
    destruct (Z.ltb_spec timeout (- Socket.timeout_max)) as [Hlow|Hlow]; cbn [orb].
    { exists OverflowError. eexists. split; [reflexivity|].
      split; [right; reflexivity|]. split; reflexivity. }
    destruct (Z.ltb_spec Socket.timeout_max timeout) as [Hhigh|Hhigh].
    { exists OverflowError. eexists. split; [reflexivity|].
      split; [right; reflexivity|]. split; reflexivity. }
    destruct (Z.ltb_spec timeout 0) as [Hneg|Hneg]; [|lia].
    exists (ValueError "Timeout value out of range"). eexists.
    split; [reflexivity|]. split; [left; reflexivity|]. split; reflexivity.
  - intros Hcreate Htimeout. unfold bindM at 1, Socket.socket_. rewrite Hcreate.
    rewrite (bindM_ok _ _ _ _ _ (settimeout_ok timeout _ Htimeout)).
    apply try_finally_closes.
Qed.

(** A server that accepts the connection and goes silent: the read times
    out, and the socket is closed. *)
Lemma X11_rcon_direct_closes_witness :
  fst (rcon_command (H := example_runtime []) "127.0.0.1" 25575 "secret" "list" 5 None
         (fresh_world [RecvError SockTimeout] [] [3]))
  = Raise SocketTimeout /\
  sock_closed
    (w_sock (snd (rcon_command (H := example_runtime []) "127.0.0.1" 25575 "secret" "list"
                    5 None (fresh_world [RecvError SockTimeout] [] [3])))) = true.
Proof.
  destruct (X11_rcon_direct_closes (H := example_runtime []) "127.0.0.1" 25575 "secret"
              "list" 5 None (fresh_world [RecvError SockTimeout] [] [3]))
    as (_ & _ & _ & Hclosed).
  - left. reflexivity.
  - split; [reflexivity|]. apply Hclosed; [reflexivity|].
    unfold Socket.timeout_max. lia.
Defined.

(** A negative timeout: [settimeout] raises before the [try], and the
    socket just created stays open. *)
Lemma rcon_negative_timeout_leaves_socket_open :
  exists w',
    rcon_command (H := example_runtime []) "127.0.0.1" 25575 "secret" "list" (-1) None
      (fresh_world [] [] [3])
    = (Raise (ValueError "Timeout value out of range"), w') /\
    sock_created (w_sock w') = true /\
    sock_closed (w_sock w') = false.
Proof. eexists. split; [reflexivity|]. split; reflexivity. Qed.

(** ** More on the status operation *)

Lemma bind_returns {A B : Type} (m : outcome A) (k : A -> outcome B) :
  m <> OutOfFuel -> (forall a, k a <> OutOfFuel) -> bind m k <> OutOfFuel.
Proof. intros Hm Hk. destruct m; cbn [bind]; [apply Hk|discriminate|contradiction]. Qed.

Lemma py_get_returns (d : json) (key : string) (default : json) :
  py_get d key default <> OutOfFuel.
Proof. destruct d; cbn [py_get]; try discriminate. destruct (lookup key entries); discriminate. Qed.

Lemma iter_items_returns (v : json) : iter_items v <> OutOfFuel.
Proof. destruct v; discriminate. Qed.

Lemma comprehension_returns {A B : Type} (f : A -> outcome B) (items : list A) :
  (forall a, f a <> OutOfFuel) -> comprehension f items <> OutOfFuel.
Proof.
  intros Hf. induction items as [|p items IH]; cbn [comprehension]; [discriminate|].
  apply bind_returns; [apply Hf|]. intros y.
  apply bind_returns; [exact IH|]. discriminate.
Qed.

(** [ping] comes to an end within its budget, whatever its arguments. *)
Lemma ping_returns `{PyRuntime} (fuel : nat) (host : string) (port timeout : Z)
    (w : world) :
  (ping_budget host w <= fuel)%nat ->
  fst (ping fuel host port timeout w) <> OutOfFuel.
Proof.
  intros Hfuel.
  pose proof (ping_body_result fuel host port timeout w Hfuel _ eq_refl) as Hbody.
  unfold ping, try_except.
  match type of Hbody with
  | match fst ?res with _ => _ end => destruct res as [[r|e|] w']
  end; cbn [fst] in Hbody.
  - discriminate.
  - destruct (is_OSError e); discriminate.
  - contradiction.
Qed.

(** X12. For a configuration whose pid and port are integers and whose
    host is a string, [status] never raises, however far it is run: every
    exception ends up in the failure result.  On a network whose stream
    comes to an end it answers with a result.  The order in which
    [connect] looks at the address shows in the answer for a port outside
    0..65535: when the host name is accepted and resolves the answer is
    the failure result carrying [OverflowError]; when the name does not
    resolve (and the port fits a C int) the ping gives [None] and, no pid
    being configured, the answer is the stopped result. *)
Theorem X12_status_always_answers `{PyRuntime} (fuel : nat) (cfg : config) (w : world) :
  let host := match cfg_host cfg with Some h => h | None => "127.0.0.1"%string end in
  (forall e w', status fuel cfg w <> (Raise e, w')) /\
  ((ping_budget host w <= fuel)%nat ->
   exists result w', status fuel cfg w = (Ok result, w')) /\
  (forall p, cfg_port cfg = Some p -> p < 0 \/ 65535 < p ->
             net_create (w_sock w) = None ->
             Socket.has_nul host = false ->
             (forall c, net_connect (w_sock w) = Some c -> exists e, c = ConnectFailed e) ->
             fst (status fuel cfg w) = Ok (Failed OverflowError)) /\
  (forall p, cfg_port cfg = Some p -> p < 0 \/ 65535 < p ->
             int32_min <= p <= int32_max ->
             net_create (w_sock w) = None ->
             Socket.has_nul host = false ->
             net_connect (w_sock w) = Some HostUnresolved ->
             cfg_pid cfg = None ->
             fst (status fuel cfg w) = Ok (Stopped (i18n_t "messages.no_process_running"))).
Proof.
  intros host. split; [|split; [|split]].
  - intros e w'. unfold status, try_except.
    match goal with
    | |- (match ?body with _ => _ end) <> _ => destruct body as [[r|e0|] w0]
    end; discriminate.
  - intros Hfuel.
    pose proof (ping_returns fuel host
                  (match cfg_port cfg with Some p => p | None => 25565 end) 3
                  w Hfuel) as Hping.
    unfold status, try_except. unfold bindM at 1. fold host.
    destruct (ping fuel _ _ _ w) as [[r|e|] w'] eqn:Eping; cbn [fst] in Hping.
    + destruct (truthy r).
      * unfold lift.
        match goal with
        | |- context [match ?m with _ => _ end] =>
            assert (Hpure : m <> OutOfFuel); [|destruct m as [res|e|]]
        end.
        { repeat (apply bind_returns; [try apply py_get_returns|intros ?]);
            try discriminate.
          - destruct a1; try discriminate. apply py_get_returns.
          - apply iter_items_returns.
          - apply comprehension_returns. intros p. apply py_get_returns. }
        -- do 2 eexists; reflexivity.
        -- do 2 eexists; reflexivity.
        -- contradiction.
      * destruct (cfg_pid cfg) as [p|]; [|do 2 eexists; reflexivity].
        destruct (negb (p =? 0)); [|do 2 eexists; reflexivity].
        destruct (os_kill0 p) as [e|]; [|do 2 eexists; reflexivity].
        destruct (is_OSError e); do 2 eexists; reflexivity.
    + do 2 eexists; reflexivity.
    + contradiction.
  - intros p Hcfg Hrange Hcreate Hnul Hresolved.
    unfold status, try_except. unfold bindM at 1. rewrite Hcfg. fold host.
    unfold ping, try_except. unfold bindM at 1, Socket.socket_. rewrite Hcreate.
    rewrite (bindM_ok _ _ _ _ _ (settimeout_ok 3 _ ltac:(unfold Socket.timeout_max; lia))).
    unfold bindM at 1, Socket.connect. rewrite Hnul.
    match goal with
    | |- context [net_connect (w_sock ?w1)] =>
        change (net_connect (w_sock w1)) with (net_connect (w_sock w))
    end.
    assert (Hbad : (p <? 0) || (65535 <? p) = true).
    { destruct Hrange; [destruct (Z.ltb_spec p 0); [reflexivity|lia]|].
      destruct (Z.ltb_spec 65535 p); [apply orb_true_r|lia]. }
    destruct (net_connect (w_sock w)) as [c|] eqn:Hconnect.
    + destruct (Hresolved c eq_refl) as [e ->].
      destruct ((p <? int32_min) || (int32_max <? p)); [reflexivity|].
      rewrite Hbad. reflexivity.
    + destruct ((p <? int32_min) || (int32_max <? p)); [reflexivity|].
      rewrite Hbad. reflexivity.
  - intros p Hcfg Hrange Hint Hcreate Hnul Hconnect Hpid.
    unfold status, try_except. unfold bindM at 1. rewrite Hcfg, Hpid. fold host.
    unfold ping, try_except. unfold bindM at 1, Socket.socket_. rewrite Hcreate.
    rewrite (bindM_ok _ _ _ _ _ (settimeout_ok 3 _ ltac:(unfold Socket.timeout_max; lia))).
    unfold bindM at 1, Socket.connect. rewrite Hnul.
    match goal with
    | |- context [net_connect (w_sock ?w1)] =>
        change (net_connect (w_sock w1)) with (net_connect (w_sock w))
    end.
    rewrite Hconnect.
    destruct (Z.ltb_spec p int32_min); [lia|].
    destruct (Z.ltb_spec int32_max p); [lia|].
    reflexivity.
Qed.

(** A port that does not exist, on a host that resolves. *)
Lemma X12_status_always_answers_witness :
  fst (status (H := example_runtime []) 40
         {| cfg_pid := None; cfg_port := Some 70000; cfg_host := None |}
         (fresh_world [] [] []))
  = Ok (Failed OverflowError).
Proof.
  destruct (X12_status_always_answers (H := example_runtime []) 40
              {| cfg_pid := None; cfg_port := Some 70000; cfg_host := None |}
              (fresh_world [] [] [])) as (_ & _ & Hport & _).
  apply (Hport 70000); [reflexivity|lia|reflexivity|reflexivity|discriminate].
Defined.

(** The same port on a host name that does not resolve: the ping gives
    [None] and the server is reported as stopped. *)
Lemma status_unresolved_host_bad_port :
  fst (status (H := example_runtime []) 40
         {| cfg_pid := None; cfg_port := Some 70000;
            cfg_host := Some "nonexistent.invalid"%string |}
         {| w_sock := {| net_create := None; net_connect := Some HostUnresolved;
                         net_send := []; net_recv := [];
                         sock_created := false; sock_closed := false;
                         sock_sent := [] |};
            w_http := {| http_replies := []; http_requests := [] |};
            w_rand := [] |})
  = Ok (Stopped "messages.no_process_running").
Proof. reflexivity. Qed.

(** X13. When the ping gives nothing ([None], or a document that Python
    counts as false, such as an empty object), [status] never reports the
    server as running: it reports it as starting when a non-zero pid is
    configured and [os.kill(pid, 0)] finds the process, and as stopped
    when no pid (or pid 0) is configured or [os.kill] raises an
    [OSError]. *)
Theorem X13_status_without_ping `{PyRuntime} (fuel : nat) (cfg : config) (w w' : world)
    (r : json) :
  ping fuel
       (match cfg_host cfg with Some h => h | None => "127.0.0.1"%string end)
       (match cfg_port cfg with Some p => p | None => 25565 end) 3 w
  = (Ok r, w') ->
  truthy r = false ->
  (cfg_pid cfg = None \/ cfg_pid cfg = Some 0 ->
   status fuel cfg w = (Ok (Stopped (i18n_t "messages.no_process_running")), w')) /\
  (forall p, cfg_pid cfg = Some p -> p <> 0 -> os_kill0 p = None ->
             status fuel cfg w
             = (Ok (Starting p (i18n_t "messages.server_starting_no_response")), w')) /\
  (forall p e, cfg_pid cfg = Some p -> p <> 0 -> os_kill0 p = Some e ->
               is_OSError e = true ->
               status fuel cfg w
               = (Ok (Stopped (i18n_t "messages.no_process_running")), w')).
Proof.
  intros Hping Hfalse.
  split; [|split].
  - intros Hpid. unfold status, try_except. unfold bindM at 1.
    rewrite Hping, Hfalse. destruct Hpid as [-> | ->]; reflexivity.
  - intros p Hpid Hp Hkill. unfold status, try_except. unfold bindM at 1.
    rewrite Hping, Hfalse, Hpid. destruct (Z.eqb_spec p 0); [contradiction|].
    cbn [negb]. rewrite Hkill. reflexivity.
  - intros p e Hpid Hp Hkill He. unfold status, try_except. unfold bindM at 1.
    rewrite Hping, Hfalse, Hpid. destruct (Z.eqb_spec p 0); [contradiction|].
    cbn [negb]. rewrite Hkill, He. reflexivity.
Qed.

(** The connection is refused and the configured process is gone. *)
Lemma X13_status_without_ping_witness :
  status (H := example_runtime []) 40
    {| cfg_pid := Some 4242; cfg_port := None; cfg_host := None |}
    {| w_sock := {| net_create := None; net_connect := Some (ConnectFailed SockRefused);
                    net_send := []; net_recv := [];
                    sock_created := false; sock_closed := false; sock_sent := [] |};
       w_http := {| http_replies := []; http_requests := [] |};
       w_rand := [] |}
  = (Ok (Stopped "messages.no_process_running"),
     {| w_sock := {| net_create := None; net_connect := Some (ConnectFailed SockRefused);
                     net_send := []; net_recv := [];
                     sock_created := true; sock_closed := false; sock_sent := [] |};
        w_http := {| http_replies := []; http_requests := [] |};
        w_rand := [] |}).
Proof.
  destruct (X13_status_without_ping (H := example_runtime []) 40
              {| cfg_pid := Some 4242; cfg_port := None; cfg_host := None |}
              {| w_sock := {| net_create := None; net_connect := Some (ConnectFailed SockRefused);
                              net_send := []; net_recv := [];
                              sock_created := false; sock_closed := false;
                              sock_sent := [] |};
                 w_http := {| http_replies := []; http_requests := [] |};
                 w_rand := [] |}
              {| w_sock := {| net_create := None; net_connect := Some (ConnectFailed SockRefused);
                              net_send := []; net_recv := [];
                              sock_created := true; sock_closed := false;
                              sock_sent := [] |};
                 w_http := {| http_replies := []; http_requests := [] |};
                 w_rand := [] |}
              JNull) as (_ & _ & Hgone).
  - reflexivity.
  - reflexivity.
  - apply (Hgone 4242 OSError); [reflexivity|lia|reflexivity|reflexivity].
Defined.

(** ** The daemon bridge and the wrappers of lifecycle.py *)

(** X14. When the daemon answers with a JSON object whose [error] entry
    is true in Python's sense, [daemon_rcon_command] raises a
    [ConnectionError] and [DaemonRconClient.command] returns [None]; the
    call has made one POST request, to [/api/instance/<id>/rcon] under
    the daemon URL, carrying the command and the client's port and
    password, and has left the client and the socket untouched. *)
Theorem X14_daemon_error_reply `{PyRuntime} (self : t) (cmd : string) (w : world)
    (body : bytes) (replies : list http_reply) (text : string)
    (result : list (string * json)) (err : json) :
  http_replies (w_http w) = Reply body :: replies ->
  utf8_decode body = Returns text ->
  json_loads text = Returns (JDict result) ->
  lookup "error" result = Some err ->
  truthy err = true ->
  exists w',
    daemon_rcon_command (instance_id self) cmd (Some (port self)) (Some (password self)) w
    = (Raise (ConnectionError "RCON failed"), w') /\
    command self cmd w = (Ok (JNull, self), w') /\
    http_requests (w_http w')
    = http_requests (w_http w)
      ++ [{| req_url := (_daemon_url ++ "/api/instance/" ++ instance_id self ++ "/rcon")%string;
             req_body := JDict [("command"%string, JStr cmd);
                                ("rcon_port"%string, JInt (port self));
                                ("rcon_password"%string, JStr (password self))] |}] /\
    http_replies (w_http w') = replies /\
    w_sock w' = w_sock w.
Proof.
  intros Hreply Hdecode Hloads Herr Htruthy.
  assert (Hbridge : exists w',
             daemon_rcon_command (instance_id self) cmd (Some (port self))
                                 (Some (password self)) w
             = (Raise (ConnectionError "RCON failed"), w') /\
             http_requests (w_http w')
             = http_requests (w_http w)
               ++ [{| req_url := (_daemon_url ++ "/api/instance/" ++ instance_id self
                                              ++ "/rcon")%string;
                      req_body := JDict [("command"%string, JStr cmd);
                                         ("rcon_port"%string, JInt (port self));
                                         ("rcon_password"%string, JStr (password self))] |}] /\
             http_replies (w_http w') = replies /\
             w_sock w' = w_sock w).
  { unfold daemon_rcon_command, try_except, bindM, urlopen, lift.
    rewrite Hreply, Hdecode. cbn [call bind]. rewrite Hloads. cbn [call bind py_get].
    rewrite Herr. cbn [bind]. rewrite Htruthy.
    cbn [is_URLError raise]. eexists. split; [reflexivity|].
    cbn [w_http http_requests http_replies w_sock tl]. repeat split. }
  destruct Hbridge as (w' & Hrun & Hreq & Hrep & Hsock).
  exists w'. split; [exact Hrun|]. split; [|repeat split; assumption].
  unfold command, try_except, bindM. rewrite Hrun. reflexivity.
Qed.

(** The daemon reports that the authentication failed. *)
Lemma X14_daemon_error_reply_witness :
  exists w',
    command (H := example_daemon) (init "srv" "127.0.0.1" 25575 "pw") "list"
            (fresh_world [] [Reply (encode_utf8 example_error_text)] [])
    = (Ok (JNull, init "srv" "127.0.0.1" 25575 "pw"), w') /\
    http_replies (w_http w') = [].
Proof.
  destruct (X14_daemon_error_reply (H := example_daemon)
              (init "srv" "127.0.0.1" 25575 "pw") "list"
              (fresh_world [] [Reply (encode_utf8 example_error_text)] [])
              (encode_utf8 example_error_text) [] example_error_text
              [("error"%string, JStr "auth failed")] (JStr "auth failed"))
    as (w' & _ & Hcommand & _ & Hreplies & _).
  - reflexivity.
  - reflexivity.
  - reflexivity.
  - reflexivity.
  - reflexivity.
  - exists w'. split; assumption.
Defined.

(** X15. When the daemon answers with a JSON object without a true
    [error] whose [data] entry is itself an object with a [data] entry,
    [daemon_rcon_command] returns that inner entry as it is, and
    [DaemonRconClient.command] hands it on without touching the client;
    an [error] entry that is false in Python's sense (null, false, 0, an
    empty string) does not count as an error. *)
Theorem X15_daemon_result_reply `{PyRuntime} (self : t) (cmd : string) (w : world)
    (body : bytes) (replies : list http_reply) (text : string)
    (result inner : list (string * json)) (value : json) :
  http_replies (w_http w) = Reply body :: replies ->
  utf8_decode body = Returns text ->
  json_loads text = Returns (JDict result) ->
  match lookup "error" result with Some err => truthy err = false | None => True end ->
  lookup "data" result = Some (JDict inner) ->
  lookup "data" inner = Some value ->
  exists w',
    daemon_rcon_command (instance_id self) cmd (Some (port self)) (Some (password self)) w
    = (Ok value, w') /\
    command self cmd w = (Ok (value, self), w').
Proof.
  intros Hreply Hdecode Hloads Herr Hdata Hinner.
  assert (Hbridge : exists w',
             daemon_rcon_command (instance_id self) cmd (Some (port self))
                                 (Some (password self)) w = (Ok value, w')).
  { unfold daemon_rcon_command, try_except, bindM, urlopen, lift.
    rewrite Hreply, Hdecode. cbn [call bind]. rewrite Hloads. cbn [call bind py_get].
    destruct (lookup "error" result) as [err|]; cbn [bind].
    - rewrite Herr, Hdata. cbn [bind py_get]. rewrite Hinner. eexists. reflexivity.
    - cbn [truthy]. rewrite Hdata. cbn [bind py_get]. rewrite Hinner.
      eexists. reflexivity. }
  destruct Hbridge as (w' & Hrun). exists w'. split; [exact Hrun|].
  unfold command, try_except, bindM. rewrite Hrun. reflexivity.
Qed.

(** The daemon passes on the answer of the server. *)
Lemma X15_daemon_result_reply_witness :
  exists w',
    command (H := example_daemon) (init "srv" "127.0.0.1" 25575 "pw") "list"
            (fresh_world [] [Reply (encode_utf8 example_result_text)] [])
    = (Ok (JStr "There are 0 players", init "srv" "127.0.0.1" 25575 "pw"), w').
Proof.
  destruct (X15_daemon_result_reply (H := example_daemon)
              (init "srv" "127.0.0.1" 25575 "pw") "list"
              (fresh_world [] [Reply (encode_utf8 example_result_text)] [])
              (encode_utf8 example_result_text) [] example_result_text
              [("success"%string, JBool true);
               ("data"%string, JDict [("data"%string, JStr "There are 0 players")])]
              [("data"%string, JStr "There are 0 players")]
              (JStr "There are 0 players"))
    as (w' & _ & Hcommand).
  - reflexivity.
  - reflexivity.
  - reflexivity.
  - exact I.
  - reflexivity.
  - reflexivity.
  - exists w'. exact Hcommand.
Defined.

Lemma keeps_http_ret {A : Type} (a : A) : keeps_http (ret a).
Proof. intros w. reflexivity. Qed.

Lemma keeps_http_raise {A : Type} (e : exn) : keeps_http (raise (A := A) e).
Proof. intros w. reflexivity. Qed.

Lemma keeps_http_lift {A : Type} (m : outcome A) : keeps_http (lift m).
Proof. intros w. reflexivity. Qed.

Lemma keeps_http_bind {A B : Type} (m : M A) (k : A -> M B) :
  keeps_http m -> (forall a, keeps_http (k a)) -> keeps_http (bindM m k).
Proof.
  intros Hm Hk w. unfold bindM. specialize (Hm w).
  destruct (m w) as [[a|e|] w1]; cbn [snd] in *; [|exact Hm|exact Hm].
  rewrite <- Hm. apply Hk.
Qed.

Lemma keeps_http_try_finally {A : Type} (m : M A) (cleanup : M unit) :
  keeps_http m -> keeps_http cleanup -> keeps_http (try_finally m cleanup).
Proof.
  intros Hm Hc w. unfold try_finally. specialize (Hm w).
  destruct (m w) as [r w1]. specialize (Hc w1). cbn [snd] in *.
  destruct (cleanup w1) as [[[]|e|] w2]; cbn [snd] in *; congruence.
Qed.

Lemma keeps_http_socket : keeps_http Socket.socket_.
Proof. intros w. unfold Socket.socket_. destruct (net_create (w_sock w)); reflexivity. Qed.

Lemma keeps_http_settimeout (timeout : Z) : keeps_http (Socket.settimeout timeout).
Proof.
  intros w. unfold Socket.settimeout.
  destruct ((timeout <? - Socket.timeout_max) || (Socket.timeout_max <? timeout));
    [reflexivity|].
  destruct (timeout <? 0); reflexivity.
Qed.

Lemma keeps_http_connect (host : string) (port : Z) : keeps_http (Socket.connect host port).
Proof.
  intros w. unfold Socket.connect.
  destruct (Socket.has_nul host); [reflexivity|].
  destruct (net_connect (w_sock w)) as [[| |e]|]; try reflexivity.
  all: destruct ((port <? int32_min) || (int32_max <? port)); try reflexivity.
  all: destruct ((port <? 0) || (65535 <? port)); reflexivity.
Qed.

Lemma keeps_http_sendall (data : bytes) : keeps_http (Socket.sendall data).
Proof.
  intros w. unfold Socket.sendall.
  destruct (sock_closed (w_sock w)); [reflexivity|].
  destruct (net_send (w_sock w)) as [|[e|] sends]; reflexivity.
Qed.

Lemma keeps_http_recv_until (fuel : nat) (want : Z) (buf : bytes) :
  keeps_http (recv_until fuel want buf).
Proof.
  intros w. destruct (recv_until_moves_script fuel want buf w) as [evs ->]. reflexivity.
Qed.

Lemma keeps_http_read_packet : keeps_http _read_packet.
Proof.
  unfold _read_packet.
  apply keeps_http_bind; [apply keeps_http_recv_until|].
  intros [raw_size|]; [|apply keeps_http_ret].
  apply keeps_http_bind; [apply keeps_http_lift|]. intros size.
  apply keeps_http_bind; [apply keeps_http_recv_until|].
  intros [data|]; [|apply keeps_http_ret].
  apply keeps_http_bind; [apply keeps_http_lift|]. intros req_id.
  apply keeps_http_bind; [apply keeps_http_lift|]. intros pkt_type.
  apply keeps_http_ret.
Qed.

(** The direct path of [rcon_command] makes no request to the daemon. *)
Lemma rcon_direct_keeps_http `{PyRuntime} (host : string) (port : Z)
    (password command : string) (timeout : Z) :
  keeps_http (rcon_command host port password command timeout None).
Proof.
  rewrite (rcon_command_direct host port password command timeout None
             (or_introl eq_refl)).
  apply keeps_http_bind; [apply keeps_http_socket|]. intros _.
  apply keeps_http_bind; [apply keeps_http_settimeout|]. intros _.
  apply keeps_http_try_finally; [|intros w; reflexivity].
  apply keeps_http_bind; [apply keeps_http_connect|]. intros _.
  apply keeps_http_bind; [intros w; reflexivity|]. intros req_id.
  apply keeps_http_bind; [apply keeps_http_lift|]. intros pkt.
  apply keeps_http_bind; [apply keeps_http_sendall|]. intros _.
  apply keeps_http_bind; [apply keeps_http_read_packet|].
  intros [[[rid pkt_type] payload]|]; [|apply keeps_http_raise].
  destruct (rid =? -1); [apply keeps_http_raise|].
  apply keeps_http_bind; [intros w; reflexivity|]. intros req_id'.
  apply keeps_http_bind; [apply keeps_http_lift|]. intros pkt'.
  apply keeps_http_bind; [apply keeps_http_sendall|]. intros _.
  apply keeps_http_bind; [apply keeps_http_read_packet|].
  intros [[[rid' pkt_type'] payload']|]; [apply keeps_http_ret|apply keeps_http_raise].
Qed.

(** X16. The wrappers [_rcon_command] and [_send_rcon_command] of
    lifecycle.py pass no instance id to the bridge, so they always talk
    RCON over a socket of their own: whatever the network does, they make
    no request to the daemon and consume none of its replies. *)
Theorem X16_lifecycle_rcon_is_direct `{PyRuntime} (host : string) (port : Z)
    (password command : string) (timeout : Z) (w : world) :
  w_http (snd (_rcon_command host port password command timeout w)) = w_http w /\
  w_http (snd (_send_rcon_command host port password command w)) = w_http w.
Proof.
  split.
  - apply (rcon_direct_keeps_http host port password command timeout w).
  - apply (rcon_direct_keeps_http host port password command 5 w).
Qed.

(** X17. With a non-empty instance id, [rcon_command] takes the daemon
    branch: it opens no socket of its own and draws no random request id,
    so the socket and the entropy are left untouched; the host argument
    is ignored; and what the call gives does not depend on what the
    network would do to a socket. *)
Theorem X17_rcon_command_delegates `{PyRuntime} (host : string) (port : Z)
    (password command : string) (timeout : Z) (id : string) (w : world) :
  id <> EmptyString ->
  let run := rcon_command host port password command timeout (Some id) in
  w_sock (snd (run w)) = w_sock w /\
  w_rand (snd (run w)) = w_rand w /\
  (forall host', rcon_command host' port password command timeout (Some id) w = run w) /\
  (forall s, fst (run (with_sock w s)) = fst (run w)).
Proof.
  intros Hid. cbv zeta. unfold rcon_command.
  destruct (String.eqb_spec id EmptyString) as [|_]; [contradiction|]. cbn [negb].
  split; [|split; [|split]].
  - unfold daemon_rcon_command, try_except, bindM, urlopen, lift.
    destruct (http_replies (w_http w)) as [|[body|e] replies].
    + reflexivity.
    + match goal with
      | |- context [match ?m with _ => _ end] => destruct m as [v|e|]
      end; [reflexivity| |reflexivity].
      destruct (is_URLError e); reflexivity.
    + destruct (is_URLError e); reflexivity.
  - unfold daemon_rcon_command, try_except, bindM, urlopen, lift.
    destruct (http_replies (w_http w)) as [|[body|e] replies].
    + reflexivity.
    + match goal with
      | |- context [match ?m with _ => _ end] => destruct m as [v|e|]
      end; [reflexivity| |reflexivity].
      destruct (is_URLError e); reflexivity.
    + destruct (is_URLError e); reflexivity.
  - reflexivity.
  - intros s. unfold daemon_rcon_command, try_except, bindM, urlopen, lift.
    change (w_http (with_sock w s)) with (w_http w).
    destruct (http_replies (w_http w)) as [|[body|e] replies].
    + reflexivity.
    + match goal with
      | |- context [match ?m with _ => _ end] => destruct m as [v|e|]
      end; [reflexivity| |reflexivity].
      destruct (is_URLError e); reflexivity.
    + destruct (is_URLError e); reflexivity.
Qed.

(** A call with an instance id, while the daemon is down. *)
Lemma X17_rcon_command_delegates_witness :
  w_sock (snd (rcon_command (H := example_daemon) "127.0.0.1" 25575 "pw" "list" 5
                 (Some "srv"%string) (fresh_world [] [] [])))
  = w_sock (fresh_world [] [] []).
Proof.
  destruct (X17_rcon_command_delegates (H := example_daemon) "127.0.0.1" 25575 "pw" "list"
              5 "srv" (fresh_world [] [] [])) as (Hsock & _).
  - discriminate.
  - exact Hsock.
Defined.

(** ** Formatting and sending a command (lifecycle.py) *)

(** The names the [formatters] dict knows. *)
Lemma formatters_names `{PyRuntime} `{PyText} (name : string) :
  assoc name Lifecycle.formatters = None <->
  ~ In name ["say"; "give"; "save-all"; "list"; "weather"; "difficulty"; "whitelist";
             "op"; "deop"; "ban"; "pardon"; "kick"; "tp"; "time"; "gamemode"; "seed";
             "stop"]%string.
Proof.
  unfold Lifecycle.formatters. cbn [assoc In].
  repeat match goal with
         | |- context [String.eqb ?k name] => destruct (String.eqb_spec k name)
         end;
    split; intros Hx; try discriminate; try reflexivity; try tauto;
    try (exfalso; apply Hx; tauto).
Qed.

(** X18. [_format_command] hands back, unchanged and whatever the
    arguments, every command name that is not one of the 17 names of its
    [formatters] dict. *)
Theorem X18_format_unknown_command `{PyRuntime} `{PyText} (name : string) (args : json) :
  ~ In name ["say"; "give"; "save-all"; "list"; "weather"; "difficulty"; "whitelist";
             "op"; "deop"; "ban"; "pardon"; "kick"; "tp"; "time"; "gamemode"; "seed";
             "stop"]%string ->
  Lifecycle._format_command (JStr name) args = Ok (JStr name).
Proof.
  intros Hname. apply formatters_names in Hname.
  unfold Lifecycle._format_command. rewrite Hname. reflexivity.
Qed.

Lemma assoc_in {A : Type} (key : string) (entries : list (string * A)) (v : A) :
  assoc key entries = Some v -> In (key, v) entries.
Proof.
  induction entries as [|[k x] entries IH]; cbn [assoc]; [discriminate|].
  destruct (String.eqb_spec k key) as [->|_].
  - intros [= ->]. left. reflexivity.
  - intros Hrest. right. apply IH. exact Hrest.
Qed.

(** Every formatter that reads its argument starts with [a.get(...)]. *)
Lemma formatters_need_dict `{PyRuntime} `{PyText} (name : string)
    (formatter : json -> outcome string) (args : json) :
  assoc name Lifecycle.formatters = Some formatter ->
  ~ In name ["save-all"; "list"; "seed"; "stop"]%string ->
  (forall d, args <> JDict d) ->
  formatter args = Raise AttributeError.
Proof.
  intros Hassoc Hreads Hargs.
  assert (Hget : forall key default, py_get args key default = Raise AttributeError).
  { intros key default. destruct args; try reflexivity. exfalso. exact (Hargs _ eq_refl). }
  unfold Lifecycle.formatters in Hassoc. cbn [assoc] in Hassoc.
  repeat match type of Hassoc with
         | context [String.eqb ?k name] =>
             destruct (String.eqb_spec k name) as [<-|_];
               [injection Hassoc as <-; try (rewrite Hget; reflexivity);
                exfalso; apply Hreads; cbn [In]; tauto|]
         end.
  discriminate.
Qed.

(** X19. The four commands without arguments (save-all, list, seed,
    stop) are formatted to their own name whatever [args] is, even when
    it is no dict; each of the 13 other known commands raises
    [AttributeError] when [args] is not a dict. *)
Theorem X19_format_command_args `{PyRuntime} `{PyText} (name : string) (args : json) :
  (In name ["save-all"; "list"; "seed"; "stop"]%string ->
   Lifecycle._format_command (JStr name) args = Ok (JStr name)) /\
  (In name ["say"; "give"; "weather"; "difficulty"; "whitelist"; "op"; "deop"; "ban";
            "pardon"; "kick"; "tp"; "time"; "gamemode"]%string ->
   (forall d, args <> JDict d) ->
   Lifecycle._format_command (JStr name) args = Raise AttributeError).
Proof.
  split.
  - cbn [In]. intros [<-|[<-|[<-|[<-|[]]]]]; reflexivity.
  - intros Hname Hargs. unfold Lifecycle._format_command.
    destruct (assoc name Lifecycle.formatters) as [formatter|] eqn:Hassoc.
    + rewrite (formatters_need_dict name formatter args Hassoc); [reflexivity| |exact Hargs].
      cbn [In] in *. intros [<-|[<-|[<-|[<-|[]]]]];
        repeat (destruct Hname as [Hname|Hname]; [discriminate|]); exact Hname.
    + apply formatters_names in Hassoc. exfalso. apply Hassoc. cbn [In] in *. tauto.
Qed.

(** A command the dict does not know. *)
Lemma X18_format_unknown_command_witness :
  Lifecycle._format_command (H := example_runtime []) (H0 := example_text)
    (JStr "tellraw @a hello") (JDict [])
  = Ok (JStr "tellraw @a hello").
Proof.
  apply (X18_format_unknown_command (H := example_runtime []) (H0 := example_text)
           "tellraw @a hello" (JDict [])).
  cbn [In]. intros Hin.
  repeat (destruct Hin as [Hin|Hin]; [discriminate|]). exact Hin.
Defined.

(** [stop] with a list for arguments, and [kick] with the same. *)
Lemma X19_format_command_args_witness :
  Lifecycle._format_command (H := example_runtime []) (H0 := example_text)
    (JStr "stop") (JList [JInt 1]) = Ok (JStr "stop") /\
  Lifecycle._format_command (H := example_runtime []) (H0 := example_text)
    (JStr "kick") (JList [JInt 1]) = Raise AttributeError.
Proof.
  split.
  - apply (X19_format_command_args (H := example_runtime []) (H0 := example_text)
             "stop" (JList [JInt 1])).
    cbn [In]. tauto.
  - apply (X19_format_command_args (H := example_runtime []) (H0 := example_text)
             "kick" (JList [JInt 1])).
    + cbn [In]. tauto.
    + discriminate.
Defined.

Lemma formatters_return `{PyRuntime} `{PyText} (name : string)
    (formatter : json -> outcome string) (args : json) :
  assoc name Lifecycle.formatters = Some formatter ->
  formatter args <> OutOfFuel.
Proof.
  intros Hassoc. unfold Lifecycle.formatters in Hassoc. cbn [assoc] in Hassoc.
  repeat match type of Hassoc with
         | context [String.eqb ?k name] =>
             destruct (String.eqb_spec k name) as [_|_];
               [injection Hassoc as <-;
                repeat (apply bind_returns;
                        [first [apply py_get_returns|apply call_total]|intros ?]);
                discriminate|]
         end.
  discriminate.
Qed.

Lemma format_command_returns `{PyRuntime} `{PyText} (cmd args : json) :
  Lifecycle._format_command cmd args <> OutOfFuel.
Proof.
  unfold Lifecycle._format_command. destruct cmd; try discriminate.
  destruct (assoc s Lifecycle.formatters) as [formatter|] eqn:Hassoc; [|discriminate].
  apply bind_returns; [exact (formatters_return s formatter args Hassoc)|]. discriminate.
Qed.

(** [command] once it has read its three entries from the config. *)
Lemma command_entries `{PyRuntime} `{PyText} (entries : list (string * json)) (w : world) :
  let get key default :=
    match lookup key entries with Some v => v | None => default end in
  Lifecycle.command (JDict entries) w
  = try_except
      (if negb (truthy (get "command"%string JNull))
       then ret (Lifecycle.CommandRejected "No command specified")
       else if negb (truthy (get "instance_id"%string JNull))
       then ret (Lifecycle.CommandRejected "No instance_id specified")
       else
         formatted <-- lift (Lifecycle._format_command (get "command"%string JNull)
                                                       (get "args"%string (JDict []))) ;;
         body <-- daemon_rcon.urlopen
                    {| req_url := (daemon_rcon._daemon_url ++ "/api/instance/"
                                     ++ py_str (get "instance_id"%string JNull)
                                     ++ "/rcon")%string;
                       req_body := JDict [("command"%string, formatted)] |} ;;
         lift (text <- call (utf8_decode body) ;;
               result <- call (json_loads text) ;;
               success <- py_get result "success" (JBool true) ;;
               Ok (Lifecycle.CommandSent success formatted)))
      (fun e => ret (Lifecycle.CommandFailed e)) w.
Proof.
  intros get.
  assert (Hget : forall key default,
             lift (py_get (JDict entries) key default) w = (Ok (get key default), w)).
  { intros key default. unfold get, lift. cbn [py_get].
    destruct (lookup key entries); reflexivity. }
  unfold Lifecycle.command, try_except.
  rewrite (bindM_ok _ _ _ _ _ (Hget _ _)).
  rewrite (bindM_ok _ _ _ _ _ (Hget _ _)).
  rewrite (bindM_ok _ _ _ _ _ (Hget _ _)).
  reflexivity.
Qed.

(** X20. [command] checks its input before it does anything: without a
    command (absent, null, empty) it answers "No command specified",
    with a command but without an instance id "No instance_id
    specified", in both cases without a request to the daemon; and when
    it reports the command as sent, it has made exactly one request,
    whose body holds the formatted command and nothing else. *)
Theorem X20_command_validates `{PyRuntime} `{PyText} (entries : list (string * json))
    (w : world) :
  let get key default :=
    match lookup key entries with Some v => v | None => default end in
  let command_text := get "command"%string JNull in
  let instance_id := get "instance_id"%string JNull in
  (truthy command_text = false ->
   Lifecycle.command (JDict entries) w
   = (Ok (Lifecycle.CommandRejected "No command specified"), w)) /\
  (truthy command_text = true -> truthy instance_id = false ->
   Lifecycle.command (JDict entries) w
   = (Ok (Lifecycle.CommandRejected "No instance_id specified"), w)) /\
  (forall success formatted w',
     Lifecycle.command (JDict entries) w
     = (Ok (Lifecycle.CommandSent success formatted), w') ->
     Lifecycle._format_command command_text (get "args"%string (JDict [])) = Ok formatted /\
     http_requests (w_http w')
     = http_requests (w_http w)
       ++ [{| req_url := (daemon_rcon._daemon_url ++ "/api/instance/"
                            ++ py_str instance_id ++ "/rcon")%string;
              req_body := JDict [("command"%string, formatted)] |}]).
Proof.
  intros get command_text instance_id.
  pose proof (command_entries entries w) as Hrun. cbv zeta in Hrun.
  fold get in Hrun. fold command_text instance_id in Hrun.
  rewrite Hrun. clear Hrun. unfold try_except.
  split; [|split].
  - intros ->. reflexivity.
  - intros -> ->. reflexivity.
  - intros success formatted w'.
    destruct (truthy command_text); cbn [negb]; [|discriminate].
    destruct (truthy instance_id); cbn [negb]; [|discriminate].
    unfold bindM at 1, lift at 1.
    destruct (Lifecycle._format_command command_text _) as [f| |]; try discriminate.
    unfold bindM at 1, daemon_rcon.urlopen.
    destruct (http_replies (w_http w)) as [|[body|e] replies]; try discriminate.
    unfold lift.
    destruct (call (utf8_decode body)) as [text| |]; cbn [bind]; try discriminate.
    destruct (call (json_loads text)) as [result| |]; cbn [bind]; try discriminate.
    destruct (py_get result "success" (JBool true)) as [success'| |]; cbn [bind];
      try discriminate.
    intros [= _ <- <-]. split; reflexivity.
Qed.

(** A config without a command. *)
Lemma X20_command_validates_witness :
  Lifecycle.command (H := example_daemon) (H0 := example_text)
    (JDict [("instance_id"%string, JStr "srv")]) (fresh_world [] [] [])
  = (Ok (Lifecycle.CommandRejected "No command specified"), fresh_world [] [] []).
Proof.
  destruct (X20_command_validates (H := example_daemon) (H0 := example_text)
              [("instance_id"%string, JStr "srv")] (fresh_world [] [] []))
    as (Hnone & _).
  apply Hnone. reflexivity.
Defined.

(** X21. [command] never raises: whatever the config (not even a dict),
    the arguments, the daemon's behaviour and its reply, the call
    answers with one of its three result dicts. *)
Theorem X21_command_never_raises `{PyRuntime} `{PyText} (config : json) (w : world) :
  exists result w', Lifecycle.command config w = (Ok result, w').
Proof.
  unfold Lifecycle.command, try_except.
  match goal with
  | |- context [let (o, w') := ?m w in _] =>
      assert (Hbody : fst (m w) <> OutOfFuel); [|destruct (m w) as [[res|e|] w1]]
  end.
  - revert w.
    apply returns_bind; [apply returns_lift, py_get_returns|]. intros command_text.
    apply returns_bind; [apply returns_lift, py_get_returns|]. intros args.
    apply returns_bind; [apply returns_lift, py_get_returns|]. intros instance_id.
    destruct (negb (truthy command_text)); [apply returns_ret|].
    destruct (negb (truthy instance_id)); [apply returns_ret|].
    apply returns_bind; [apply returns_lift, format_command_returns|]. intros formatted.
    apply returns_bind.
    + intros w. unfold daemon_rcon.urlopen.
      destruct (http_replies (w_http w)) as [|[body|e] replies]; discriminate.
    + intros body. apply returns_lift.
      repeat (apply bind_returns; [first [apply call_total|apply py_get_returns]|intros ?]).
      discriminate.
  - do 2 eexists. reflexivity.
  - do 2 eexists. reflexivity.
  - cbn [fst] in Hbody. contradiction.
Qed.
